(** * kubac: install sequencer, verification probes and configuration

    A shallow embedding of the Go packages [internal/install],
    [internal/verify], [internal/render] and [internal/config] of kubac.

    The cluster API server, the file system, the clock and standard output
    are external collaborators.  They are modelled by an abstract world [W]
    together with a record of operations on it ([API]); every call the
    program makes on a collaborator is also appended to a log of [Call]s, so
    that statements of the form "this action is never invoked" can be made.
    Go errors are ordinary values ([option error], [None] being [nil]);
    a Go panic is the [Panic] result of the monad [M]. *)

From Stdlib Require Import ZArith List String Ascii Bool Lia.
From Stdlib Require Import DecimalString.
Import ListNotations.

Local Open Scope string_scope.
Local Open Scope Z_scope.

Set Warnings "-register-all".

(** ** Go base types *)

(** [int] is 64 bits wide on every platform kubac is built for, [int32] is
    32 bits wide; both are two's complement. *)
Definition wrap (bits : Z) (z : Z) : Z :=
  (z + 2 ^ (bits - 1)) mod 2 ^ bits - 2 ^ (bits - 1).

Definition int (z : Z) : Z := wrap 64 z.
Definition int32 (z : Z) : Z := wrap 32 z.

Definition max_int : Z := 2 ^ 63 - 1.
Definition min_int : Z := - 2 ^ 63.

(** [time.Duration] counts nanoseconds. *)
Definition Second : Z := 1000000000.

Definition nl : string := String "010" EmptyString.
Definition dquote : string := String "034" EmptyString.

(** The verb [%d] of package fmt. *)
Definition fmt_d (z : Z) : string := NilZero.string_of_int (Z.to_int z).

(** ** Errors *)

(** The reason carried by an error of the cluster API
    (k8s.io/apimachinery [metav1.StatusReason]). *)
Inductive StatusReason :=
| ReasonAlreadyExists
| ReasonNotFound
| ReasonForbidden
| ReasonUnauthorized
| ReasonUnknown.

(** Values of the Go interface [error] that the program meets: errors of
    the cluster API, errors of other libraries, and errors built by
    [fmt.Errorf] with a trailing [%w]. *)
Inductive error :=
| StatusError (reason : StatusReason) (message : string)
| PlainError (message : string)
| WrapError (prefix : string) (inner : error).

(** The method [Error()]. *)
Fixpoint Error (e : error) : string :=
  match e with
  | StatusError _ m => m
  | PlainError m => m
  | WrapError p inner => p ++ Error inner
  end.

(** [wait.ErrWaitTimeout]. *)
Definition ErrWaitTimeout : error :=
  PlainError "timed out waiting for the condition".

Definition is_nil (err : option error) : bool :=
  match err with None => true | Some _ => false end.

(** ** Cluster resources (the fields the program reads or writes) *)

Record Deployment := {
  Spec_Replicas : option Z;        (* *int32 *)
  Status_ReadyReplicas : Z         (* int32 *)
}.

Record Container := {
  Container_Name : string;
  Container_Image : string;
  Container_Privileged : option bool   (* SecurityContext.Privileged *)
}.

Record Pod := {
  Pod_Name : string;
  Pod_Namespace : string;
  Pod_Containers : list Container
}.

Record HorizontalPodAutoscaler := {
  Spec_MinReplicas : option Z;     (* *int32 *)
  Spec_MaxReplicas : Z;            (* int32 *)
  Status_CurrentReplicas : Z       (* int32 *)
}.

Inductive PolicyRule := Rule.

Record NetworkPolicyObject := {
  Spec_Ingress : list PolicyRule;
  Spec_Egress : list PolicyRule
}.

Record DirEntry := {
  Entry_Name : string;
  Entry_IsDir : bool
}.

Record GroupVersionResource := {
  Group : string;
  Version : string;
  Resource : string
}.

(** ** Configuration (internal/config/config.go) *)

Record GitOpsConfig := {
  GitOps_Provider : string;
  GitOps_RepoURL : string;
  GitOps_Branch : string;
  GitOps_Path : string
}.

Record ComponentConfig := {
  Component_Enabled : bool;
  Component_Version : string
}.

Record IngressConfig := {
  Ingress_Enabled : bool;
  Ingress_Provider : string;
  Ingress_Version : string
}.

Record PlatformConfig := {
  MetricsServer : ComponentConfig;
  KubeStateMetrics : ComponentConfig;
  PrometheusStack : ComponentConfig;
  Ingress : IngressConfig;
  CertManager : ComponentConfig
}.

Record PolicyConfig := {
  Policy_Enabled : bool;
  Policy_Provider : string;
  Policy_Version : string;
  PodSecurityStandard : string;
  CustomPolicies : list string
}.

Record NetworkPolicy := {
  NetworkPolicy_Enabled : bool;
  DefaultDeny : bool;
  SystemNamespaces : list string
}.

Record HPAConfig := {
  HPA_Enabled : bool
}.

Record NodeAutoscalerConfig := {
  NodeAutoscaler_Enabled : bool;
  NodeAutoscaler_Provider : string;
  NodeAutoscaler_Version : string
}.

Record AutoscalingConfig := {
  Autoscaling_HPA : HPAConfig;
  NodeAutoscaler : NodeAutoscalerConfig
}.

Record ResourceList := {
  CPU : string;
  Memory : string
}.

Record ResourcesSpec := {
  Requests : ResourceList;
  Limits : ResourceList
}.

Record HPASpec := {
  MinReplicas : Z;
  MaxReplicas : Z;
  TargetCPUUtilization : Z
}.

Record PDBSpec := {
  MinAvailable : Z
}.

Record DemoConfig := {
  Demo_Namespace : string;
  Demo_Replicas : Z;
  Demo_Resources : ResourcesSpec;
  Demo_HPA : HPASpec;
  Demo_PDB : PDBSpec
}.

Record VerifyConfig := {
  Verify_Timeout : string;
  Verify_Parallel : bool;
  Verify_Tests : list string
}.

Record Config := {
  ClusterProfile : string;
  Mode : string;
  GitOps : GitOpsConfig;
  Platform : PlatformConfig;
  Policy : PolicyConfig;
  NetworkPolicy_ : NetworkPolicy;
  Autoscaling : AutoscalingConfig;
  Demo : DemoConfig;
  Verify : VerifyConfig
}.

(** [DefaultConfig]. *)
Definition DefaultConfig (profile mode : string) : Config := {|
  ClusterProfile := profile;
  Mode := mode;
  GitOps := {|
    GitOps_Provider := "flux";
    GitOps_RepoURL := "";
    GitOps_Branch := "main";
    GitOps_Path := "clusters/my-cluster" |};
  Platform := {|
    MetricsServer := {| Component_Enabled := true; Component_Version := "v0.7.0" |};
    KubeStateMetrics := {| Component_Enabled := true; Component_Version := "v2.10.1" |};
    PrometheusStack := {| Component_Enabled := false; Component_Version := "v55.5.0" |};
    Ingress := {| Ingress_Enabled := false; Ingress_Provider := "nginx";
                  Ingress_Version := "v1.9.5" |};
    CertManager := {| Component_Enabled := false; Component_Version := "v1.13.3" |} |};
  Policy := {|
    Policy_Enabled := true;
    Policy_Provider := "kyverno";
    Policy_Version := "v1.11.4";
    PodSecurityStandard := "restricted";
    CustomPolicies :=
      ["require-non-root-user"; "require-ro-rootfs"; "disallow-privileged"] |};
  NetworkPolicy_ := {|
    NetworkPolicy_Enabled := true;
    DefaultDeny := true;
    SystemNamespaces := ["kube-system"; "kube-public"; "kubac-system"] |};
  Autoscaling := {|
    Autoscaling_HPA := {| HPA_Enabled := true |};
    NodeAutoscaler := {|
      NodeAutoscaler_Enabled := false;
      NodeAutoscaler_Provider := "cluster-autoscaler";
      NodeAutoscaler_Version := "v1.29.0" |} |};
  Demo := {|
    Demo_Namespace := "kubac-demo";
    Demo_Replicas := 2;
    Demo_Resources := {|
      Requests := {| CPU := "100m"; Memory := "128Mi" |};
      Limits := {| CPU := "200m"; Memory := "256Mi" |} |};
    Demo_HPA := {| MinReplicas := 2; MaxReplicas := 10; TargetCPUUtilization := 50 |};
    Demo_PDB := {| MinAvailable := 1 |} |};
  Verify := {|
    Verify_Timeout := "300s";
    Verify_Parallel := true;
    Verify_Tests := ["pod-selfheal"; "hpa-scale"; "policy-deny"; "network-deny"] |}
|}.

(** ** Calls on the external collaborators *)

Inductive Call :=
| NamespaceCreate (name : string)
| NamespaceDelete (name : string)
| DeploymentGet (namespace name : string)
| PodList (namespace selector : string)
| PodDelete (namespace name : string)
| PodCreate (namespace : string) (pod : Pod)
| HPAGet (namespace name : string)
| NetworkPolicyList (namespace : string)
| DynamicApply (gvr : GroupVersionResource) (namespace name : string)
| ReadDir (path : string)
| ReadFile (path : string)
| MkdirAll (path : string)
| WriteFile (path : string)
| Sleep (d : Z)
| Print (text : string).

(** The calls that reach the cluster API server. *)
Definition is_cluster_call (c : Call) : bool :=
  match c with
  | NamespaceCreate _ | NamespaceDelete _ | DeploymentGet _ _ | PodList _ _
  | PodDelete _ _ | PodCreate _ _ | HPAGet _ _ | NetworkPolicyList _
  | DynamicApply _ _ _ => true
  | ReadDir _ | ReadFile _ | MkdirAll _ | WriteFile _ | Sleep _ | Print _ => false
  end.

(** The calls that change the state of the cluster. *)
Definition is_cluster_mutation (c : Call) : bool :=
  match c with
  | NamespaceCreate _ | NamespaceDelete _ | PodDelete _ _ | PodCreate _ _
  | DynamicApply _ _ _ => true
  | _ => false
  end.

(** ** YAML documents (gopkg.in/yaml.v3, after tag resolution) *)

Inductive node :=
| YStr (s : string)
| YInt (z : Z)
| YBool (b : bool)
| YSeq (items : list node)
| YMap (entries : list (string * node)).

(** ** Results of a computation: a value or a panic *)

Inductive Res (A : Type) :=
| Val (a : A)
| Panic (msg : string).

Arguments Val {A} a.
Arguments Panic {A} msg.

(** ** The external collaborators *)

(** What the program needs from its environment: the cluster client
    (client-go), the file system and clock (os, time), and the pure library
    functions it calls.  [W] is the state of the outside world, [Bytes] the
    contents of a file, [Obj] a parsed manifest
    ([unstructured.Unstructured]).  The program never looks inside [Bytes]
    or [Obj]; it only hands them from one library call to the next. *)
Record API (W Bytes Obj : Type) := {
  (* clientset.CoreV1().Namespaces() *)
  Namespaces_Create : string -> W -> option error * W;
  Namespaces_Delete : string -> W -> option error * W;
  (* clientset.AppsV1().Deployments(ns).Get *)
  Deployments_Get : string -> string -> W -> (error + Deployment) * W;
  (* clientset.CoreV1().Pods(ns) *)
  Pods_List : string -> string -> W -> (error + list Pod) * W;
  Pods_Delete : string -> string -> W -> option error * W;
  Pods_Create : string -> Pod -> W -> option error * W;
  (* clientset.AutoscalingV2().HorizontalPodAutoscalers(ns).Get *)
  HPA_Get : string -> string -> W -> (error + HorizontalPodAutoscaler) * W;
  (* clientset.NetworkingV1().NetworkPolicies(ns).List *)
  NetworkPolicies_List : string -> W -> (error + list NetworkPolicyObject) * W;
  (* dynamic.Resource(gvr).Namespace(ns).Apply(name, obj) *)
  Dynamic_Apply :
    GroupVersionResource -> string -> string -> Obj -> W -> option error * W;
  (* package os *)
  os_ReadDir : string -> W -> (error + list DirEntry) * W;
  os_ReadFile : string -> W -> (error + Bytes) * W;
  os_MkdirAll : string -> W -> option error * W;
  os_WriteFile : string -> Bytes -> W -> option error * W;
  (* package time *)
  time_Now : W -> Z;
  time_Sleep : Z -> W -> W;
  Duration_String : Z -> string;
  (* package path/filepath *)
  filepath_Join : string -> string -> string;
  filepath_Ext : string -> string;
  (* unstructured.Unstructured *)
  UnmarshalJSON : Bytes -> error + Obj;
  GroupVersionKind_Group : Obj -> string;
  GroupVersionKind_Version : Obj -> string;
  GetKind : Obj -> string;
  GetNamespace : Obj -> string;
  GetName : Obj -> string;
  (* []byte(s) *)
  bytes_of_string : string -> Bytes;
  (* gopkg.in/yaml.v3: a document tree to text, and back *)
  yaml_emit : node -> error + Bytes;
  yaml_parse : Bytes -> error + node
}.

Arguments Namespaces_Create {W Bytes Obj}.
Arguments Namespaces_Delete {W Bytes Obj}.
Arguments Deployments_Get {W Bytes Obj}.
Arguments Pods_List {W Bytes Obj}.
Arguments Pods_Delete {W Bytes Obj}.
Arguments Pods_Create {W Bytes Obj}.
Arguments HPA_Get {W Bytes Obj}.
Arguments NetworkPolicies_List {W Bytes Obj}.
Arguments Dynamic_Apply {W Bytes Obj}.
Arguments os_ReadDir {W Bytes Obj}.
Arguments os_ReadFile {W Bytes Obj}.
Arguments os_MkdirAll {W Bytes Obj}.
Arguments os_WriteFile {W Bytes Obj}.
Arguments time_Now {W Bytes Obj}.
Arguments time_Sleep {W Bytes Obj}.
Arguments Duration_String {W Bytes Obj}.
Arguments filepath_Join {W Bytes Obj}.
Arguments filepath_Ext {W Bytes Obj}.
Arguments UnmarshalJSON {W Bytes Obj}.
Arguments GroupVersionKind_Group {W Bytes Obj}.
Arguments GroupVersionKind_Version {W Bytes Obj}.
Arguments GetKind {W Bytes Obj}.
Arguments GetNamespace {W Bytes Obj}.
Arguments GetName {W Bytes Obj}.
Arguments bytes_of_string {W Bytes Obj}.
Arguments yaml_emit {W Bytes Obj}.
Arguments yaml_parse {W Bytes Obj}.

(** ** The monad of the program: world and call log, value or panic *)

Definition M (W A : Type) : Type := W * list Call -> Res A * (W * list Call).

Definition ret {W A} (a : A) : M W A := fun s => (Val a, s).

Definition bind {W A B} (c : M W A) (k : A -> M W B) : M W B :=
  fun s =>
    match c s with
    | (Val a, s') => k a s'
    | (Panic msg, s') => (Panic msg, s')
    end.

Definition panic {W A} (msg : string) : M W A := fun s => (Panic msg, s).

Declare Scope go_scope.
Delimit Scope go_scope with go.
Notation "x <- c ;; k" := (bind c (fun x => k))
  (at level 61, c at next level, right associativity) : go_scope.
Notation "c ;; k" := (bind c (fun _ => k))
  (at level 61, right associativity) : go_scope.

(** [if err := c; err != nil { return err }] followed by [k]. *)
Definition try {W} (c : M W (option error)) (k : M W (option error))
  : M W (option error) :=
  bind c (fun err => match err with Some e => ret (Some e) | None => k end).

Notation "'check' c ;; k" := (try c k)
  (at level 61, c at next level, right associativity) : go_scope.

(** [fmt.Errorf(prefix + "%w", err)] on the error of [c], if any. *)
Definition wrapf {W} (prefix : string) (c : M W (option error))
  : M W (option error) :=
  bind c (fun err =>
    ret (match err with Some e => Some (WrapError prefix e) | None => None end)).

(** [if b { c }]: the body may return early with an error. *)
Definition when {W} (b : bool) (c : M W (option error)) : M W (option error) :=
  if b then c else ret None.

(** A call that returns an error or nothing. *)
Definition call0 {W} (ev : Call) (op : W -> option error * W)
  : M W (option error) :=
  fun s => let '(r, w) := op (fst s) in (Val r, (w, (snd s ++ [ev])%list)).

(** A call that returns an error or a value. *)
Definition call1 {W A} (ev : Call) (op : W -> (error + A) * W)
  : M W (error + A) :=
  fun s => let '(r, w) := op (fst s) in (Val r, (w, (snd s ++ [ev])%list)).

(** Writing to standard output. *)
Definition Print_ {W} (text : string) : M W unit :=
  fun s => (Val tt, (fst s, (snd s ++ [Print text])%list)).

Definition Println {W} (text : string) : M W unit := Print_ (text ++ nl).

Section Program.

Context {W Bytes Obj : Type}.
Variable K : API W Bytes Obj.
Variable cfg : Config.

Local Open Scope go_scope.

Local Abbreviation Go := (M W).

Definition sleep (d : Z) : Go unit :=
  fun s => (Val tt, (time_Sleep K d (fst s), (snd s ++ [Sleep d])%list)).

Definition now : Go Z := fun s => (Val (time_Now K (fst s)), s).

(** ** k8s.io/apimachinery/pkg/util/wait *)

(** [wait.PollImmediate(interval, timeout, condition)] belongs to the
    Kubernetes client library.  Its contract: the condition is evaluated at
    once; a condition that reports done ends the poll with [nil]; a
    condition that returns an error ends the poll with that error; else the
    poller sleeps [interval] and evaluates again, as long as the time slept
    does not exceed [timeout]; after that it returns [ErrWaitTimeout].
    The condition is therefore evaluated when 0, [interval],
    2 * [interval], ... have elapsed, [timeout / interval + 1] times at
    most.  (The library reads a timeout of 0 as no timeout; the program
    only polls with 60 s and 120 s.)  A panic of the condition is not
    caught.

    The definition below is the contract for a positive timeout.  A poll
    without timeout need not end and has no counterpart here: what is
    stated about the number of attempts or about giving up is stated for a
    positive timeout only. *)
Fixpoint poll (retries : nat) (interval : Z)
    (condition : Go (bool * option error)) : Go (option error) :=
  r <- condition ;;
  match r with
  | (_, Some e) => ret (Some e)
  | (true, None) => ret None
  | (false, None) =>
      match retries with
      | O => ret (Some ErrWaitTimeout)
      | S n => sleep interval ;; poll n interval condition
      end
  end.

Definition PollImmediate (interval timeout : Z)
    (condition : Go (bool * option error)) : Go (option error) :=
  poll (Z.to_nat (timeout / interval)) interval condition.

(** ** internal/install/installer.go *)

Definition isAlreadyExists (err : option error) : bool :=
  match err with
  | Some e => (Error e =? "already exists")%string
  | None => false
  end.

Definition isNotFound (err : option error) : bool :=
  match err with
  | Some e => (Error e =? "not found")%string
  | None => false
  end.

(** [createNamespace]: creates a namespace if it doesn't exist. *)
Definition createNamespace (name : string) : Go (option error) :=
  err <- call0 (NamespaceCreate name) (Namespaces_Create K name) ;;
  if negb (is_nil err) && negb (isAlreadyExists err) then ret err
  else ret None.

(** [applyManifest]: applies a single manifest. *)
Definition applyManifest (data : Bytes) : Go (option error) :=
  match UnmarshalJSON K data with
  | inl e => ret (Some e)
  | inr obj =>
      let gvr := {| Group := GroupVersionKind_Group K obj;
                    Version := GroupVersionKind_Version K obj;
                    Resource := GetKind K obj ++ "s" |} in
      call0 (DynamicApply gvr (GetNamespace K obj) (GetName K obj))
            (Dynamic_Apply K gvr (GetNamespace K obj) (GetName K obj) obj)
  end.

(** The loop of [applyManifests] over the directory entries. *)
Fixpoint applyEntries (path : string) (entries : list DirEntry)
  : Go (option error) :=
  match entries with
  | [] => ret None
  | entry :: rest =>
      if Entry_IsDir entry then applyEntries path rest
      else if negb (filepath_Ext K (Entry_Name entry) =? ".yaml")%string
              && negb (filepath_Ext K (Entry_Name entry) =? ".yml")%string
      then applyEntries path rest
      else
        let manifestPath := filepath_Join K path (Entry_Name entry) in
        r <- call1 (ReadFile manifestPath) (os_ReadFile K manifestPath) ;;
        match r with
        | inl e =>
            ret (Some (WrapError
                   ("failed to read manifest " ++ manifestPath ++ ": ") e))
        | inr data =>
            check wrapf ("failed to apply manifest " ++ manifestPath ++ ": ")
                        (applyManifest data) ;;
            applyEntries path rest
        end
  end.

(** [applyManifests]: applies manifests from the filesystem. *)
Definition applyManifests (path : string) : Go (option error) :=
  r <- call1 (ReadDir path) (os_ReadDir K path) ;;
  match r with
  | inl e => ret (Some (WrapError "failed to read manifests directory: " e))
  | inr entries => applyEntries path entries
  end.

(** The condition polled by [waitForDeployment]. *)
Definition deploymentReady (namespace name : string)
  : Go (bool * option error) :=
  r <- call1 (DeploymentGet namespace name) (Deployments_Get K namespace name) ;;
  match r with
  | inl _ => ret (false, None)
  | inr deployment =>
      match Spec_Replicas deployment with
      | None => panic "invalid memory address or nil pointer dereference"
      | Some replicas => ret (Status_ReadyReplicas deployment =? replicas, None)
      end
  end.

(** [waitForDeployment]: waits for a deployment to be ready. *)
Definition waitForDeployment (namespace name : string) (timeout : Z)
  : Go (option error) :=
  PollImmediate (5 * Second) timeout (deploymentReady namespace name).

(** [installDirect]: installs components directly. *)
Definition installDirect : Go (option error) :=
  check when (Component_Enabled (MetricsServer (Platform cfg))) (
    Println (nl ++ "→ Installing metrics-server...") ;;
    check wrapf "failed to install metrics-server: "
                (applyManifests "bundles/platform/metrics-server") ;;
    Println "  ✓ metrics-server installed" ;;
    ret None) ;;
  check when (Component_Enabled (KubeStateMetrics (Platform cfg))) (
    Println (nl ++ "→ Installing kube-state-metrics...") ;;
    check wrapf "failed to install kube-state-metrics: "
                (applyManifests "bundles/platform/kube-state-metrics") ;;
    Println "  ✓ kube-state-metrics installed" ;;
    ret None) ;;
  check when (Policy_Enabled (Policy cfg)) (
    Println (nl ++ "→ Installing policy engine (Kyverno)...") ;;
    check wrapf "failed to install kyverno: "
                (applyManifests "bundles/policies/kyverno") ;;
    Println "  ✓ Kyverno installed" ;;
    Println "  Waiting for Kyverno to be ready..." ;;
    check wrapf "kyverno not ready: "
                (waitForDeployment "kyverno" "kyverno" (120 * Second)) ;;
    Println (nl ++ "→ Applying baseline policies...") ;;
    check wrapf "failed to apply policies: "
                (applyManifests "bundles/policies/baseline") ;;
    Println "  ✓ Baseline policies applied" ;;
    ret None) ;;
  check when (NetworkPolicy_Enabled (NetworkPolicy_ cfg)) (
    Println (nl ++ "→ Installing network policies...") ;;
    check wrapf "failed to install network policies: "
                (applyManifests "bundles/netpol") ;;
    Println "  ✓ Network policies installed" ;;
    ret None) ;;
  ret None.

(** ** internal/render/renderer.go *)

Definition fluxComponents : string := "---
apiVersion: v1
kind: Namespace
metadata:
  name: flux-system
---
# Flux toolkit components
# Install via: flux install --export > gotk-components.yaml
# This is a placeholder - use 'flux bootstrap' for production
".

Definition syncManifest : string :=
"---
apiVersion: source.toolkit.fluxcd.io/v1
kind: GitRepository
metadata:
  name: flux-system
  namespace: flux-system
spec:
  interval: 1m0s
  ref:
    branch: " ++ GitOps_Branch (GitOps cfg) ++ "
  url: " ++ GitOps_RepoURL (GitOps cfg) ++ "
---
apiVersion: kustomize.toolkit.fluxcd.io/v1
kind: Kustomization
metadata:
  name: flux-system
  namespace: flux-system
spec:
  interval: 10m0s
  path: " ++ GitOps_Path (GitOps cfg) ++ "
  prune: true
  sourceRef:
    kind: GitRepository
    name: flux-system
".

Definition platformKust : string := "---
apiVersion: kustomize.toolkit.fluxcd.io/v1
kind: Kustomization
metadata:
  name: platform
  namespace: flux-system
spec:
  interval: 10m0s
  path: ./platform
  prune: true
  sourceRef:
    kind: GitRepository
    name: flux-system
".

Definition policiesKust : string := "---
apiVersion: kustomize.toolkit.fluxcd.io/v1
kind: Kustomization
metadata:
  name: policies
  namespace: flux-system
spec:
  interval: 10m0s
  path: ./policies
  prune: true
  sourceRef:
    kind: GitRepository
    name: flux-system
  dependsOn:
    - name: platform
".

Definition writeFile (path : string) (text : string) : Go (option error) :=
  call0 (WriteFile path) (os_WriteFile K path (bytes_of_string K text)).

Definition renderFluxBootstrap (destPath : string) : Go (option error) :=
  let fluxSystemPath := filepath_Join K destPath "flux-system" in
  check writeFile (filepath_Join K fluxSystemPath "gotk-components.yaml")
                  fluxComponents ;;
  check writeFile (filepath_Join K fluxSystemPath "gotk-sync.yaml")
                  syncManifest ;;
  ret None.

Definition renderKustomizations (destPath : string) : Go (option error) :=
  check writeFile (filepath_Join K destPath "platform-kustomization.yaml")
                  platformKust ;;
  check writeFile (filepath_Join K destPath "policies-kustomization.yaml")
                  policiesKust ;;
  ret None.

(** [RenderGitOpsManifests]: renders GitOps manifests to the given path. *)
Definition RenderGitOpsManifests (destPath : string) : Go (option error) :=
  check renderFluxBootstrap destPath ;;
  check renderKustomizations destPath ;;
  ret None.

(** ** internal/install/installer.go, continued *)

(** The loop of [installGitOps] over the directories to create. *)
Fixpoint mkdirs (dirs : list string) : Go (option error) :=
  match dirs with
  | [] => ret None
  | dir :: rest =>
      check wrapf ("failed to create directory " ++ dir ++ ": ")
                  (call0 (MkdirAll dir) (os_MkdirAll K dir)) ;;
      mkdirs rest
  end.

(** [installGitOps]: generates Flux manifests and directory structure. *)
Definition installGitOps : Go (option error) :=
  Println (nl ++ "→ Generating GitOps manifests...") ;;
  let gitopsPath :=
    if (GitOps_Path (GitOps cfg) =? "")%string then "clusters/my-cluster"
    else GitOps_Path (GitOps cfg) in
  let dirs := [ filepath_Join K gitopsPath "flux-system";
                filepath_Join K gitopsPath "platform";
                filepath_Join K gitopsPath "policies";
                filepath_Join K gitopsPath "netpol";
                filepath_Join K gitopsPath "apps" ] in
  check mkdirs dirs ;;
  check wrapf "failed to render GitOps manifests: "
              (RenderGitOpsManifests gitopsPath) ;;
  Print_ ("  ✓ GitOps manifests generated at " ++ gitopsPath ++ nl) ;;
  Println (nl ++ "Next steps for GitOps mode:") ;;
  Println "  1. Commit the generated manifests to your Git repository" ;;
  Println ("  2. Bootstrap Flux: flux bootstrap github --owner=<org> --repository=<repo> --path="
           ++ gitopsPath) ;;
  Println "  3. Flux will automatically sync and apply the manifests" ;;
  ret None.

(** [Install]: installs the kubac platform. *)
Definition Install : Go (option error) :=
  Println (nl ++ "→ Creating kubac-system namespace...") ;;
  check createNamespace "kubac-system" ;;
  if (Mode cfg =? "gitops")%string then installGitOps else installDirect.

(** The body of the loop of [Uninstall]. *)
Definition deleteNamespace (ns : string) : Go unit :=
  Print_ ("  Deleting namespace " ++ ns ++ "..." ++ nl) ;;
  err <- call0 (NamespaceDelete ns) (Namespaces_Delete K ns) ;;
  match err with
  | Some e =>
      if negb (isNotFound err)
      then Print_ ("  Warning: failed to delete namespace " ++ ns ++ ": "
                   ++ Error e ++ nl)
      else ret tt
  | None => ret tt
  end.

Fixpoint deleteNamespaces (namespaces : list string) : Go unit :=
  match namespaces with
  | [] => ret tt
  | ns :: rest => deleteNamespace ns ;; deleteNamespaces rest
  end.

(** [Uninstall]: removes kubac components. *)
Definition Uninstall : Go (option error) :=
  Println (nl ++ "→ Removing kubac components...") ;;
  let namespaces := ["kubac-system"; "kyverno"] in
  let namespaces :=
    if negb (Demo_Namespace (Demo cfg) =? "")%string
    then (namespaces ++ [Demo_Namespace (Demo cfg)])%list
    else namespaces in
  deleteNamespaces namespaces ;;
  ret None.

(** ** The install sequence as a list of steps *)

(** The readiness gate of a step: a deployment to wait for. *)
Record ReadinessCheck := {
  ready_announce : string;
  ready_namespace : string;
  ready_deployment : string;
  ready_timeout : Z;
  ready_failure : string
}.

(** A named unit of the install sequence.  The action of a step applies
    the manifests of one bundle directory. *)
Record InstallStep := {
  step_name : string;
  step_enabled : bool;
  step_announce : string;
  step_manifests : string;
  step_failure : string;
  step_done : string;
  step_readinessCheck : option ReadinessCheck
}.

(** The action of a step, and the step with its messages and gate. *)
Definition step_action (st : InstallStep) : Go (option error) :=
  applyManifests (step_manifests st).

Definition runStep (st : InstallStep) : Go (option error) :=
  Println (step_announce st) ;;
  check wrapf (step_failure st) (step_action st) ;;
  Println (step_done st) ;;
  match step_readinessCheck st with
  | None => ret None
  | Some rc =>
      Println (ready_announce rc) ;;
      check wrapf (ready_failure rc)
                  (waitForDeployment (ready_namespace rc) (ready_deployment rc)
                                     (ready_timeout rc)) ;;
      ret None
  end.

(** The sequencer: steps in order, disabled steps skipped, the first error
    returned at once. *)
Fixpoint runAll (steps : list InstallStep) : Go (option error) :=
  match steps with
  | [] => ret None
  | st :: rest => check when (step_enabled st) (runStep st) ;; runAll rest
  end.

(** The steps of [installDirect], read off its four blocks (the policy
    block holds two actions under one switch). *)
Definition direct_steps : list InstallStep := [
  {| step_name := "metrics-server";
     step_enabled := Component_Enabled (MetricsServer (Platform cfg));
     step_announce := nl ++ "→ Installing metrics-server...";
     step_manifests := "bundles/platform/metrics-server";
     step_failure := "failed to install metrics-server: ";
     step_done := "  ✓ metrics-server installed";
     step_readinessCheck := None |};
  {| step_name := "kube-state-metrics";
     step_enabled := Component_Enabled (KubeStateMetrics (Platform cfg));
     step_announce := nl ++ "→ Installing kube-state-metrics...";
     step_manifests := "bundles/platform/kube-state-metrics";
     step_failure := "failed to install kube-state-metrics: ";
     step_done := "  ✓ kube-state-metrics installed";
     step_readinessCheck := None |};
  {| step_name := "kyverno";
     step_enabled := Policy_Enabled (Policy cfg);
     step_announce := nl ++ "→ Installing policy engine (Kyverno)...";
     step_manifests := "bundles/policies/kyverno";
     step_failure := "failed to install kyverno: ";
     step_done := "  ✓ Kyverno installed";
     step_readinessCheck := Some
       {| ready_announce := "  Waiting for Kyverno to be ready...";
          ready_namespace := "kyverno";
          ready_deployment := "kyverno";
          ready_timeout := 120 * Second;
          ready_failure := "kyverno not ready: " |} |};
  {| step_name := "policies";
     step_enabled := Policy_Enabled (Policy cfg);
     step_announce := nl ++ "→ Applying baseline policies...";
     step_manifests := "bundles/policies/baseline";
     step_failure := "failed to apply policies: ";
     step_done := "  ✓ Baseline policies applied";
     step_readinessCheck := None |};
  {| step_name := "network policies";
     step_enabled := NetworkPolicy_Enabled (NetworkPolicy_ cfg);
     step_announce := nl ++ "→ Installing network policies...";
     step_manifests := "bundles/netpol";
     step_failure := "failed to install network policies: ";
     step_done := "  ✓ Network policies installed";
     step_readinessCheck := None |}
].

(** ** internal/verify *)

Record TestResult := {
  Name : string;
  Status : string;
  Message : string;
  Duration : string;
  Timestamp : Z
}.

Record Summary := {
  Total : Z;
  Passed : Z;
  Failed : Z
}.

Record VerificationResults := {
  Tests : list TestResult;
  Results_Summary : Summary;
  Results_Timestamp : Z
}.

(** A [TestResult] literal with the three fields the probes fill in. *)
Definition result (name status message : string) : TestResult :=
  {| Name := name; Status := status; Message := message;
     Duration := ""; Timestamp := 0 |}.

(** The condition polled by [testPodSelfHeal]. *)
Definition replicasRestored (initialReplicas : Z) : Go (bool * option error) :=
  r <- call1 (DeploymentGet (Demo_Namespace (Demo cfg)) "demo")
             (Deployments_Get K (Demo_Namespace (Demo cfg)) "demo") ;;
  match r with
  | inl _ => ret (false, None)
  | inr deployment => ret (Status_ReadyReplicas deployment >=? initialReplicas, None)
  end.

(** [testPodSelfHeal]: tests pod self-healing. *)
Definition testPodSelfHeal : Go TestResult :=
  let ns := Demo_Namespace (Demo cfg) in
  r <- call1 (DeploymentGet ns "demo") (Deployments_Get K ns "demo") ;;
  match r with
  | inl err =>
      ret (result "pod-selfheal" "SKIP" ("Demo app not deployed: " ++ Error err))
  | inr deployment =>
      let initialReplicas := Status_ReadyReplicas deployment in
      pods <- call1 (PodList ns "app=demo") (Pods_List K ns "app=demo") ;;
      match pods with
      | inl _ | inr [] => ret (result "pod-selfheal" "FAIL" "No demo pods found")
      | inr (pod :: _) =>
          let podName := Pod_Name pod in
          err <- call0 (PodDelete ns podName) (Pods_Delete K ns podName) ;;
          match err with
          | Some e =>
              ret (result "pod-selfheal" "FAIL"
                          ("Failed to delete pod: " ++ Error e))
          | None =>
              err <- PollImmediate (5 * Second) (60 * Second)
                                   (replicasRestored initialReplicas) ;;
              match err with
              | Some _ =>
                  ret (result "pod-selfheal" "FAIL"
                              "Pod was not replaced within timeout")
              | None =>
                  ret (result "pod-selfheal" "PASS"
                              ("Pod " ++ podName ++ " was replaced successfully"))
              end
          end
      end
  end.

(** [testHPAScale]: tests HPA scaling. *)
Definition testHPAScale : Go TestResult :=
  let ns := Demo_Namespace (Demo cfg) in
  r <- call1 (HPAGet ns "demo") (HPA_Get K ns "demo") ;;
  match r with
  | inl err => ret (result "hpa-scale" "SKIP" ("HPA not found: " ++ Error err))
  | inr hpa =>
      match Spec_MinReplicas hpa with
      | None => ret (result "hpa-scale" "FAIL" "HPA minReplicas mismatch")
      | Some minReplicas =>
          if negb (minReplicas =? int32 (MinReplicas (Demo_HPA (Demo cfg))))
          then ret (result "hpa-scale" "FAIL" "HPA minReplicas mismatch")
          else if negb (Spec_MaxReplicas hpa
                        =? int32 (MaxReplicas (Demo_HPA (Demo cfg))))
          then ret (result "hpa-scale" "FAIL" "HPA maxReplicas mismatch")
          else
            let currentReplicas := Status_CurrentReplicas hpa in
            ret (result "hpa-scale" "PASS"
                   ("HPA configured correctly (current replicas: "
                    ++ fmt_d currentReplicas ++ ", min: " ++ fmt_d minReplicas
                    ++ ", max: " ++ fmt_d (Spec_MaxReplicas hpa) ++ ")"))
      end
  end.

(** [testPolicyDeny]: tests policy enforcement. *)
Definition testPolicyDeny : Go TestResult :=
  let ns := Demo_Namespace (Demo cfg) in
  let testPod := {|
    Pod_Name := "test-privileged-pod";
    Pod_Namespace := ns;
    Pod_Containers := [ {| Container_Name := "test";
                           Container_Image := "nginx:latest";
                           Container_Privileged := Some true |} ] |} in
  err <- call0 (PodCreate ns testPod) (Pods_Create K ns testPod) ;;
  match err with
  | None =>
      call0 (PodDelete ns (Pod_Name testPod))
            (Pods_Delete K ns (Pod_Name testPod)) ;;
      ret (result "policy-deny" "FAIL" "Privileged pod was not denied by policy")
  | Some _ =>
      ret (result "policy-deny" "PASS"
                  "Privileged pod was correctly denied by policy")
  end.

(** [testNetworkDeny]: tests network policy enforcement. *)
Definition testNetworkDeny : Go TestResult :=
  let ns := Demo_Namespace (Demo cfg) in
  r <- call1 (NetworkPolicyList ns) (NetworkPolicies_List K ns) ;;
  match r with
  | inl err =>
      ret (result "network-deny" "SKIP"
                  ("Cannot list network policies: " ++ Error err))
  | inr items =>
      if (List.length items =? 0)%nat
      then ret (result "network-deny" "FAIL" "No network policies found")
      else
        let hasDefaultDeny :=
          existsb (fun np => (List.length (Spec_Ingress np) =? 0)%nat
                             && (List.length (Spec_Egress np) =? 0)%nat) items in
        if negb hasDefaultDeny
        then ret (result "network-deny" "WARN"
                    ("Found " ++ fmt_d (Z.of_nat (List.length items))
                     ++ " network policies but no default deny"))
        else ret (result "network-deny" "PASS"
                    ("Network policies configured ("
                     ++ fmt_d (Z.of_nat (List.length items))
                     ++ " policies including default deny)"))
  end.

(** The [switch] of [RunAll]. *)
Definition dispatch (testName : string) : Go TestResult :=
  if (testName =? "pod-selfheal")%string then testPodSelfHeal
  else if (testName =? "hpa-scale")%string then testHPAScale
  else if (testName =? "policy-deny")%string then testPolicyDeny
  else if (testName =? "network-deny")%string then testNetworkDeny
  else ret (result testName "SKIP" "Unknown test").

(** One turn of the first loop of [RunAll]. *)
Definition runTest (testName : string) : Go TestResult :=
  start <- now ;;
  result <- dispatch testName ;;
  finish <- now ;;
  timestamp <- now ;;
  ret {| Name := Name result; Status := Status result;
         Message := Message result;
         Duration := Duration_String K (finish - start);
         Timestamp := timestamp |}.

Fixpoint runTests (tests : list string) (acc : list TestResult)
  : Go (list TestResult) :=
  match tests with
  | [] => ret acc
  | testName :: rest =>
      result <- runTest testName ;;
      runTests rest (acc ++ [result])%list
  end.

(** The second loop of [RunAll]: the counters of the summary. *)
Fixpoint summarize (tests : list TestResult) (sm : Summary) : Summary :=
  match tests with
  | [] => sm
  | test :: rest =>
      summarize rest
        (if (Status test =? "PASS")%string
         then {| Total := Total sm; Passed := int (Passed sm + 1);
                 Failed := Failed sm |}
         else if (Status test =? "FAIL")%string
         then {| Total := Total sm; Passed := Passed sm;
                 Failed := int (Failed sm + 1) |}
         else sm)
  end.

(** [RunAll]: runs all verification tests. *)
Definition RunAll : Go (VerificationResults * option error) :=
  timestamp <- now ;;
  tests <- runTests (Verify_Tests (Verify cfg)) [] ;;
  let summary :=
    summarize tests {| Total := Z.of_nat (List.length tests);
                       Passed := 0; Failed := 0 |} in
  ret ({| Tests := tests; Results_Summary := summary;
          Results_Timestamp := timestamp |}, None).

(** [AllPassed]: true if no test failed. *)
Definition AllPassed (r : VerificationResults) : bool :=
  Failed (Results_Summary r) =? 0.

End Program.

(** ** internal/config: the YAML form of the configuration *)

(** yaml.v3 writes a struct as a mapping with one entry per field, under
    the key of its [yaml:"..."] tag, in the order of declaration; a slice of
    strings as a sequence.  It reads a mapping into a struct by looking each
    entry up among the tags: a field whose key is absent keeps its zero
    value, and an entry whose key matches no tag is ignored. *)

Notation "x <-? c ;; k" :=
  (match c with inl e => inl e | inr x => k end)
  (at level 61, c at next level, right associativity, only parsing).

Definition type_error (want : string) : error :=
  PlainError ("yaml: unmarshal errors: cannot unmarshal into " ++ want).

Fixpoint lookup (key : string) (entries : list (string * node)) : option node :=
  match entries with
  | [] => None
  | (k, n) :: rest => if (k =? key)%string then Some n else lookup key rest
  end.

Definition field {A} (dec : node -> error + A) (zero : A) (key : string)
    (entries : list (string * node)) : error + A :=
  match lookup key entries with
  | Some n => dec n
  | None => inr zero
  end.

Definition dec_string (n : node) : error + string :=
  match n with YStr s => inr s | _ => inl (type_error "string") end.

Definition dec_bool (n : node) : error + bool :=
  match n with YBool b => inr b | _ => inl (type_error "bool") end.

Definition dec_int (n : node) : error + Z :=
  match n with
  | YInt z =>
      if (min_int <=? z) && (z <=? max_int) then inr z
      else inl (type_error "int")
  | _ => inl (type_error "int")
  end.

Fixpoint dec_items (items : list node) : error + list string :=
  match items with
  | [] => inr []
  | n :: rest =>
      s <-? dec_string n ;;
      l <-? dec_items rest ;;
      inr (s :: l)
  end.

Definition dec_strings (n : node) : error + list string :=
  match n with YSeq items => dec_items items | _ => inl (type_error "[]string") end.

Definition dec_struct {A} (dec : list (string * node) -> error + A) (n : node)
  : error + A :=
  match n with YMap entries => dec entries | _ => inl (type_error "struct") end.

Definition enc_strings (l : list string) : node := YSeq (map YStr l).

Definition GitOpsConfig_to_yaml (c : GitOpsConfig) : node :=
  YMap [ ("provider", YStr (GitOps_Provider c));
         ("repoURL", YStr (GitOps_RepoURL c));
         ("branch", YStr (GitOps_Branch c));
         ("path", YStr (GitOps_Path c)) ].

Definition GitOpsConfig_of_yaml : node -> error + GitOpsConfig :=
  dec_struct (fun m =>
    provider <-? field dec_string "" "provider" m ;;
    repoURL <-? field dec_string "" "repoURL" m ;;
    branch <-? field dec_string "" "branch" m ;;
    path <-? field dec_string "" "path" m ;;
    inr {| GitOps_Provider := provider; GitOps_RepoURL := repoURL;
           GitOps_Branch := branch; GitOps_Path := path |}).

Definition ComponentConfig_to_yaml (c : ComponentConfig) : node :=
  YMap [ ("enabled", YBool (Component_Enabled c));
         ("version", YStr (Component_Version c)) ].

Definition ComponentConfig_of_yaml : node -> error + ComponentConfig :=
  dec_struct (fun m =>
    enabled <-? field dec_bool false "enabled" m ;;
    version <-? field dec_string "" "version" m ;;
    inr {| Component_Enabled := enabled; Component_Version := version |}).

Definition IngressConfig_to_yaml (c : IngressConfig) : node :=
  YMap [ ("enabled", YBool (Ingress_Enabled c));
         ("provider", YStr (Ingress_Provider c));
         ("version", YStr (Ingress_Version c)) ].

Definition IngressConfig_of_yaml : node -> error + IngressConfig :=
  dec_struct (fun m =>
    enabled <-? field dec_bool false "enabled" m ;;
    provider <-? field dec_string "" "provider" m ;;
    version <-? field dec_string "" "version" m ;;
    inr {| Ingress_Enabled := enabled; Ingress_Provider := provider;
           Ingress_Version := version |}).

Definition zero_ComponentConfig : ComponentConfig :=
  {| Component_Enabled := false; Component_Version := "" |}.

Definition zero_IngressConfig : IngressConfig :=
  {| Ingress_Enabled := false; Ingress_Provider := ""; Ingress_Version := "" |}.

Definition PlatformConfig_to_yaml (c : PlatformConfig) : node :=
  YMap [ ("metricsServer", ComponentConfig_to_yaml (MetricsServer c));
         ("kubeStateMetrics", ComponentConfig_to_yaml (KubeStateMetrics c));
         ("prometheusStack", ComponentConfig_to_yaml (PrometheusStack c));
         ("ingress", IngressConfig_to_yaml (Ingress c));
         ("certManager", ComponentConfig_to_yaml (CertManager c)) ].

Definition PlatformConfig_of_yaml : node -> error + PlatformConfig :=
  dec_struct (fun m =>
    metricsServer <-?
      field ComponentConfig_of_yaml zero_ComponentConfig "metricsServer" m ;;
    kubeStateMetrics <-?
      field ComponentConfig_of_yaml zero_ComponentConfig "kubeStateMetrics" m ;;
    prometheusStack <-?
      field ComponentConfig_of_yaml zero_ComponentConfig "prometheusStack" m ;;
    ingress <-? field IngressConfig_of_yaml zero_IngressConfig "ingress" m ;;
    certManager <-?
      field ComponentConfig_of_yaml zero_ComponentConfig "certManager" m ;;
    inr {| MetricsServer := metricsServer; KubeStateMetrics := kubeStateMetrics;
           PrometheusStack := prometheusStack; Ingress := ingress;
           CertManager := certManager |}).

Definition PolicyConfig_to_yaml (c : PolicyConfig) : node :=
  YMap [ ("enabled", YBool (Policy_Enabled c));
         ("provider", YStr (Policy_Provider c));
         ("version", YStr (Policy_Version c));
         ("podSecurityStandard", YStr (PodSecurityStandard c));
         ("customPolicies", enc_strings (CustomPolicies c)) ].

Definition PolicyConfig_of_yaml : node -> error + PolicyConfig :=
  dec_struct (fun m =>
    enabled <-? field dec_bool false "enabled" m ;;
    provider <-? field dec_string "" "provider" m ;;
    version <-? field dec_string "" "version" m ;;
    podSecurityStandard <-? field dec_string "" "podSecurityStandard" m ;;
    customPolicies <-? field dec_strings [] "customPolicies" m ;;
    inr {| Policy_Enabled := enabled; Policy_Provider := provider;
           Policy_Version := version;
           PodSecurityStandard := podSecurityStandard;
           CustomPolicies := customPolicies |}).

Definition NetworkPolicy_to_yaml (c : NetworkPolicy) : node :=
  YMap [ ("enabled", YBool (NetworkPolicy_Enabled c));
         ("defaultDeny", YBool (DefaultDeny c));
         ("systemNamespaces", enc_strings (SystemNamespaces c)) ].

Definition NetworkPolicy_of_yaml : node -> error + NetworkPolicy :=
  dec_struct (fun m =>
    enabled <-? field dec_bool false "enabled" m ;;
    defaultDeny <-? field dec_bool false "defaultDeny" m ;;
    systemNamespaces <-? field dec_strings [] "systemNamespaces" m ;;
    inr {| NetworkPolicy_Enabled := enabled; DefaultDeny := defaultDeny;
           SystemNamespaces := systemNamespaces |}).

Definition HPAConfig_to_yaml (c : HPAConfig) : node :=
  YMap [ ("enabled", YBool (HPA_Enabled c)) ].

Definition HPAConfig_of_yaml : node -> error + HPAConfig :=
  dec_struct (fun m =>
    enabled <-? field dec_bool false "enabled" m ;;
    inr {| HPA_Enabled := enabled |}).

Definition NodeAutoscalerConfig_to_yaml (c : NodeAutoscalerConfig) : node :=
  YMap [ ("enabled", YBool (NodeAutoscaler_Enabled c));
         ("provider", YStr (NodeAutoscaler_Provider c));
         ("version", YStr (NodeAutoscaler_Version c)) ].

Definition NodeAutoscalerConfig_of_yaml : node -> error + NodeAutoscalerConfig :=
  dec_struct (fun m =>
    enabled <-? field dec_bool false "enabled" m ;;
    provider <-? field dec_string "" "provider" m ;;
    version <-? field dec_string "" "version" m ;;
    inr {| NodeAutoscaler_Enabled := enabled;
           NodeAutoscaler_Provider := provider;
           NodeAutoscaler_Version := version |}).

Definition zero_HPAConfig : HPAConfig := {| HPA_Enabled := false |}.

Definition zero_NodeAutoscalerConfig : NodeAutoscalerConfig :=
  {| NodeAutoscaler_Enabled := false; NodeAutoscaler_Provider := "";
     NodeAutoscaler_Version := "" |}.

Definition AutoscalingConfig_to_yaml (c : AutoscalingConfig) : node :=
  YMap [ ("hpa", HPAConfig_to_yaml (Autoscaling_HPA c));
         ("nodeAutoscaler", NodeAutoscalerConfig_to_yaml (NodeAutoscaler c)) ].

Definition AutoscalingConfig_of_yaml : node -> error + AutoscalingConfig :=
  dec_struct (fun m =>
    hpa <-? field HPAConfig_of_yaml zero_HPAConfig "hpa" m ;;
    nodeAutoscaler <-?
      field NodeAutoscalerConfig_of_yaml zero_NodeAutoscalerConfig
            "nodeAutoscaler" m ;;
    inr {| Autoscaling_HPA := hpa; NodeAutoscaler := nodeAutoscaler |}).

Definition ResourceList_to_yaml (c : ResourceList) : node :=
  YMap [ ("cpu", YStr (CPU c)); ("memory", YStr (Memory c)) ].

Definition ResourceList_of_yaml : node -> error + ResourceList :=
  dec_struct (fun m =>
    cpu <-? field dec_string "" "cpu" m ;;
    memory <-? field dec_string "" "memory" m ;;
    inr {| CPU := cpu; Memory := memory |}).

Definition zero_ResourceList : ResourceList := {| CPU := ""; Memory := "" |}.

Definition ResourcesSpec_to_yaml (c : ResourcesSpec) : node :=
  YMap [ ("requests", ResourceList_to_yaml (Requests c));
         ("limits", ResourceList_to_yaml (Limits c)) ].

Definition ResourcesSpec_of_yaml : node -> error + ResourcesSpec :=
  dec_struct (fun m =>
    requests <-? field ResourceList_of_yaml zero_ResourceList "requests" m ;;
    limits <-? field ResourceList_of_yaml zero_ResourceList "limits" m ;;
    inr {| Requests := requests; Limits := limits |}).

Definition HPASpec_to_yaml (c : HPASpec) : node :=
  YMap [ ("minReplicas", YInt (MinReplicas c));
         ("maxReplicas", YInt (MaxReplicas c));
         ("targetCPUUtilization", YInt (TargetCPUUtilization c)) ].

Definition HPASpec_of_yaml : node -> error + HPASpec :=
  dec_struct (fun m =>
    minReplicas <-? field dec_int 0 "minReplicas" m ;;
    maxReplicas <-? field dec_int 0 "maxReplicas" m ;;
    targetCPUUtilization <-? field dec_int 0 "targetCPUUtilization" m ;;
    inr {| MinReplicas := minReplicas; MaxReplicas := maxReplicas;
           TargetCPUUtilization := targetCPUUtilization |}).

Definition PDBSpec_to_yaml (c : PDBSpec) : node :=
  YMap [ ("minAvailable", YInt (MinAvailable c)) ].

Definition PDBSpec_of_yaml : node -> error + PDBSpec :=
  dec_struct (fun m =>
    minAvailable <-? field dec_int 0 "minAvailable" m ;;
    inr {| MinAvailable := minAvailable |}).

Definition zero_ResourcesSpec : ResourcesSpec :=
  {| Requests := zero_ResourceList; Limits := zero_ResourceList |}.

Definition zero_HPASpec : HPASpec :=
  {| MinReplicas := 0; MaxReplicas := 0; TargetCPUUtilization := 0 |}.

Definition zero_PDBSpec : PDBSpec := {| MinAvailable := 0 |}.

Definition DemoConfig_to_yaml (c : DemoConfig) : node :=
  YMap [ ("namespace", YStr (Demo_Namespace c));
         ("replicas", YInt (Demo_Replicas c));
         ("resources", ResourcesSpec_to_yaml (Demo_Resources c));
         ("hpa", HPASpec_to_yaml (Demo_HPA c));
         ("pdb", PDBSpec_to_yaml (Demo_PDB c)) ].

Definition DemoConfig_of_yaml : node -> error + DemoConfig :=
  dec_struct (fun m =>
    namespace <-? field dec_string "" "namespace" m ;;
    replicas <-? field dec_int 0 "replicas" m ;;
    resources <-? field ResourcesSpec_of_yaml zero_ResourcesSpec "resources" m ;;
    hpa <-? field HPASpec_of_yaml zero_HPASpec "hpa" m ;;
    pdb <-? field PDBSpec_of_yaml zero_PDBSpec "pdb" m ;;
    inr {| Demo_Namespace := namespace; Demo_Replicas := replicas;
           Demo_Resources := resources; Demo_HPA := hpa; Demo_PDB := pdb |}).

Definition VerifyConfig_to_yaml (c : VerifyConfig) : node :=
  YMap [ ("timeout", YStr (Verify_Timeout c));
         ("parallel", YBool (Verify_Parallel c));
         ("tests", enc_strings (Verify_Tests c)) ].

Definition VerifyConfig_of_yaml : node -> error + VerifyConfig :=
  dec_struct (fun m =>
    timeout <-? field dec_string "" "timeout" m ;;
    parallel <-? field dec_bool false "parallel" m ;;
    tests <-? field dec_strings [] "tests" m ;;
    inr {| Verify_Timeout := timeout; Verify_Parallel := parallel;
           Verify_Tests := tests |}).

Definition zero_GitOpsConfig : GitOpsConfig :=
  {| GitOps_Provider := ""; GitOps_RepoURL := ""; GitOps_Branch := "";
     GitOps_Path := "" |}.

Definition zero_PlatformConfig : PlatformConfig :=
  {| MetricsServer := zero_ComponentConfig;
     KubeStateMetrics := zero_ComponentConfig;
     PrometheusStack := zero_ComponentConfig;
     Ingress := zero_IngressConfig;
     CertManager := zero_ComponentConfig |}.

Definition zero_PolicyConfig : PolicyConfig :=
  {| Policy_Enabled := false; Policy_Provider := ""; Policy_Version := "";
     PodSecurityStandard := ""; CustomPolicies := [] |}.

Definition zero_NetworkPolicy : NetworkPolicy :=
  {| NetworkPolicy_Enabled := false; DefaultDeny := false;
     SystemNamespaces := [] |}.

Definition zero_AutoscalingConfig : AutoscalingConfig :=
  {| Autoscaling_HPA := zero_HPAConfig;
     NodeAutoscaler := zero_NodeAutoscalerConfig |}.

Definition zero_DemoConfig : DemoConfig :=
  {| Demo_Namespace := ""; Demo_Replicas := 0;
     Demo_Resources := zero_ResourcesSpec; Demo_HPA := zero_HPASpec;
     Demo_PDB := zero_PDBSpec |}.

Definition zero_VerifyConfig : VerifyConfig :=
  {| Verify_Timeout := ""; Verify_Parallel := false; Verify_Tests := [] |}.

Definition Config_to_yaml (c : Config) : node :=
  YMap [ ("clusterProfile", YStr (ClusterProfile c));
         ("mode", YStr (Mode c));
         ("gitops", GitOpsConfig_to_yaml (GitOps c));
         ("platform", PlatformConfig_to_yaml (Platform c));
         ("policy", PolicyConfig_to_yaml (Policy c));
         ("networkPolicy", NetworkPolicy_to_yaml (NetworkPolicy_ c));
         ("autoscaling", AutoscalingConfig_to_yaml (Autoscaling c));
         ("demo", DemoConfig_to_yaml (Demo c));
         ("verify", VerifyConfig_to_yaml (Verify c)) ].

Definition Config_of_yaml : node -> error + Config :=
  dec_struct (fun m =>
    clusterProfile <-? field dec_string "" "clusterProfile" m ;;
    mode <-? field dec_string "" "mode" m ;;
    gitops <-? field GitOpsConfig_of_yaml zero_GitOpsConfig "gitops" m ;;
    platform <-? field PlatformConfig_of_yaml zero_PlatformConfig "platform" m ;;
    policy <-? field PolicyConfig_of_yaml zero_PolicyConfig "policy" m ;;
    networkPolicy <-?
      field NetworkPolicy_of_yaml zero_NetworkPolicy "networkPolicy" m ;;
    autoscaling <-?
      field AutoscalingConfig_of_yaml zero_AutoscalingConfig "autoscaling" m ;;
    demo <-? field DemoConfig_of_yaml zero_DemoConfig "demo" m ;;
    verify <-? field VerifyConfig_of_yaml zero_VerifyConfig "verify" m ;;
    inr {| ClusterProfile := clusterProfile; Mode := mode; GitOps := gitops;
           Platform := platform; Policy := policy;
           NetworkPolicy_ := networkPolicy; Autoscaling := autoscaling;
           Demo := demo; Verify := verify |}).

(** The [int] fields of a configuration hold 64-bit values. *)
Definition is_int (z : Z) : Prop := min_int <= z <= max_int.

Definition Config_ints (c : Config) : list Z :=
  [ Demo_Replicas (Demo c);
    MinReplicas (Demo_HPA (Demo c));
    MaxReplicas (Demo_HPA (Demo c));
    TargetCPUUtilization (Demo_HPA (Demo c));
    MinAvailable (Demo_PDB (Demo c)) ].

Section Configuration.

Context {W Bytes Obj : Type}.
Variable K : API W Bytes Obj.

Local Open Scope go_scope.

(** [yaml.Marshal(cfg)] and [yaml.Unmarshal(data, &cfg)] into a zero
    [Config]. *)
Definition yaml_Marshal (c : Config) : error + Bytes :=
  yaml_emit K (Config_to_yaml c).

Definition yaml_Unmarshal (data : Bytes) : error + Config :=
  n <-? yaml_parse K data ;;
  Config_of_yaml n.

(** [LoadConfig]: loads configuration from a file. *)
Definition LoadConfig (path : string) : M W (error + Config) :=
  r <- call1 (ReadFile path) (os_ReadFile K path) ;;
  match r with
  | inl e => ret (inl (WrapError "failed to read config file: " e))
  | inr data =>
      match yaml_Unmarshal data with
      | inl e => ret (inl (WrapError "failed to parse config file: " e))
      | inr c => ret (inr c)
      end
  end.

(** [WriteConfig]: writes configuration to a file. *)
Definition WriteConfig (path : string) (c : Config) : M W (option error) :=
  match yaml_Marshal c with
  | inl e => ret (Some (WrapError "failed to marshal config: " e))
  | inr data =>
      check wrapf "failed to write config file: "
                  (call0 (WriteFile path) (os_WriteFile K path data)) ;;
      ret None
  end.

End Configuration.

(** ** A simulated cluster

    A small executable environment, in the manner of a fake client: a clock,
    namespaces, deployments whose missing replica comes back some time
    after a pod was deleted, an admission policy, and a file system.  It is
    used to run the program on concrete inputs. *)
Module Sim.

Record Object := {
  obj_group : string;
  obj_version : string;
  obj_kind : string;
  obj_namespace : string;
  obj_name : string
}.

(** The contents of a file: text, a YAML document or a manifest. *)
Inductive Blob :=
| Text (s : string)
| Yaml (n : node)
| Manifest (o : Object).

Record World := {
  clock : Z;
  down_until : Z;                  (* the API server refuses connections before *)
  namespaces : list string;
  deployments : list (string * string * Z);     (* namespace, name, replicas *)
  healed_at : option Z;            (* all replicas ready from then on *)
  heal_delay : option Z;           (* time to replace a deleted pod *)
  pods : list (string * string);   (* namespace, name *)
  admits_privileged : bool;
  hpas : list (string * string * HorizontalPodAutoscaler);
  netpols : list (string * NetworkPolicyObject);
  applied : list Object;
  dirs : list (string * list DirEntry);
  files : list (string * Blob)
}.

Definition with_clock (w : World) (t : Z) : World :=
  {| clock := t; down_until := down_until w; namespaces := namespaces w;
     deployments := deployments w; healed_at := healed_at w;
     heal_delay := heal_delay w; pods := pods w;
     admits_privileged := admits_privileged w; hpas := hpas w;
     netpols := netpols w; applied := applied w; dirs := dirs w;
     files := files w |}.

Definition with_namespaces (w : World) (l : list string) : World :=
  {| clock := clock w; down_until := down_until w; namespaces := l;
     deployments := deployments w; healed_at := healed_at w;
     heal_delay := heal_delay w; pods := pods w;
     admits_privileged := admits_privileged w; hpas := hpas w;
     netpols := netpols w; applied := applied w; dirs := dirs w;
     files := files w |}.

Definition with_pods (w : World) (l : list (string * string))
    (healed : option Z) : World :=
  {| clock := clock w; down_until := down_until w; namespaces := namespaces w;
     deployments := deployments w; healed_at := healed;
     heal_delay := heal_delay w; pods := l;
     admits_privileged := admits_privileged w; hpas := hpas w;
     netpols := netpols w; applied := applied w; dirs := dirs w;
     files := files w |}.

Definition with_applied (w : World) (l : list Object) : World :=
  {| clock := clock w; down_until := down_until w; namespaces := namespaces w;
     deployments := deployments w; healed_at := healed_at w;
     heal_delay := heal_delay w; pods := pods w;
     admits_privileged := admits_privileged w; hpas := hpas w;
     netpols := netpols w; applied := l; dirs := dirs w;
     files := files w |}.

Definition with_files (w : World) (d : list (string * list DirEntry))
    (f : list (string * Blob)) : World :=
  {| clock := clock w; down_until := down_until w; namespaces := namespaces w;
     deployments := deployments w; healed_at := healed_at w;
     heal_delay := heal_delay w; pods := pods w;
     admits_privileged := admits_privileged w; hpas := hpas w;
     netpols := netpols w; applied := applied w; dirs := d; files := f |}.

Definition refused : error := PlainError "connection refused".

Definition not_found (resource name : string) : error :=
  StatusError ReasonNotFound
    (resource ++ " " ++ dquote ++ name ++ dquote ++ " not found").

Definition already_exists (resource name : string) : error :=
  StatusError ReasonAlreadyExists
    (resource ++ " " ++ dquote ++ name ++ dquote ++ " already exists").

Definition forbidden (name : string) : error :=
  StatusError ReasonForbidden
    ("admission webhook denied the request: pod " ++ name
     ++ " runs a privileged container").

Definition down (w : World) : bool := clock w <? down_until w.

Definition mem (x : string) (l : list string) : bool :=
  existsb (String.eqb x) l.

Definition same (ns name : string) (p : string * string) : bool :=
  ((fst p =? ns) && (snd p =? name))%string.

Definition create_namespace (name : string) (w : World) : option error * World :=
  if down w then (Some refused, w)
  else if mem name (namespaces w) then (Some (already_exists "namespaces" name), w)
  else (None, with_namespaces w (namespaces w ++ [name])).

Definition delete_namespace (name : string) (w : World) : option error * World :=
  if down w then (Some refused, w)
  else if mem name (namespaces w)
  then (None, with_namespaces w
                (filter (fun n => negb (n =? name)%string) (namespaces w)))
  else (Some (not_found "namespaces" name), w).

Definition healed (w : World) : bool :=
  match healed_at w with
  | Some t => t <=? clock w
  | None => false
  end.

Definition get_deployment (ns name : string) (w : World)
  : (error + Deployment) * World :=
  if down w then (inl refused, w)
  else
    match find (fun d => same ns name (fst d)) (deployments w) with
    | Some (_, replicas) =>
        (inr {| Spec_Replicas := Some replicas;
                Status_ReadyReplicas :=
                  if healed w then replicas else replicas - 1 |}, w)
    | None => (inl (not_found "deployments.apps" name), w)
    end.

Definition list_pods (ns selector : string) (w : World)
  : (error + list Pod) * World :=
  if down w then (inl refused, w)
  else
    (inr (map (fun p => {| Pod_Name := snd p; Pod_Namespace := fst p;
                           Pod_Containers := [] |})
              (filter (fun p => (fst p =? ns)%string) (pods w))), w).

Definition delete_pod (ns name : string) (w : World) : option error * World :=
  if down w then (Some refused, w)
  else if existsb (same ns name) (pods w)
  then (None,
        with_pods w (filter (fun p => negb (same ns name p)) (pods w))
          (match heal_delay w with
           | Some d => Some (clock w + d)
           | None => None
           end))
  else (Some (not_found "pods" name), w).

Definition privileged (p : Pod) : bool :=
  existsb (fun c => match Container_Privileged c with
                    | Some b => b
                    | None => false
                    end) (Pod_Containers p).

Definition create_pod (ns : string) (p : Pod) (w : World) : option error * World :=
  if down w then (Some refused, w)
  else if privileged p && negb (admits_privileged w)
  then (Some (forbidden (Pod_Name p)), w)
  else if existsb (same ns (Pod_Name p)) (pods w)
  then (Some (already_exists "pods" (Pod_Name p)), w)
  else (None, with_pods w (pods w ++ [(ns, Pod_Name p)]) (healed_at w)).

Definition get_hpa (ns name : string) (w : World)
  : (error + HorizontalPodAutoscaler) * World :=
  if down w then (inl refused, w)
  else
    match find (fun h => same ns name (fst h)) (hpas w) with
    | Some (_, h) => (inr h, w)
    | None => (inl (not_found "horizontalpodautoscalers.autoscaling" name), w)
    end.

Definition list_netpols (ns : string) (w : World)
  : (error + list NetworkPolicyObject) * World :=
  if down w then (inl refused, w)
  else (inr (map snd (filter (fun p => (fst p =? ns)%string) (netpols w))), w).

Definition apply (gvr : GroupVersionResource) (ns name : string) (o : Object)
    (w : World) : option error * World :=
  if down w then (Some refused, w)
  else (None, with_applied w (applied w ++ [o])).

Definition no_such_file (op path : string) : error :=
  PlainError (op ++ " " ++ path ++ ": no such file or directory").

Definition read_dir (path : string) (w : World)
  : (error + list DirEntry) * World :=
  match find (fun d => (fst d =? path)%string) (dirs w) with
  | Some (_, entries) => (inr entries, w)
  | None => (inl (no_such_file "open" path), w)
  end.

Definition read_file (path : string) (w : World) : (error + Blob) * World :=
  match find (fun f => (fst f =? path)%string) (files w) with
  | Some (_, b) => (inr b, w)
  | None => (inl (no_such_file "open" path), w)
  end.

Definition mkdir_all (path : string) (w : World) : option error * World :=
  if existsb (fun d => (fst d =? path)%string) (dirs w) then (None, w)
  else (None, with_files w (dirs w ++ [(path, [])]) (files w)).

Definition write_file (path : string) (b : Blob) (w : World)
  : option error * World :=
  (None, with_files w (dirs w)
           ((path, b) :: filter (fun f => negb (fst f =? path)%string) (files w))).

(** [filepath.Ext]: the suffix that starts at the last dot of the last
    element of the path. *)
Fixpoint ext_from (s : string) (ext : string) : string :=
  match s with
  | EmptyString => ext
  | String c rest =>
      if (c =? "/")%char then ext_from rest ""
      else if (c =? ".")%char then ext_from rest "."
      else if (ext =? "")%string then ext_from rest ""
      else ext_from rest (ext ++ String c "")
  end.

Definition ext (path : string) : string := ext_from path "".

Definition unmarshal (b : Blob) : error + Object :=
  match b with
  | Manifest o => inr o
  | _ => inl (PlainError "invalid character looking for beginning of value")
  end.

Definition parse (b : Blob) : error + node :=
  match b with
  | Yaml n => inr n
  | _ => inl (PlainError "yaml: did not find expected node content")
  end.

Definition api : API World Blob Object := {|
  Namespaces_Create := create_namespace;
  Namespaces_Delete := delete_namespace;
  Deployments_Get := get_deployment;
  Pods_List := list_pods;
  Pods_Delete := delete_pod;
  Pods_Create := create_pod;
  HPA_Get := get_hpa;
  NetworkPolicies_List := list_netpols;
  Dynamic_Apply := apply;
  os_ReadDir := read_dir;
  os_ReadFile := read_file;
  os_MkdirAll := mkdir_all;
  os_WriteFile := write_file;
  time_Now := clock;
  time_Sleep := fun d w => with_clock w (clock w + d);
  Duration_String := fun d => fmt_d d ++ "ns";
  filepath_Join := fun a b => a ++ "/" ++ b;
  filepath_Ext := ext;
  UnmarshalJSON := unmarshal;
  GroupVersionKind_Group := obj_group;
  GroupVersionKind_Version := obj_version;
  GetKind := obj_kind;
  GetNamespace := obj_namespace;
  GetName := obj_name;
  bytes_of_string := Text;
  yaml_emit := fun n => inr (Yaml n);
  yaml_parse := parse
|}.

(** A cluster with the demo application running on three replicas. *)
Definition demo_cluster : World := {|
  clock := 0;
  down_until := 0;
  namespaces := ["default"; "kube-system"; "kubac-system"; "kubac-demo"];
  deployments := [("kubac-demo", "demo", 3); ("kyverno", "kyverno", 1)];
  healed_at := Some 0;
  heal_delay := Some (20 * Second);
  pods := [("kubac-demo", "demo-7d4b9c-x2x5k"); ("kubac-demo", "demo-7d4b9c-l8p4q");
           ("kubac-demo", "demo-7d4b9c-zt6wn")];
  admits_privileged := false;
  hpas := [("kubac-demo", "demo",
            {| Spec_MinReplicas := Some 2; Spec_MaxReplicas := 10;
               Status_CurrentReplicas := 3 |})];
  netpols := [("kubac-demo", {| Spec_Ingress := []; Spec_Egress := [] |})];
  applied := [];
  dirs := [("bundles/platform/metrics-server",
            [ {| Entry_Name := "deployment.yaml"; Entry_IsDir := false |};
              {| Entry_Name := "README.md"; Entry_IsDir := false |} ])];
  files := [("bundles/platform/metrics-server/deployment.yaml",
             Manifest {| obj_group := "apps"; obj_version := "v1";
                         obj_kind := "deployment";
                         obj_namespace := "kube-system";
                         obj_name := "metrics-server" |})]
|}.

(** The same cluster when the deleted pod is never replaced. *)
Definition broken_cluster : World :=
  {| clock := 0; down_until := 0; namespaces := namespaces demo_cluster;
     deployments := deployments demo_cluster; healed_at := Some 0;
     heal_delay := None; pods := pods demo_cluster;
     admits_privileged := false; hpas := hpas demo_cluster;
     netpols := netpols demo_cluster; applied := [];
     dirs := dirs demo_cluster; files := files demo_cluster |}.

(** A cluster on which nothing was deployed yet. *)
Definition empty_cluster : World :=
  {| clock := 0; down_until := 0; namespaces := ["default"; "kube-system"];
     deployments := []; healed_at := Some 0; heal_delay := None; pods := [];
     admits_privileged := true; hpas := []; netpols := []; applied := [];
     dirs := []; files := [] |}.

(** The demo cluster behind an API server that refuses connections during
    the first [t] nanoseconds. *)
Definition unreachable_cluster (t : Z) : World :=
  {| clock := 0; down_until := t; namespaces := namespaces demo_cluster;
     deployments := deployments demo_cluster; healed_at := Some 0;
     heal_delay := Some (20 * Second); pods := pods demo_cluster;
     admits_privileged := false; hpas := hpas demo_cluster;
     netpols := netpols demo_cluster; applied := [];
     dirs := dirs demo_cluster; files := files demo_cluster |}.

End Sim.

(** ** Vocabulary of the statements *)

Section Vocabulary.

Context {W Bytes Obj : Type}.
Variable K : API W Bytes Obj.

(** The calls logged by a run. *)
Definition calls {A} (out : Res A * (W * list Call)) : list Call :=
  snd (snd out).

(** [c] returns normally, with a value that satisfies [P]. *)
Definition returns {A} (P : A -> Prop) (c : M W A) : Prop :=
  forall s, exists a s', c s = (Val a, s') /\ P a.

(** Whatever its outcome, [c] only adds calls that satisfy [E] to the log. *)
Definition emits {A} (E : Call -> Prop) (c : M W A) : Prop :=
  forall s, exists l, calls (c s) = (snd s ++ l)%list /\ Forall E l.

(** A poll that observes [k] times "not yet" and then "done": the
    successive answers of [get], a sleep of [interval] apart. *)
Fixpoint settles {A} (k : nat) (get : W -> (error + A) * W)
    (not_yet : error + A -> Prop) (done : A -> Prop) (interval : Z) (w : W)
  : Prop :=
  match k with
  | O => exists a w', get w = (inr a, w') /\ done a
  | S k' =>
      exists r w', get w = (r, w') /\ not_yet r
        /\ settles k' get not_yet done interval (time_Sleep K interval w')
  end.

(** A poll that observes "not yet" [n] + 1 times in a row. *)
Fixpoint stalls {A} (n : nat) (get : W -> (error + A) * W)
    (not_yet : error + A -> Prop) (interval : Z) (w : W) : Prop :=
  exists r w', get w = (r, w') /\ not_yet r
    /\ match n with
       | O => True
       | S n' => stalls n' get not_yet interval (time_Sleep K interval w')
       end.

(** The answer of the accessor is an error. *)
Definition failed {A} (r : error + A) : Prop :=
  match r with inl _ => True | inr _ => False end.

(** The deployment is ready: what [waitForDeployment] waits for. *)
Definition ready (d : Deployment) : Prop :=
  Spec_Replicas d = Some (Status_ReadyReplicas d).

(** The replicas are not back to the baseline: an error, or fewer ready
    replicas than before. *)
Definition degraded (baseline : Z) (r : error + Deployment) : Prop :=
  match r with
  | inl _ => True
  | inr d => Status_ReadyReplicas d < baseline
  end.

Definition restored (baseline : Z) (d : Deployment) : Prop :=
  baseline <= Status_ReadyReplicas d.

(** The state in which the action of a step starts: its banner printed. *)
Definition announced (st : InstallStep) (s : W * list Call) : W * list Call :=
  (fst s, (snd s ++ [Print (step_announce st ++ nl)])%list).

(** What remains of a step once its directory was read. *)
Definition afterReadDir (st : InstallStep) (r : error + list DirEntry)
  : M W (option error) :=
  (check wrapf (step_failure st)
        match r with
        | inl e =>
            ret (Some (WrapError "failed to read manifests directory: " e))
        | inr entries => applyEntries K (step_manifests st) entries
        end ;;
  Println (step_done st) ;;
  match step_readinessCheck st with
  | None => ret None
  | Some rc =>
      Println (ready_announce rc) ;;
      check wrapf (ready_failure rc)
                  (waitForDeployment K (ready_namespace rc) (ready_deployment rc)
                                     (ready_timeout rc)) ;;
      ret None
  end)%go.

(** The calls an install in direct mode may make on behalf of the bundle
    directories [paths]. *)
Definition install_call (paths : list string) (c : Call) : Prop :=
  match c with
  | ReadDir q => In q paths
  | ReadFile _ | DynamicApply _ _ _ | DeploymentGet _ _ | Sleep _ | Print _ => True
  | _ => False
  end.

(** The calls of rendering to the file system. *)
Definition render_call (c : Call) : Prop :=
  match c with
  | MkdirAll _ | WriteFile _ | Print _ => True
  | _ => False
  end.

(** No call of the log changes the cluster. *)
Definition no_cluster_mutation (l : list Call) : Prop :=
  Forall (fun c => is_cluster_mutation c = false) l.

(** The number of results with a given status. *)
Definition count_status (status : string) (tests : list TestResult) : nat :=
  List.length (filter (fun t => (Status t =? status)%string) tests).

End Vocabulary.

(** ** internal/install/installer.go: the demo application *)

Section Demo.

Context {W Bytes Obj : Type}.
Variable K : API W Bytes Obj.
Variable cfg : Config.

Local Open Scope go_scope.

(** [DeployDemo]: deploys the demo application. *)
Definition DeployDemo : M W (option error) :=
  Print_ (nl ++ "→ Creating namespace " ++ Demo_Namespace (Demo cfg) ++ "..." ++ nl) ;;
  check createNamespace K (Demo_Namespace (Demo cfg)) ;;
  Println (nl ++ "→ Deploying demo application...") ;;
  check wrapf "failed to deploy demo app: "
              (applyManifests K "bundles/demos/demo-app") ;;
  Println "  ✓ Demo application deployed" ;;
  ret None.

(** [RunLoadTest]: runs a load test. *)
Definition RunLoadTest (duration : string) (requests : Z) : M W (option error) :=
  Println (nl ++ "→ Starting load test job...") ;;
  check wrapf "failed to start load test: "
              (applyManifests K "bundles/demos/load-test") ;;
  Println "  ✓ Load test job started" ;;
  Println ("  Monitor HPA with: kubectl get hpa -n "
           ++ Demo_Namespace (Demo cfg) ++ " -w") ;;
  ret None.

(** [RunChaosTest]: runs chaos tests. *)
Definition RunChaosTest : M W (option error) :=
  let ns := Demo_Namespace (Demo cfg) in
  Println (nl ++ "→ Deleting a demo pod to test self-healing...") ;;
  pods <- call1 (PodList ns "app=demo") (Pods_List K ns "app=demo") ;;
  match pods with
  | inl e => ret (Some (WrapError "failed to list pods: " e))
  | inr [] => ret (Some (PlainError "no demo pods found"))
  | inr (pod :: _) =>
      let podName := Pod_Name pod in
      Print_ ("  Deleting pod " ++ podName ++ "..." ++ nl) ;;
      err <- call0 (PodDelete ns podName) (Pods_Delete K ns podName) ;;
      match err with
      | Some e => ret (Some (WrapError "failed to delete pod: " e))
      | None =>
          Println "  ✓ Pod deleted, Kubernetes should recreate it automatically" ;;
          Println ("  Monitor pods with: kubectl get pods -n " ++ ns ++ " -w") ;;
          ret None
      end
  end.

(** [CleanupDemo]: removes the demo application. *)
Definition CleanupDemo : M W (option error) :=
  let ns := Demo_Namespace (Demo cfg) in
  Print_ (nl ++ "→ Deleting namespace " ++ ns ++ "..." ++ nl) ;;
  err <- call0 (NamespaceDelete ns) (Namespaces_Delete K ns) ;;
  match err with
  | Some e =>
      if negb (isNotFound err)
      then ret (Some (WrapError "failed to delete demo namespace: " e))
      else ret None
  | None => ret None
  end.

End Demo.

(** ** The command line and the report (internal/cli, internal/verify) *)

(** What the commands need besides [API]: the construction of the cluster
    clients from the kubeconfig, [os.Stat], standard input, and the
    formatting done by encoding/json and fmt.  These operations are not
    logged. *)
Record Host (W Bytes : Type) := {
  (* clientcmd: kubeConfig.ClientConfig() *)
  ClientConfig : W -> option error * W;
  (* kubernetes.NewForConfig, dynamic.NewForConfig *)
  NewForConfig : W -> option error * W;
  dynamic_NewForConfig : W -> option error * W;
  (* os.Stat: the error, if any *)
  os_Stat : string -> W -> option error * W;
  (* fmt.Scanln(&response): the value left in response *)
  fmt_Scanln : W -> string * W;
  (* json.MarshalIndent(r, "", "  ") on a report *)
  json_MarshalIndent : VerificationResults -> error + Bytes;
  (* the verb %-20s *)
  fmt_left20 : string -> string
}.

Arguments ClientConfig {W Bytes}.
Arguments NewForConfig {W Bytes}.
Arguments dynamic_NewForConfig {W Bytes}.
Arguments os_Stat {W Bytes}.
Arguments fmt_Scanln {W Bytes}.
Arguments json_MarshalIndent {W Bytes}.
Arguments fmt_left20 {W Bytes}.

(** An operation of the host, run in the monad. *)
Definition host {W A} (op : W -> A * W) : M W A :=
  fun s => let '(r, w) := op (fst s) in (Val r, (w, snd s)).

(** [cfg.Mode = mode] and [cfg.ClusterProfile = clusterProfile]. *)
Definition set_Mode (c : Config) (mode : string) : Config :=
  {| ClusterProfile := ClusterProfile c; Mode := mode; GitOps := GitOps c;
     Platform := Platform c; Policy := Policy c;
     NetworkPolicy_ := NetworkPolicy_ c; Autoscaling := Autoscaling c;
     Demo := Demo c; Verify := Verify c |}.

Definition set_ClusterProfile (c : Config) (clusterProfile : string) : Config :=
  {| ClusterProfile := clusterProfile; Mode := Mode c; GitOps := GitOps c;
     Platform := Platform c; Policy := Policy c;
     NetworkPolicy_ := NetworkPolicy_ c; Autoscaling := Autoscaling c;
     Demo := Demo c; Verify := Verify c |}.

Section Commands.

Context {W Bytes Obj : Type}.
Variable K : API W Bytes Obj.
Variable H : Host W Bytes.

Local Open Scope go_scope.

(** [NewVerifier]: the clients of a verifier. *)
Definition NewVerifier : M W (option error) :=
  check wrapf "failed to load kubeconfig: " (host (ClientConfig H)) ;;
  check wrapf "failed to create kubernetes client: " (host (NewForConfig H)) ;;
  ret None.

(** [NewInstaller]: the clients of an installer. *)
Definition NewInstaller : M W (option error) :=
  check wrapf "failed to load kubeconfig: " (host (ClientConfig H)) ;;
  check wrapf "failed to create kubernetes client: " (host (NewForConfig H)) ;;
  check wrapf "failed to create dynamic client: "
              (host (dynamic_NewForConfig H)) ;;
  ret None.

(** [WriteReport]: writes the report to a file. *)
Definition WriteReport (r : VerificationResults) (path format : string)
  : M W (option error) :=
  if (format =? "json")%string || negb (path =? "")%string
  then
    match json_MarshalIndent H r with
    | inl e => ret (Some e)
    | inr data => call0 (WriteFile path) (os_WriteFile K path data)
    end
  else ret None.

(** The [switch] of [PrintSummary] and of [PrintText]. *)
Definition status_label (status : string) : string :=
  if (status =? "PASS")%string then "✓ PASS"
  else if (status =? "FAIL")%string then "✗ FAIL"
  else if (status =? "WARN")%string then "⚠ WARN"
  else if (status =? "SKIP")%string then "- SKIP"
  else status.

(** The loop of [PrintSummary]. *)
Fixpoint printTests (tests : list TestResult) : M W unit :=
  match tests with
  | [] => ret tt
  | test :: rest =>
      Print_ (nl ++ fmt_left20 H (Name test ++ ":") ++ " "
              ++ status_label (Status test) ++ nl) ;;
      Print_ ("  " ++ Message test ++ nl) ;;
      Print_ ("  Duration: " ++ Duration test ++ nl) ;;
      printTests rest
  end.

(** [PrintSummary]: prints a summary. *)
Definition PrintSummary (r : VerificationResults) : M W unit :=
  Println (nl ++ "Verification Results:") ;;
  Println "=====================" ;;
  printTests (Tests r) ;;
  Println (nl ++ "=====================") ;;
  Print_ ("Total:  " ++ fmt_d (Total (Results_Summary r)) ++ nl) ;;
  Print_ ("Passed: " ++ fmt_d (Passed (Results_Summary r)) ++ nl) ;;
  Print_ ("Failed: " ++ fmt_d (Failed (Results_Summary r)) ++ nl) ;;
  if AllPassed r then Println (nl ++ "✓ All tests passed!")
  else Println (nl ++ "✗ Some tests failed").

(** The command [kubac verify]. *)
Definition verifyCommand (configFile output reportPath : string)
  : M W (option error) :=
  loaded <- LoadConfig K configFile ;;
  match loaded with
  | inl e => ret (Some (WrapError "failed to load config: " e))
  | inr cfg =>
      Println "Running kubac verification suite..." ;;
      check wrapf "failed to create verifier: " NewVerifier ;;
      run <- RunAll K cfg ;;
      match run with
      | (_, Some e) => ret (Some (WrapError "verification failed: " e))
      | (results, None) =>
          let reportPath :=
            if (reportPath =? "")%string then "kubac-verify-report.json"
            else reportPath in
          check wrapf "failed to write report: "
                      (WriteReport results reportPath output) ;;
          PrintSummary results ;;
          Print_ (nl ++ "✓ Full report written to: " ++ reportPath ++ nl) ;;
          if negb (AllPassed results)
          then ret (Some (PlainError "some verification tests failed"))
          else ret None
      end
  end.

(** The command [kubac init]. *)
Definition initCommand (clusterProfile mode : string) : M W (option error) :=
  stat <- host (os_Stat H "kubac.yaml") ;;
  if is_nil stat
  then ret (Some (PlainError "kubac.yaml already exists, refusing to overwrite"))
  else
    let cfg := DefaultConfig clusterProfile mode in
    check wrapf "failed to write kubac.yaml: " (WriteConfig K "kubac.yaml" cfg) ;;
    Print_ ("✓ Created kubac.yaml with profile '" ++ clusterProfile
            ++ "' and mode '" ++ mode ++ "'" ++ nl) ;;
    check when (mode =? "gitops")%string (
      let gitopsPath :=
        if (GitOps_Path (GitOps cfg) =? "")%string then "clusters/my-cluster"
        else GitOps_Path (GitOps cfg) in
      let dirs := [ gitopsPath;
                    filepath_Join K gitopsPath "flux-system";
                    filepath_Join K gitopsPath "platform";
                    filepath_Join K gitopsPath "policies";
                    filepath_Join K gitopsPath "apps" ] in
      check mkdirs K dirs ;;
      Print_ ("✓ Created GitOps directory structure at " ++ gitopsPath ++ nl) ;;
      ret None) ;;
    Println (nl ++ "Next steps:") ;;
    Println "  1. Review and customize kubac.yaml" ;;
    Println "  2. Run 'kubac doctor' to verify cluster access" ;;
    Println "  3. Run 'kubac install' to deploy the platform" ;;
    ret None.

(** The command [kubac install]. *)
Definition installCommand (configFile mode clusterProfile : string)
  : M W (option error) :=
  loaded <- LoadConfig K configFile ;;
  match loaded with
  | inl e => ret (Some (WrapError "failed to load config: " e))
  | inr cfg =>
      let cfg := if negb (mode =? "")%string then set_Mode cfg mode else cfg in
      let cfg :=
        if negb (clusterProfile =? "")%string
        then set_ClusterProfile cfg clusterProfile else cfg in
      Print_ ("Installing kubac platform (mode=" ++ Mode cfg ++ ", profile="
              ++ ClusterProfile cfg ++ ")..." ++ nl) ;;
      check wrapf "failed to create installer: " NewInstaller ;;
      check wrapf "installation failed: " (Install K cfg) ;;
      Println (nl ++ "✓ Installation completed successfully!") ;;
      Println (nl ++ "Next steps:") ;;
      Println "  1. Run 'kubac verify' to validate the installation" ;;
      Println "  2. Run 'kubac demo deploy' to deploy a sample application" ;;
      ret None
  end.

(** What [kubac uninstall] does once it is confirmed. *)
Definition uninstallConfirmed (cfg : Config) : M W (option error) :=
  Println "Uninstalling kubac platform..." ;;
  check wrapf "failed to create installer: " NewInstaller ;;
  check wrapf "uninstall failed: " (Uninstall K cfg) ;;
  Println (nl ++ "✓ Uninstall completed successfully!") ;;
  ret None.

(** The command [kubac uninstall]. *)
Definition uninstallCommand (configFile : string) (force : bool)
  : M W (option error) :=
  loaded <- LoadConfig K configFile ;;
  match loaded with
  | inl e => ret (Some (WrapError "failed to load config: " e))
  | inr cfg =>
      if negb force
      then
        Println "WARNING: This will remove all kubac components from the cluster." ;;
        Print_ "Are you sure? (yes/no): " ;;
        response <- host (fmt_Scanln H) ;;
        if negb (response =? "yes")%string
        then Println "Uninstall cancelled." ;; ret None
        else uninstallConfirmed cfg
      else uninstallConfirmed cfg
  end.

End Commands.

(** ** internal/doctor *)

Module Doctor.

Record CheckResult := {
  Name : string;
  Status : string;
  Message : string
}.

Record CheckResults := {
  Checks : list CheckResult
}.

(** The fields of a node that [checkNodes] reads. *)
Record NodeCondition := {
  Condition_Type : string;
  Condition_Status : string
}.

Record Node := {
  Status_Conditions : list NodeCondition
}.

(** What the checks need from their environment. *)
Record Env (W : Type) := {
  (* exec.Command(name, args...).CombinedOutput() *)
  CombinedOutput : string -> list string -> W -> (string * option error) * W;
  (* clientcmd and client-go *)
  ClientConfig : W -> option error * W;
  NewForConfig : W -> option error * W;
  RawConfig_CurrentContext : W -> (error + string) * W;
  (* clientset.CoreV1().Namespaces().List, with the limit of the options *)
  Namespaces_List : Z -> W -> option error * W;
  (* clientset.CoreV1().Nodes().List *)
  Nodes_List : W -> (error + list Node) * W;
  (* encoding/json: the indented text of the results, with its newline *)
  json_Encode : CheckResults -> error + string;
  (* the verb %-20s *)
  fmt_left20 : string -> string
}.

Arguments CombinedOutput {W}.
Arguments ClientConfig {W}.
Arguments NewForConfig {W}.
Arguments RawConfig_CurrentContext {W}.
Arguments Namespaces_List {W}.
Arguments Nodes_List {W}.
Arguments json_Encode {W}.
Arguments fmt_left20 {W}.

Definition check_result (name status message : string) : CheckResult :=
  {| Name := name; Status := status; Message := message |}.

(** The inner loop of [checkNodes]: the conditions of one node. *)
Fixpoint scanConditions (conditions : list NodeCondition) (readyNodes : Z) : Z :=
  match conditions with
  | [] => readyNodes
  | condition :: rest =>
      if (Condition_Type condition =? "Ready")%string
         && (Condition_Status condition =? "True")%string
      then int (readyNodes + 1)
      else scanConditions rest readyNodes
  end.

(** The outer loop of [checkNodes]. *)
Fixpoint countReady (nodes : list Node) (readyNodes : Z) : Z :=
  match nodes with
  | [] => readyNodes
  | node :: rest =>
      countReady rest (scanConditions (Status_Conditions node) readyNodes)
  end.

(** The loop of [AllPassed]. *)
Fixpoint noneFailed (checks : list CheckResult) : bool :=
  match checks with
  | [] => true
  | c :: rest =>
      if (Status c =? "FAIL")%string then false else noneFailed rest
  end.

(** [AllPassed]: true if all checks passed. *)
Definition AllPassed (r : CheckResults) : bool := noneFailed (Checks r).

Section Checks.

Context {W : Type}.
Variable E : Env W.

Local Open Scope go_scope.

Definition checkKubectl : M W CheckResult :=
  out <- host (CombinedOutput E "kubectl" ["version"; "--client"; "--short"]) ;;
  match snd out with
  | Some _ =>
      ret (check_result "kubectl" "FAIL" "kubectl not found or not executable")
  | None => ret (check_result "kubectl" "PASS" (fst out))
  end.

Definition checkClusterAccess : M W CheckResult :=
  err <- host (ClientConfig E) ;;
  match err with
  | Some e =>
      ret (check_result "cluster-access" "FAIL"
                        ("Failed to load kubeconfig: " ++ Error e))
  | None =>
      err <- host (NewForConfig E) ;;
      match err with
      | Some e =>
          ret (check_result "cluster-access" "FAIL"
                            ("Failed to create client: " ++ Error e))
      | None =>
          err <- host (Namespaces_List E 1) ;;
          match err with
          | Some e =>
              ret (check_result "cluster-access" "FAIL"
                                ("Failed to connect to cluster: " ++ Error e))
          | None =>
              rawConfig <- host (RawConfig_CurrentContext E) ;;
              match rawConfig with
              | inl _ =>
                  ret (check_result "cluster-access" "WARN"
                                    "Connected but cannot determine context")
              | inr currentContext =>
                  ret (check_result "cluster-access" "PASS"
                                    ("Connected to context: " ++ currentContext))
              end
          end
      end
  end.

Definition checkPermissions : M W CheckResult :=
  err <- host (ClientConfig E) ;;
  match err with
  | Some _ =>
      ret (check_result "permissions" "SKIP"
                        "Skipped due to cluster access failure")
  | None =>
      err <- host (NewForConfig E) ;;
      match err with
      | Some _ =>
          ret (check_result "permissions" "SKIP"
                            "Skipped due to client creation failure")
      | None =>
          err <- host (Namespaces_List E 0) ;;
          match err with
          | Some _ =>
              ret (check_result "permissions" "FAIL"
                                "Insufficient permissions to list namespaces")
          | None =>
              ret (check_result "permissions" "PASS"
                                "User has required cluster permissions")
          end
      end
  end.

Definition checkNodes : M W CheckResult :=
  err <- host (ClientConfig E) ;;
  match err with
  | Some _ =>
      ret (check_result "nodes" "SKIP" "Skipped due to cluster access failure")
  | None =>
      err <- host (NewForConfig E) ;;
      match err with
      | Some _ =>
          ret (check_result "nodes" "SKIP"
                            "Skipped due to client creation failure")
      | None =>
          nodes <- host (Nodes_List E) ;;
          match nodes with
          | inl e =>
              ret (check_result "nodes" "WARN"
                                ("Cannot list nodes: " ++ Error e))
          | inr items =>
              let readyNodes := countReady items 0 in
              if readyNodes =? 0
              then ret (check_result "nodes" "FAIL" "No ready nodes found")
              else ret (check_result "nodes" "PASS"
                          (fmt_d readyNodes ++ "/"
                           ++ fmt_d (Z.of_nat (List.length items))
                           ++ " nodes ready"))
          end
      end
  end.

(** [RunChecks]: runs all preflight checks. *)
Definition RunChecks : M W CheckResults :=
  kubectl <- checkKubectl ;;
  clusterAccess <- checkClusterAccess ;;
  permissions <- checkPermissions ;;
  nodes <- checkNodes ;;
  ret {| Checks := ((([] ++ [kubectl]) ++ [clusterAccess]) ++ [permissions])
                   ++ [nodes] |}%list.

(** The loop of [PrintText]. *)
Fixpoint printChecks (checks : list CheckResult) : M W unit :=
  match checks with
  | [] => ret tt
  | c :: rest =>
      Print_ (fmt_left20 E (Name c ++ ":") ++ " "
              ++ status_label (Status c) ++ nl) ;;
      (if negb (Message c =? "")%string
       then Print_ ("  " ++ Message c ++ nl)
       else ret tt) ;;
      printChecks rest
  end.

(** [PrintText]: prints results in text format. *)
Definition PrintText (r : CheckResults) : M W unit :=
  Println (nl ++ "Preflight Checks:") ;;
  Println "-----------------" ;;
  printChecks (Checks r).

(** [PrintJSON]: prints results in JSON format. *)
Definition PrintJSON (r : CheckResults) : M W (option error) :=
  match json_Encode E r with
  | inl e => ret (Some e)
  | inr text => Print_ text ;; ret None
  end.

(** The command [kubac doctor]. *)
Definition doctorCommand (output : string) : M W (option error) :=
  Println "Running kubac preflight checks..." ;;
  results <- RunChecks ;;
  check (if (output =? "json")%string
         then wrapf "failed to print JSON: " (PrintJSON results)
         else PrintText results ;; ret None) ;;
  if negb (AllPassed results)
  then ret (Some (PlainError "some preflight checks failed"))
  else Println (nl ++ "✓ All preflight checks passed!") ;; ret None.

End Checks.

End Doctor.

(** ** Vocabulary of the further statements *)

(** The paths of the files read, in order, and the number of applies. *)
Fixpoint files_read (l : list Call) : list string :=
  match l with
  | [] => []
  | ReadFile path :: rest => path :: files_read rest
  | _ :: rest => files_read rest
  end.

Definition is_apply (c : Call) : bool :=
  match c with DynamicApply _ _ _ => true | _ => false end.

Definition applied (l : list Call) : nat := List.length (filter is_apply l).

(** The calls made for the manifests of a directory. *)
Definition manifest_call (c : Call) : Prop :=
  match c with
  | ReadFile _ | DynamicApply _ _ _ => True
  | _ => False
  end.

(** The calls of a poll that evaluated its condition [m] + 1 times: a read
    [ev], then [m] times a sleep and a read. *)
Fixpoint poll_trace (m : nat) (ev : Call) (interval : Z) : list Call :=
  match m with
  | O => [ev]
  | S m' => ev :: Sleep interval :: poll_trace m' ev interval
  end.

(** The deployment cannot be read, or is not ready yet. *)
Definition unready (r : error + Deployment) : Prop :=
  match r with
  | inl _ => True
  | inr d => exists n, Spec_Replicas d = Some n /\ Status_ReadyReplicas d <> n
  end.

(** The names of the tests that [RunAll] knows. *)
Definition known_tests : list string :=
  ["pod-selfheal"; "hpa-scale"; "policy-deny"; "network-deny"].

(** A policy without ingress and egress rules. *)
Definition default_deny (np : NetworkPolicyObject) : bool :=
  (List.length (Spec_Ingress np) =? 0)%nat
  && (List.length (Spec_Egress np) =? 0)%nat.

(** The calls of the probes: reads, sleeps, and on the pods of one
    namespace a deletion or a creation. *)
Definition probe_call (ns : string) (c : Call) : Prop :=
  match c with
  | PodDelete n _ | PodCreate n _ => n = ns
  | c => is_cluster_mutation c = false
  end.

(** A check result with the given name and one of the four statuses. *)
Definition check_named (name : string) (c : Doctor.CheckResult) : Prop :=
  Doctor.Name c = name
  /\ In (Doctor.Status c) ["PASS"; "FAIL"; "WARN"; "SKIP"].

(** A node with a condition Ready of status True. *)
Definition node_ready (node : Doctor.Node) : bool :=
  existsb (fun c => (Doctor.Condition_Type c =? "Ready")%string
                    && (Doctor.Condition_Status c =? "True")%string)
          (Doctor.Status_Conditions node).

(** The pod that [testPolicyDeny] tries to create. *)
Definition privileged_test_pod (ns : string) : Pod :=
  {| Pod_Name := "test-privileged-pod";
     Pod_Namespace := ns;
     Pod_Containers := [ {| Container_Name := "test";
                            Container_Image := "nginx:latest";
                            Container_Privileged := Some true |} ] |}.

(** The call with which the probe of a known test starts. *)
Definition first_probe_call (ns testName : string) : option Call :=
  if (testName =? "pod-selfheal")%string then Some (DeploymentGet ns "demo")
  else if (testName =? "hpa-scale")%string then Some (HPAGet ns "demo")
  else if (testName =? "policy-deny")%string
  then Some (PodCreate ns (privileged_test_pod ns))
  else if (testName =? "network-deny")%string
  then Some (NetworkPolicyList ns)
  else None.

Section Vocabulary2.

Context {W Bytes Obj : Type}.
Variable K : API W Bytes Obj.

(** The entries of a directory that [applyManifests] applies: files whose
    extension is .yaml or .yml. *)
Definition is_manifest (entry : DirEntry) : bool :=
  negb (Entry_IsDir entry)
  && ((filepath_Ext K (Entry_Name entry) =? ".yaml")%string
      || (filepath_Ext K (Entry_Name entry) =? ".yml")%string).

Definition manifest_paths (path : string) (entries : list DirEntry)
  : list string :=
  map (fun entry => filepath_Join K path (Entry_Name entry))
      (filter is_manifest entries).

(** The state in which the readiness poll of a step starts. *)
Definition gated (st : InstallStep) (rc : ReadinessCheck)
    (s : W * list Call) : W * list Call :=
  (fst s, (snd s ++ [Print (step_done st ++ nl);
                     Print (ready_announce rc ++ nl)])%list).

(** The directories of the GitOps layout, as [kubac init] creates them. *)
Definition gitops_layout : list string :=
  [ "clusters/my-cluster";
    filepath_Join K "clusters/my-cluster" "flux-system";
    filepath_Join K "clusters/my-cluster" "platform";
    filepath_Join K "clusters/my-cluster" "policies";
    filepath_Join K "clusters/my-cluster" "apps" ].

(** What [kubac init] may do: print, write kubac.yaml, and in the mode
    gitops create a directory of the layout. *)
Definition init_call (mode : string) (c : Call) : Prop :=
  match c with
  | Print _ => True
  | WriteFile path => path = "kubac.yaml"
  | MkdirAll dir => mode = "gitops" /\ In dir gitops_layout
  | _ => False
  end.

End Vocabulary2.

(** ** More simulated clusters and hosts *)

Module Sim2.

(** The demo cluster with a bundle directory that holds nothing to apply
    and one whose manifest cannot be read. *)
Definition bundles : Sim.World :=
  Sim.with_files Sim.demo_cluster
    (Sim.dirs Sim.demo_cluster
     ++ [ ("bundles/empty",
           [ {| Entry_Name := "README.md"; Entry_IsDir := false |};
             {| Entry_Name := "charts.yaml"; Entry_IsDir := true |} ]);
          ("bundles/broken",
           [ {| Entry_Name := "a.yaml"; Entry_IsDir := false |};
             {| Entry_Name := "b.yml"; Entry_IsDir := false |};
             {| Entry_Name := "c.yaml"; Entry_IsDir := false |} ]) ])%list
    (Sim.files Sim.demo_cluster
     ++ [ ("bundles/broken/a.yaml",
           Sim.Manifest {| Sim.obj_group := ""; Sim.obj_version := "v1";
                           Sim.obj_kind := "configmap";
                           Sim.obj_namespace := "default";
                           Sim.obj_name := "a" |});
          ("bundles/broken/b.yml", Sim.Text "not a manifest") ])%list.

(** A configuration with every switch off. *)
Definition bare : Config := {|
  ClusterProfile := "local";
  Mode := "direct";
  GitOps := zero_GitOpsConfig;
  Platform := zero_PlatformConfig;
  Policy := zero_PolicyConfig;
  NetworkPolicy_ := zero_NetworkPolicy;
  Autoscaling := zero_AutoscalingConfig;
  Demo := zero_DemoConfig;
  Verify := zero_VerifyConfig
|}.

(** The demo cluster with empty bundles for kube-state-metrics and
    Kyverno, and a Kyverno deployment that never gets ready. *)
Definition stuck : Sim.World :=
  Sim.with_pods
    (Sim.with_files Sim.demo_cluster
       (Sim.dirs Sim.demo_cluster
        ++ [ ("bundles/platform/kube-state-metrics", []);
             ("bundles/policies/kyverno", []) ])%list
       (Sim.files Sim.demo_cluster))
    (Sim.pods Sim.demo_cluster) None.

(** The demo cluster while its deployments come back: ready after 15 s. *)
Definition recovering : Sim.World :=
  Sim.with_pods Sim.demo_cluster (Sim.pods Sim.demo_cluster)
                (Some (15 * Second)).

(** A configuration with another list of tests. *)
Definition with_tests (c : Config) (tests : list string) : Config :=
  {| ClusterProfile := ClusterProfile c; Mode := Mode c; GitOps := GitOps c;
     Platform := Platform c; Policy := Policy c;
     NetworkPolicy_ := NetworkPolicy_ c; Autoscaling := Autoscaling c;
     Demo := Demo c;
     Verify := {| Verify_Timeout := Verify_Timeout (Verify c);
                  Verify_Parallel := Verify_Parallel (Verify c);
                  Verify_Tests := tests |} |}.

(** The demo cluster with the deployment scaled down to no pod. *)
Definition no_pods : Sim.World :=
  Sim.with_pods Sim.demo_cluster [] (Some 0).

(** Left-aligned padding to 20 bytes. *)
Fixpoint spaces (n : nat) : string :=
  match n with
  | O => ""
  | S n' => " " ++ spaces n'
  end.

Definition left20 (text : string) : string :=
  text ++ spaces (20 - String.length text).

(** A host on which kubectl and the kubeconfig are in place, in front of a
    cluster with the given nodes. *)
Definition doctor_env (nodes : list Doctor.Node) : Doctor.Env Sim.World := {|
  Doctor.CombinedOutput := fun _ _ w => (("Client Version: v1.29.0", None), w);
  Doctor.ClientConfig := fun w => (None, w);
  Doctor.NewForConfig := fun w => (None, w);
  Doctor.RawConfig_CurrentContext := fun w => (inr "kind-kubac", w);
  Doctor.Namespaces_List :=
    fun _ w => if Sim.down w then (Some Sim.refused, w) else (None, w);
  Doctor.Nodes_List :=
    fun w => if Sim.down w then (inl Sim.refused, w) else (inr nodes, w);
  Doctor.json_Encode := fun _ => inr "{}";
  Doctor.fmt_left20 := left20
|}.

Definition node (conditions : list (string * string)) : Doctor.Node :=
  {| Doctor.Status_Conditions :=
       map (fun c => {| Doctor.Condition_Type := fst c;
                        Doctor.Condition_Status := snd c |}) conditions |}.

(** Three nodes: one ready, one under memory pressure and not ready, one
    that reports nothing. *)
Definition three_nodes : list Doctor.Node :=
  [ node [("MemoryPressure", "False"); ("Ready", "True")];
    node [("MemoryPressure", "True"); ("Ready", "False")];
    node [] ].


(** A host with a kubeconfig, on which the user answers [answer] to a
    prompt; files are looked up in the simulated file system. *)
Definition host (answer : string) : Host Sim.World Sim.Blob := {|
  ClientConfig := fun w => (None, w);
  NewForConfig := fun w => (None, w);
  dynamic_NewForConfig := fun w => (None, w);
  os_Stat := fun path w =>
    (if existsb (fun f => (fst f =? path)%string) (Sim.files w) then None
     else Some (Sim.no_such_file "stat" path), w);
  fmt_Scanln := fun w => (answer, w);
  json_MarshalIndent := fun _ => inr (Sim.Text "{}");
  fmt_left20 := left20
|}.

(** The demo cluster, seen from a directory that holds the configuration
    [c] in kubac.yaml. *)
Definition configured (c : Config) : Sim.World :=
  Sim.with_files Sim.demo_cluster (Sim.dirs Sim.demo_cluster)
    (("kubac.yaml", Sim.Yaml (Config_to_yaml c)) :: Sim.files Sim.demo_cluster).

End Sim2.

(** * Properties *)

Section Properties.

Context {W Bytes Obj : Type}.
Variable K : API W Bytes Obj.

Local Open Scope go_scope.

(** ** The monad *)

Ltac val_done := do 2 eexists; (split; [reflexivity | trivial]).

Lemma returns_ret {A} (P : A -> Prop) (a : A) : P a -> returns P (ret (W := W) a).
Proof. intros H s. exists a, s. split; [reflexivity | exact H]. Qed.

Lemma returns_bind {A B} (Q : A -> Prop) (P : B -> Prop) (c : M W A) k :
  returns Q c -> (forall a, Q a -> returns P (k a)) -> returns P (bind c k).
Proof.
  intros Hc Hk s. destruct (Hc s) as (a & s1 & E & Ha).
  destruct (Hk a Ha s1) as (b & s2 & E2 & Hb).
  exists b, s2. unfold bind. rewrite E. auto.
Qed.

Lemma returns_call0 ev op : returns (fun _ => True) (call0 (W := W) ev op).
Proof.
  intros s. unfold call0. destruct (op (fst s)) as [r w]. eauto.
Qed.

Lemma returns_call1 {A} ev (op : W -> (error + A) * W) :
  returns (fun _ => True) (call1 ev op).
Proof.
  intros s. unfold call1. destruct (op (fst s)) as [r w]. eauto.
Qed.

Lemma returns_now : returns (fun _ => True) (now K).
Proof. intros s. unfold now. eauto. Qed.

Lemma returns_sleep d : returns (fun _ => True) (sleep K d).
Proof. intros s. unfold sleep. eauto. Qed.

Lemma emits_ret {A} E (a : A) : emits E (ret (W := W) a).
Proof. intros s. exists []. split; [cbn; now rewrite app_nil_r | constructor]. Qed.

Lemma emits_panic {A} E msg : emits E (panic (W := W) (A := A) msg).
Proof. intros s. exists []. split; [cbn; now rewrite app_nil_r | constructor]. Qed.

Lemma emits_bind {A B} E (c : M W A) (k : A -> M W B) :
  emits E c -> (forall a, emits E (k a)) -> emits E (bind c k).
Proof.
  intros Hc Hk s. destruct (Hc s) as (l1 & E1 & F1). unfold bind, calls in *.
  destruct (c s) as [[a | msg] s1]; cbn in E1.
  - destruct (Hk a s1) as (l2 & E2 & F2). exists (l1 ++ l2)%list. split.
    + unfold calls in E2. rewrite E2, E1. now rewrite app_assoc.
    + apply Forall_app; auto.
  - exists l1. auto.
Qed.

Lemma emits_call0 (E : Call -> Prop) ev op : E ev -> emits E (call0 (W := W) ev op).
Proof.
  intros H s. exists [ev]. unfold call0, calls.
  destruct (op (fst s)); cbn. auto.
Qed.

Lemma emits_call1 {A} (E : Call -> Prop) ev (op : W -> (error + A) * W) :
  E ev -> emits E (call1 ev op).
Proof.
  intros H s. exists [ev]. unfold call1, calls.
  destruct (op (fst s)); cbn. auto.
Qed.

Lemma emits_Print (E : Call -> Prop) text : E (Print text) -> emits E (Print_ (W := W) text).
Proof. intros H s. exists [Print text]. cbn. auto. Qed.

Lemma emits_Println (E : Call -> Prop) text :
  E (Print (text ++ nl)) -> emits E (Println (W := W) text).
Proof. apply emits_Print. Qed.

Lemma emits_sleep (E : Call -> Prop) d : E (Sleep d) -> emits E (sleep K d).
Proof. intros H s. exists [Sleep d]. cbn. auto. Qed.

Lemma emits_try E (c k : M W (option error)) :
  emits E c -> emits E k -> emits E (try c k).
Proof.
  intros Hc Hk. apply emits_bind; [exact Hc |].
  intros [e |]; [apply emits_ret | exact Hk].
Qed.

Lemma emits_wrapf E prefix (c : M W (option error)) :
  emits E c -> emits E (wrapf prefix c).
Proof. intros Hc. apply emits_bind; [exact Hc | intros; apply emits_ret]. Qed.

Lemma emits_when E b (c : M W (option error)) : emits E c -> emits E (when b c).
Proof. intros Hc. destruct b; [exact Hc | apply emits_ret]. Qed.

(** One step through the structure of a computation. *)
Ltac emits_step :=
  lazymatch goal with
  | |- emits _ (bind _ _) => apply emits_bind; [| intros ? ]
  | |- emits _ (try _ _) => apply emits_try
  | |- emits _ (wrapf _ _) => apply emits_wrapf
  | |- emits _ (when _ _) => apply emits_when
  | |- emits _ (ret _) => apply emits_ret
  | |- emits _ (panic _) => apply emits_panic
  | |- emits _ (Println _) => apply emits_Println
  | |- emits _ (Print_ _) => apply emits_Print
  | |- emits _ (call0 _ _) => apply emits_call0
  | |- emits _ (call1 _ _) => apply emits_call1
  | |- emits _ (sleep _ _) => apply emits_sleep
  | |- emits _ _ => progress cbv zeta
  end.

(** ** Uninstall *)

Lemma deleteNamespace_returns ns : returns (fun _ => True) (deleteNamespace K ns).
Proof.
  intros s. unfold deleteNamespace, bind, Print_, call0; cbn.
  destruct (Namespaces_Delete K ns (fst s)) as [[e |] w]; cbn.
  - destruct (negb _); cbn; val_done.
  - val_done.
Qed.

Lemma deleteNamespaces_returns namespaces :
  returns (fun _ => True) (deleteNamespaces K namespaces).
Proof.
  induction namespaces as [| ns rest IH]; cbn.
  - now apply returns_ret.
  - eapply returns_bind; [apply deleteNamespace_returns | intros _ _; exact IH].
Qed.

(** C10.  [Uninstall] returns [nil] whatever the cluster answers to the
    deletions of the namespaces: a deletion that fails is at most reported
    on standard output. *)
Theorem Uninstall_returns_nil (cfg : Config) (s : W * list Call) :
  exists s', Uninstall K cfg s = (Val None, s').
Proof.
  unfold Uninstall, Println, Print_, bind; cbn.
  match goal with
  | |- context [deleteNamespaces K ?l ?s0] =>
      destruct (deleteNamespaces_returns l s0) as ([] & s1 & E & _); rewrite E
  end.
  eexists; reflexivity.
Qed.

(** ** Install in gitops mode *)

Lemma emits_writeFile path text : emits render_call (writeFile K path text).
Proof. apply emits_call0. exact I. Qed.

Lemma emits_RenderGitOpsManifests cfg destPath :
  emits render_call (RenderGitOpsManifests K cfg destPath).
Proof.
  unfold RenderGitOpsManifests, renderFluxBootstrap, renderKustomizations.
  repeat first [ apply emits_writeFile | emits_step ].
Qed.

Lemma emits_mkdirs dirs : emits render_call (mkdirs K dirs).
Proof.
  induction dirs as [| dir rest IH]; cbn.
  - apply emits_ret.
  - apply emits_try; [| exact IH].
    apply emits_wrapf, emits_call0. exact I.
Qed.

Lemma emits_installGitOps cfg : emits render_call (installGitOps K cfg).
Proof.
  unfold installGitOps.
  repeat first [ apply emits_mkdirs
               | apply emits_RenderGitOpsManifests
               | emits_step
               | exact I ].
Qed.

Lemma createNamespace_calls name s :
  exists r w,
    createNamespace K name s = (Val r, (w, (snd s ++ [NamespaceCreate name])%list)).
Proof.
  unfold createNamespace, call0, bind.
  destruct (Namespaces_Create K name (fst s)) as [err w].
  destruct (negb (is_nil err) && negb (isAlreadyExists err));
    do 2 eexists; reflexivity.
Qed.

Lemma render_call_not_cluster l :
  Forall render_call l -> Forall (fun c => is_cluster_call c = false) l.
Proof.
  intros H. eapply Forall_impl; [| exact H].
  intros []; cbn; tauto || reflexivity.
Qed.

(** C5, as the code has it.  In gitops mode [Install] first creates the
    namespace kubac-system on the cluster; this is its only call on the
    cluster.  If the creation fails the install stops there; otherwise
    everything that follows is the creation of directories, the writing of
    rendered manifests and messages: no call on the cluster, no readiness
    poll, no sleep. *)
Theorem Install_gitops_calls (cfg : Config) (s : W * list Call) :
  Mode cfg = "gitops" ->
  exists l,
    calls (Install K cfg s)
    = (snd s ++ Print ((nl ++ "→ Creating kubac-system namespace...") ++ nl)
             :: NamespaceCreate "kubac-system" :: l)%list
    /\ Forall render_call l
    /\ Forall (fun c => is_cluster_call c = false) l.
Proof.
  intros Hmode. unfold Install. rewrite Hmode, String.eqb_refl.
  unfold Println, calls. unfold bind at 1. unfold Print_ at 1.
  cbv beta iota. unfold try, bind.
  match goal with
  | |- context [createNamespace K ?n ?st] =>
      destruct (createNamespace_calls n st) as (r & w & E); rewrite E
  end.
  cbn [fst snd] in *. destruct r as [e |].
  - exists []. cbn [ret snd]. rewrite <- app_assoc.
    repeat split; constructor.
  - match goal with
    | |- context [installGitOps K cfg ?st] =>
        destruct (emits_installGitOps cfg st) as (l & El & Fl)
    end.
    exists l. unfold calls in El. rewrite El. cbn [snd].
    split; [now rewrite <- !app_assoc |].
    split; auto using render_call_not_cluster.
Qed.

(** ** The poller *)

Section Poll.

Context {A : Type}.
Variable get : W -> (error + A) * W.
Variable not_yet : error + A -> Prop.
Variable done : A -> Prop.
Variable condition : M W (bool * option error).
Variable interval : Z.

Hypothesis condition_not_yet : forall s r w,
  get (fst s) = (r, w) -> not_yet r ->
  exists l, condition s = (Val (false, None), (w, l)).

Hypothesis condition_done : forall s a w,
  get (fst s) = (inr a, w) -> done a ->
  exists l, condition s = (Val (true, None), (w, l)).

Lemma poll_settles k : forall n s,
  (k <= n)%nat ->
  settles K k get not_yet done interval (fst s) ->
  exists s', poll K n interval condition s = (Val None, s').
Proof.
  induction k as [| k IH]; intros n s Hle Hs; cbn in Hs.
  - destruct Hs as (a & w & Hget & Ha).
    destruct (condition_done s a w Hget Ha) as (l & E).
    destruct n; cbn; unfold bind; rewrite E; eexists; reflexivity.
  - destruct Hs as (r & w & Hget & Hr & Hs).
    destruct (condition_not_yet s r w Hget Hr) as (l & E).
    destruct n as [| n]; [lia |].
    cbn. unfold bind at 1. rewrite E. unfold bind, sleep; cbn [fst snd].
    apply IH; [lia | exact Hs].
Qed.

Lemma poll_stalls n : forall s,
  stalls K n get not_yet interval (fst s) ->
  exists s', poll K n interval condition s = (Val (Some ErrWaitTimeout), s').
Proof.
  induction n as [| n IH]; intros s Hs; cbn in Hs;
    destruct Hs as (r & w & Hget & Hr & Hs);
    destruct (condition_not_yet s r w Hget Hr) as (l & E).
  - cbn. unfold bind. rewrite E. eexists; reflexivity.
  - cbn. unfold bind at 1. rewrite E. unfold bind, sleep; cbn [fst snd].
    apply IH. exact Hs.
Qed.

End Poll.

Lemma deploymentReady_failed namespace name s r w :
  Deployments_Get K namespace name (fst s) = (r, w) -> failed r ->
  exists l, deploymentReady K namespace name s = (Val (false, None), (w, l)).
Proof.
  intros Hget Hr. unfold deploymentReady, bind, call1. rewrite Hget.
  destruct r as [e | d]; [| contradiction]. eexists; reflexivity.
Qed.

Lemma deploymentReady_ready namespace name s d w :
  Deployments_Get K namespace name (fst s) = (inr d, w) -> ready d ->
  exists l, deploymentReady K namespace name s = (Val (true, None), (w, l)).
Proof.
  intros Hget Hd. unfold deploymentReady, bind, call1. rewrite Hget.
  cbv beta iota. rewrite Hd, Z.eqb_refl. eexists; reflexivity.
Qed.

Lemma replicasRestored_degraded cfg baseline s r w :
  Deployments_Get K (Demo_Namespace (Demo cfg)) "demo" (fst s) = (r, w) ->
  degraded baseline r ->
  exists l, replicasRestored K cfg baseline s = (Val (false, None), (w, l)).
Proof.
  intros Hget Hr. unfold replicasRestored, bind, call1. rewrite Hget.
  destruct r as [e | d]; cbn in Hr |- *.
  - eexists; reflexivity.
  - rewrite Z.geb_leb. destruct (Z.leb_spec baseline (Status_ReadyReplicas d));
      [lia | eexists; reflexivity].
Qed.

Lemma degraded_failed {baseline} (r : error + Deployment) :
  failed r -> degraded baseline r.
Proof. destruct r; cbn; tauto. Qed.

Lemma replicasRestored_restored cfg baseline s d w :
  Deployments_Get K (Demo_Namespace (Demo cfg)) "demo" (fst s) = (inr d, w) ->
  restored baseline d ->
  exists l, replicasRestored K cfg baseline s = (Val (true, None), (w, l)).
Proof.
  intros Hget Hd. unfold replicasRestored, bind, call1. rewrite Hget.
  cbv beta iota. unfold restored in Hd. rewrite Z.geb_leb.
  destruct (Z.leb_spec baseline (Status_ReadyReplicas d));
    [eexists; reflexivity | lia].
Qed.

Lemma selfheal_retries : Z.to_nat (60 * Second / (5 * Second)) = 12%nat.
Proof. reflexivity. Qed.

(** C2.  Errors of the accessor do not end a poll.  If the read of the
    deployment fails on the first [k] attempts and shows the awaited state
    on the next one, and that attempt is within the timeout, then
    [waitForDeployment] returns [nil], and so does the poll of
    [testPodSelfHeal]. *)
Theorem poll_tolerates_errors (k : nat) (s : W * list Call) :
  (forall namespace name timeout,
      Z.of_nat k <= timeout / (5 * Second) ->
      settles K k (Deployments_Get K namespace name) failed ready
              (5 * Second) (fst s) ->
      exists s', waitForDeployment K namespace name timeout s = (Val None, s'))
  /\ (forall cfg initialReplicas,
      Z.of_nat k <= (60 * Second) / (5 * Second) ->
      settles K k (Deployments_Get K (Demo_Namespace (Demo cfg)) "demo")
              failed (restored initialReplicas) (5 * Second) (fst s) ->
      exists s',
        PollImmediate K (5 * Second) (60 * Second)
                      (replicasRestored K cfg initialReplicas) s
        = (Val None, s')).
Proof.
  split.
  - intros namespace name timeout Hk Hs. unfold waitForDeployment, PollImmediate.
    eapply poll_settles with (k := k); [| | lia | exact Hs].
    + intros; eapply deploymentReady_failed; eauto.
    + intros; eapply deploymentReady_ready; eauto.
  - intros cfg initialReplicas Hk Hs. unfold PollImmediate.
    eapply poll_settles with (k := k) (not_yet := failed); [| | lia | exact Hs].
    + intros; eapply replicasRestored_degraded; eauto using @degraded_failed.
    + intros; eapply replicasRestored_restored; eauto.
Qed.

(** ** The pod-selfheal probe *)

(** C6.  The verdicts of [testPodSelfHeal].  When the deployment cannot be
    read the probe is skipped.  When the deployment shows a baseline of
    ready replicas and its first pod was deleted, the probe passes, naming
    the pod, if the ready replicas are seen back at the baseline on one of
    the attempts of the poll (every 5 s, up to 60 s), and fails with
    "Pod was not replaced within timeout" if none of the attempts sees
    them back. *)
Theorem testPodSelfHeal_verdicts (cfg : Config) (s : W * list Call) :
  let ns := Demo_Namespace (Demo cfg) in
  (forall e w,
      Deployments_Get K ns "demo" (fst s) = (inl e, w) ->
      exists s',
        testPodSelfHeal K cfg s
        = (Val (result "pod-selfheal" "SKIP"
                       ("Demo app not deployed: " ++ Error e)), s'))
  /\ (forall d w1 pod others w2 w3,
      Deployments_Get K ns "demo" (fst s) = (inr d, w1) ->
      Pods_List K ns "app=demo" w1 = (inr (pod :: others), w2) ->
      Pods_Delete K ns (Pod_Name pod) w2 = (None, w3) ->
      let baseline := Status_ReadyReplicas d in
      (forall k,
          Z.of_nat k <= (60 * Second) / (5 * Second) ->
          settles K k (Deployments_Get K ns "demo") (degraded baseline)
                  (restored baseline) (5 * Second) w3 ->
          exists s',
            testPodSelfHeal K cfg s
            = (Val (result "pod-selfheal" "PASS"
                           ("Pod " ++ Pod_Name pod
                            ++ " was replaced successfully")), s'))
      /\ (stalls K (Z.to_nat ((60 * Second) / (5 * Second)))
                 (Deployments_Get K ns "demo") (degraded baseline)
                 (5 * Second) w3 ->
          exists s',
            testPodSelfHeal K cfg s
            = (Val (result "pod-selfheal" "FAIL"
                           "Pod was not replaced within timeout"), s'))).
Proof.
  intros ns. split.
  - intros e w Hget. unfold testPodSelfHeal. fold ns. cbv zeta.
    unfold bind at 1. unfold call1 at 1. rewrite Hget.
    eexists; reflexivity.
  - intros d w1 pod others w2 w3 Hget Hlist Hdel baseline.
    assert (Hrun : forall verdict,
      (forall s1, fst s1 = w3 ->
         exists s2,
           PollImmediate K (5 * Second) (60 * Second)
                         (replicasRestored K cfg baseline) s1
           = (Val verdict, s2)) ->
      exists s',
        testPodSelfHeal K cfg s
        = (Val match verdict with
               | Some _ => result "pod-selfheal" "FAIL"
                                  "Pod was not replaced within timeout"
               | None => result "pod-selfheal" "PASS"
                                ("Pod " ++ Pod_Name pod
                                 ++ " was replaced successfully")
               end, s')).
    { intros verdict Hpoll.
      unfold testPodSelfHeal. fold ns. cbv zeta.
      unfold bind at 1. unfold call1 at 1. rewrite Hget. cbv beta iota.
      unfold bind at 1. unfold call1 at 1. cbn [fst snd]. rewrite Hlist.
      cbv beta iota. unfold bind at 1. unfold call0 at 1. cbn [fst snd].
      rewrite Hdel. cbv beta iota. fold baseline. unfold bind at 1.
      match goal with
      | |- context [PollImmediate K _ _ _ ?s1] =>
          destruct (Hpoll s1 eq_refl) as (s2 & E); rewrite E
      end.
      destruct verdict; eexists; reflexivity. }
    split.
    + intros k Hk Hs. apply (Hrun None). intros s1 Hs1. subst w3.
      eapply poll_settles with (k := k); [| | lia | exact Hs].
      * intros; eapply replicasRestored_degraded; eauto.
      * intros; eapply replicasRestored_restored; eauto.
    + intros Hs. apply (Hrun (Some ErrWaitTimeout)). intros s1 Hs1. subst w3.
      eapply poll_stalls; [| exact Hs].
      intros; eapply replicasRestored_degraded; eauto.
Qed.

(** ** RunAll *)

Lemma int_small z : min_int <= z <= max_int -> int z = z.
Proof.
  unfold int, wrap, min_int, max_int.
  change (2 ^ (64 - 1)) with 9223372036854775808.
  change (2 ^ 63) with 9223372036854775808.
  change (2 ^ 64) with 18446744073709551616.
  intros H. rewrite Z.mod_small; lia.
Qed.

Lemma poll_returns n interval (condition : M W (bool * option error)) :
  returns (fun _ => True) condition ->
  returns (fun _ => True) (poll K n interval condition).
Proof.
  intros Hc. induction n as [| n IH]; cbn.
  - eapply returns_bind; [exact Hc |].
    intros [[] [e |]] _; now apply returns_ret.
  - eapply returns_bind; [exact Hc |].
    intros [[] [e |]] _; try now apply returns_ret.
    eapply returns_bind; [apply returns_sleep | intros _ _; exact IH].
Qed.

Lemma replicasRestored_returns cfg baseline :
  returns (fun _ => True) (replicasRestored K cfg baseline).
Proof.
  unfold replicasRestored.
  eapply returns_bind; [apply returns_call1 |].
  intros [e | d] _; now apply returns_ret.
Qed.

Lemma testPodSelfHeal_returns cfg :
  returns (fun r => Name r = "pod-selfheal") (testPodSelfHeal K cfg).
Proof.
  unfold testPodSelfHeal. cbv zeta.
  eapply returns_bind; [apply returns_call1 |].
  intros [e | d] _; [now apply returns_ret |].
  eapply returns_bind; [apply returns_call1 |].
  intros [e | [| pod others]] _; try now apply returns_ret.
  eapply returns_bind; [apply returns_call0 |].
  intros [e |] _; [now apply returns_ret |].
  eapply returns_bind;
    [apply poll_returns, replicasRestored_returns |].
  intros [e |] _; now apply returns_ret.
Qed.

Lemma testHPAScale_returns cfg :
  returns (fun r => Name r = "hpa-scale") (testHPAScale K cfg).
Proof.
  unfold testHPAScale. cbv zeta.
  eapply returns_bind; [apply returns_call1 |].
  intros [e | hpa] _; [now apply returns_ret |].
  destruct (Spec_MinReplicas hpa) as [minReplicas |]; [| now apply returns_ret].
  destruct (negb _); [now apply returns_ret |].
  destruct (negb _); now apply returns_ret.
Qed.

Lemma testPolicyDeny_returns cfg :
  returns (fun r => Name r = "policy-deny") (testPolicyDeny K cfg).
Proof.
  unfold testPolicyDeny. cbv zeta.
  eapply returns_bind; [apply returns_call0 |].
  intros [e |] _; [now apply returns_ret |].
  eapply returns_bind; [apply returns_call0 |].
  intros _ _; now apply returns_ret.
Qed.

Lemma testNetworkDeny_returns cfg :
  returns (fun r => Name r = "network-deny") (testNetworkDeny K cfg).
Proof.
  unfold testNetworkDeny. cbv zeta.
  eapply returns_bind; [apply returns_call1 |].
  intros [e | items] _; [now apply returns_ret |].
  destruct (_ =? _)%nat; [now apply returns_ret |].
  destruct (negb _); now apply returns_ret.
Qed.

Lemma dispatch_returns cfg testName :
  returns (fun r => Name r = testName) (dispatch K cfg testName).
Proof.
  unfold dispatch.
  destruct (String.eqb_spec testName "pod-selfheal") as [-> |];
    [apply testPodSelfHeal_returns |].
  destruct (String.eqb_spec testName "hpa-scale") as [-> |];
    [apply testHPAScale_returns |].
  destruct (String.eqb_spec testName "policy-deny") as [-> |];
    [apply testPolicyDeny_returns |].
  destruct (String.eqb_spec testName "network-deny") as [-> |];
    [apply testNetworkDeny_returns |].
  now apply returns_ret.
Qed.

Lemma runTest_returns cfg testName :
  returns (fun r => Name r = testName) (runTest K cfg testName).
Proof.
  unfold runTest.
  eapply returns_bind; [apply returns_now | intros start _].
  eapply returns_bind; [apply dispatch_returns | intros r Hr].
  eapply returns_bind; [apply returns_now | intros finish _].
  eapply returns_bind; [apply returns_now | intros timestamp _].
  now apply returns_ret.
Qed.

Lemma runTests_returns cfg tests : forall acc s,
  exists rs s',
    runTests K cfg tests acc s = (Val (acc ++ rs)%list, s')
    /\ map Name rs = tests.
Proof.
  induction tests as [| testName rest IH]; intros acc s; cbn.
  - exists [], s. now rewrite app_nil_r.
  - unfold bind. destruct (runTest_returns cfg testName s) as (r & s1 & E & Hr).
    rewrite E. destruct (IH (acc ++ [r])%list s1) as (rs & s2 & E2 & Hrs).
    exists (r :: rs), s2. rewrite E2, <- app_assoc. cbn. now rewrite Hr, Hrs.
Qed.

Lemma runTests_app cfg pre post : forall acc s rs s1,
  runTests K cfg pre acc s = (Val rs, s1) ->
  runTests K cfg (pre ++ post) acc s = runTests K cfg post rs s1.
Proof.
  induction pre as [| testName rest IH]; intros acc s rs s1; cbn.
  - unfold ret. now intros [= -> ->].
  - unfold bind. destruct (runTest K cfg testName s) as [[r | msg] s2].
    + apply IH.
    + discriminate.
Qed.

Lemma summarize_counts tests : forall sm,
  0 <= Passed sm -> 0 <= Failed sm ->
  Passed sm + Z.of_nat (List.length tests) <= max_int ->
  Failed sm + Z.of_nat (List.length tests) <= max_int ->
  summarize tests sm
  = {| Total := Total sm;
       Passed := Passed sm + Z.of_nat (count_status "PASS" tests);
       Failed := Failed sm + Z.of_nat (count_status "FAIL" tests) |}.
Proof.
  assert (Hmin : min_int <= 0) by (unfold min_int; lia).
  induction tests as [| test rest IH]; intros [t p f] Hp Hf Hpl Hfl;
    cbn [Passed Failed Total] in *.
  - cbn. now rewrite !Z.add_0_r.
  - cbn [summarize]. unfold count_status in *. cbn [filter].
    cbn [List.length] in Hpl, Hfl. rewrite Nat2Z.inj_succ in Hpl, Hfl.
    destruct (String.eqb_spec (Status test) "PASS") as [E | NP].
    + rewrite E. change ("PASS" =? "FAIL")%string with false.
      rewrite IH; cbn [Passed Failed Total]; rewrite ?int_small; try lia.
      cbn [List.length]. rewrite Nat2Z.inj_succ. f_equal; lia.
    + destruct (String.eqb_spec (Status test) "FAIL") as [E | NF].
      * rewrite IH; cbn [Passed Failed Total]; rewrite ?int_small; try lia.
        cbn [List.length]. rewrite Nat2Z.inj_succ. f_equal; lia.
      * rewrite IH; cbn [Passed Failed Total]; try lia. reflexivity.
Qed.

Lemma count_status_le status tests :
  (count_status status tests <= List.length tests)%nat.
Proof. apply filter_length_le. Qed.

(** C1.  The summary of a report.  For a list of configured tests (as long
    as a Go slice can be), [RunAll] returns a report without error whose
    total is the number of configured tests and of results, whose failed
    and passed counters are the numbers of results with status FAIL and
    with status PASS, and [AllPassed] holds exactly when the failed counter
    is zero; with no test configured the total is zero and [AllPassed]
    holds. *)
Theorem RunAll_summary (cfg : Config) (s : W * list Call) :
  Z.of_nat (List.length (Verify_Tests (Verify cfg))) <= max_int ->
  exists r s',
    RunAll K cfg s = (Val (r, None), s')
    /\ Total (Results_Summary r)
       = Z.of_nat (List.length (Verify_Tests (Verify cfg)))
    /\ Total (Results_Summary r) = Z.of_nat (List.length (Tests r))
    /\ Failed (Results_Summary r) = Z.of_nat (count_status "FAIL" (Tests r))
    /\ Passed (Results_Summary r) = Z.of_nat (count_status "PASS" (Tests r))
    /\ (AllPassed r = true <-> Failed (Results_Summary r) = 0)
    /\ (Verify_Tests (Verify cfg) = [] ->
        Total (Results_Summary r) = 0 /\ AllPassed r = true).
Proof.
  intros Hlen. unfold RunAll, bind, now.
  destruct (runTests_returns cfg (Verify_Tests (Verify cfg)) [] s)
    as (rs & s1 & E & Hrs).
  rewrite E. cbn [app] in *. cbv zeta.
  assert (Hl : List.length rs = List.length (Verify_Tests (Verify cfg)))
    by (rewrite <- Hrs; now rewrite length_map).
  rewrite summarize_counts; cbn [Passed Failed Total]; try lia.
  do 2 eexists. split; [reflexivity |].
  unfold AllPassed. cbn [Tests Results_Summary Passed Failed Total].
  do 4 (split; [lia |]).
  split; [apply Z.eqb_eq |].
  intros Hnil. rewrite Hnil in Hl. cbn in Hl. split; [lia |].
  apply Z.eqb_eq. pose proof (count_status_le "FAIL" rs) as Hc. lia.
Qed.

(** ** The install sequencer *)

Lemma bind_assoc {A B C} (c : M W A) (f : A -> M W B) (g : B -> M W C) s :
  bind (bind c f) g s = bind c (fun a => bind (f a) g) s.
Proof. unfold bind. destruct (c s) as [[a | msg] s1]; reflexivity. Qed.

(** [installDirect] is the sequencer run on [direct_steps]. *)
Lemma installDirect_runAll cfg s :
  installDirect K cfg s = runAll K (direct_steps cfg) s.
Proof.
  unfold installDirect, direct_steps. cbn [runAll].
  unfold runStep, step_action.
  cbn [step_enabled step_announce step_manifests step_failure step_done
       step_readinessCheck ready_announce ready_namespace ready_deployment
       ready_timeout ready_failure].
  destruct (Component_Enabled (MetricsServer (Platform cfg))),
           (Component_Enabled (KubeStateMetrics (Platform cfg))),
           (Policy_Enabled (Policy cfg)),
           (NetworkPolicy_Enabled (NetworkPolicy_ cfg));
    unfold when, try, wrapf, bind, ret, Println, Print_;
    repeat (cbv beta iota; cbn [fst snd];
            match goal with
            | |- context [applyManifests K ?p ?st] =>
                destruct (applyManifests K p st) as [[[? |] | ?] ?]
            | |- context [waitForDeployment K ?a ?b ?c ?st] =>
                destruct (waitForDeployment K a b c st) as [[[? |] | ?] ?]
            end);
    reflexivity.
Qed.

Lemma runAll_filter steps s :
  runAll K steps s = runAll K (filter step_enabled steps) s.
Proof.
  revert s. induction steps as [| st rest IH]; intros s; [reflexivity |].
  cbn [runAll filter]. destruct (step_enabled st) eqn:En.
  - cbn [runAll]. rewrite En. unfold try, bind.
    destruct (when true (runStep K st) s) as [[[e |] | msg] s1]; auto.
  - unfold try, bind, when, ret. apply IH.
Qed.

Lemma runAll_app pre rest : forall s s1,
  runAll K pre s = (Val None, s1) ->
  runAll K (pre ++ rest) s = runAll K rest s1.
Proof.
  induction pre as [| st pre IH]; intros s s1; cbn [runAll app].
  - unfold ret. now intros [= ->].
  - unfold try, bind.
    destruct (when (step_enabled st) (runStep K st) s) as [[[e |] | msg] s2].
    + unfold ret. discriminate.
    + apply IH.
    + discriminate.
Qed.

Lemma install_call_incl paths paths' c :
  incl paths paths' -> install_call paths c -> install_call paths' c.
Proof. intros Hi. destruct c; cbn; auto. Qed.

Lemma emits_applyManifest E data :
  (forall gvr ns name, E (DynamicApply gvr ns name)) ->
  emits E (applyManifest K data).
Proof.
  intros HE. unfold applyManifest.
  destruct (UnmarshalJSON K data); [apply emits_ret | apply emits_call0, HE].
Qed.

Lemma emits_applyEntries path entries :
  emits (install_call []) (applyEntries K path entries).
Proof.
  induction entries as [| entry rest IH]; cbn [applyEntries].
  - apply emits_ret.
  - destruct (Entry_IsDir entry); [exact IH |].
    destruct (_ && _); [exact IH |]. cbv zeta.
    apply emits_bind; [apply emits_call1; exact I |].
    intros [e | data]; [apply emits_ret |].
    apply emits_try; [| exact IH].
    apply emits_wrapf, emits_applyManifest. intros; exact I.
Qed.

Lemma emits_poll E n interval (condition : M W (bool * option error)) :
  emits E condition -> E (Sleep interval) ->
  emits E (poll K n interval condition).
Proof.
  intros Hc Hs. induction n as [| n IH]; cbn [poll].
  - apply emits_bind; [exact Hc |].
    intros [[] [e |]]; apply emits_ret.
  - apply emits_bind; [exact Hc |].
    intros [[] [e |]]; try apply emits_ret.
    apply emits_bind; [apply emits_sleep, Hs | intros _; exact IH].
Qed.

Lemma emits_waitForDeployment namespace name timeout :
  emits (install_call []) (waitForDeployment K namespace name timeout).
Proof.
  apply emits_poll; [| exact I]. unfold deploymentReady.
  apply emits_bind; [apply emits_call1; exact I |].
  intros [e | d]; [apply emits_ret |].
  destruct (Spec_Replicas d); [apply emits_ret | apply emits_panic].
Qed.

Lemma runStep_afterReadDir st s :
  runStep K st s
  = (let '(r, w) := os_ReadDir K (step_manifests st) (fst s) in
     afterReadDir K st r
       (w, (snd (announced st s) ++ [ReadDir (step_manifests st)])%list)).
Proof.
  unfold runStep, afterReadDir, step_action, applyManifests, try, wrapf.
  unfold Println at 1. unfold bind at 1. unfold Print_ at 1. cbv beta iota.
  rewrite !bind_assoc. unfold bind at 1. unfold call1 at 1. cbn [fst snd].
  destruct (os_ReadDir K (step_manifests st) (fst s)) as [r w].
  rewrite !bind_assoc. reflexivity.
Qed.

Lemma emits_afterReadDir st r : emits (install_call []) (afterReadDir K st r).
Proof.
  unfold afterReadDir.
  apply emits_try.
  - apply emits_wrapf. destruct r; [apply emits_ret | apply emits_applyEntries].
  - apply emits_bind; [apply emits_Println; exact I | intros _].
    destruct (step_readinessCheck st) as [rc |]; [| apply emits_ret].
    apply emits_bind; [apply emits_Println; exact I | intros _].
    apply emits_try; [| apply emits_ret].
    apply emits_wrapf, emits_waitForDeployment.
Qed.

(** A step first prints its banner and reads its directory; all its other
    calls are reads of manifests, applies, and the reads and sleeps of its
    readiness poll. *)
Lemma runStep_calls st s :
  exists l,
    calls (runStep K st s)
    = (snd s ++ Print (step_announce st ++ nl)
             :: ReadDir (step_manifests st) :: l)%list
    /\ Forall (install_call []) l.
Proof.
  rewrite runStep_afterReadDir.
  destruct (os_ReadDir K (step_manifests st) (fst s)) as [r w].
  match goal with
  | |- context [afterReadDir K st r ?st0] =>
      destruct (emits_afterReadDir st r st0) as (l & El & Fl)
  end.
  exists l. rewrite El. unfold announced. cbn [snd].
  split; [now rewrite <- !app_assoc | exact Fl].
Qed.

Lemma step_action_calls st s :
  exists l,
    calls (step_action K st s) = (snd s ++ ReadDir (step_manifests st) :: l)%list
    /\ Forall (install_call []) l.
Proof.
  unfold step_action, applyManifests. unfold bind at 1, call1 at 1.
  destruct (os_ReadDir K (step_manifests st) (fst s)) as [r w].
  match goal with
  | |- context [calls (?c ?st0)] =>
      assert (H : emits (install_call []) c)
        by (destruct r; [apply emits_ret | apply emits_applyEntries]);
      destruct (H st0) as (l & El & Fl)
  end.
  exists l. rewrite El. cbn [snd]. split; [now rewrite <- app_assoc | exact Fl].
Qed.

(** The calls of a run of enabled steps that succeeded. *)
Lemma runAll_calls pre : forall s s1,
  Forall (fun st => step_enabled st = true) pre ->
  runAll K pre s = (Val None, s1) ->
  exists l,
    snd s1 = (snd s ++ l)%list
    /\ (forall st, In st pre -> In (ReadDir (step_manifests st)) l)
    /\ Forall (install_call (map step_manifests pre)) l.
Proof.
  induction pre as [| st pre IH]; intros s s1 Hen; cbn [runAll].
  - unfold ret. intros [= ->]. exists []. rewrite app_nil_r.
    repeat split; [intros st [] | constructor].
  - inversion Hen as [| ? ? En Hen']; subst. rewrite En.
    unfold try, bind, when. intros Hrun.
    destruct (runStep_calls st s) as (l1 & El1 & Fl1). unfold calls in El1.
    destruct (runStep K st s) as [[[e |] | msg] s2]; try discriminate.
    cbn [snd] in El1.
    destruct (IH _ _ Hen' Hrun) as (l2 & El2 & Hin2 & Fl2).
    exists (Print (step_announce st ++ nl) :: ReadDir (step_manifests st)
              :: l1 ++ l2)%list.
    split; [rewrite El2, El1, <- app_assoc; reflexivity |]. split.
    + intros st' [<- | Hin]; [right; left; reflexivity |].
      right; right. apply in_or_app; right. now apply Hin2.
    + constructor; [exact I |]. constructor; [left; reflexivity |].
      apply Forall_app. split.
      * eapply Forall_impl; [| exact Fl1].
        intros c. apply install_call_incl. intros x [].
      * eapply Forall_impl; [| exact Fl2].
        intros c. apply install_call_incl. intros x Hx. now right.
Qed.

Lemma NoDup_app_disjoint {A} (l1 l2 : list A) x :
  NoDup (l1 ++ l2) -> In x l1 -> ~ In x l2.
Proof.
  induction l1 as [| a l1 IH]; cbn; [tauto |].
  intros Hnd [-> | Hin] Hx.
  - inversion Hnd as [| ? ? Hn _]; subst. apply Hn, in_or_app. now right.
  - inversion Hnd; subst. now apply (IH H2 Hin).
Qed.

Lemma NoDup_map_filter {A B} (f : A -> B) p (l : list A) :
  NoDup (map f l) -> NoDup (map f (filter p l)).
Proof.
  induction l as [| a l IH]; cbn; [auto |].
  intros Hnd. inversion Hnd as [| ? ? Hn Hnd']; subst.
  destruct (p a); [| auto]. cbn. constructor; [| auto].
  intros Hin. apply Hn. apply in_map_iff in Hin as (x & <- & Hx).
  apply in_map. now apply filter_In in Hx.
Qed.

Lemma direct_steps_NoDup cfg : NoDup (map step_manifests (direct_steps cfg)).
Proof.
  cbn [direct_steps map step_manifests].
  repeat constructor; cbn [In]; intuition discriminate.
Qed.


(** ** The configuration file *)

Lemma dec_items_strings l : dec_items (map YStr l) = inr l.
Proof. induction l as [| x l IH]; cbn; [reflexivity | now rewrite IH]. Qed.

Lemma dec_int_in_range z : is_int z -> dec_int (YInt z) = inr z.
Proof.
  unfold is_int, dec_int. intros [Hlo Hhi].
  apply Z.leb_le in Hlo, Hhi. now rewrite Hlo, Hhi.
Qed.

(** Reading back the YAML form of a configuration gives the configuration:
    the tags of every struct are pairwise distinct and every field has
    one. *)
Lemma Config_yaml_round_trip c :
  Forall is_int (Config_ints c) -> Config_of_yaml (Config_to_yaml c) = inr c.
Proof.
  destruct c as [profile mode [] [[] [] [] [] []] [] [] [[] []]
                   [ns replicas [[] []] [] []] []].
  unfold Config_ints. cbn [Demo Demo_Replicas Demo_HPA Demo_PDB MinReplicas
                           MaxReplicas TargetCPUUtilization MinAvailable].
  intros Hint.
  repeat match goal with
         | H : Forall _ (_ :: _) |- _ => inversion H; subst; clear H
         end.
  cbn -[dec_int dec_items].
  repeat (rewrite ?dec_items_strings, ?dec_int_in_range by assumption;
          cbn -[dec_int dec_items]).
  reflexivity.
Qed.

(** C8.  Writing a configuration and loading it back.  If [WriteConfig]
    succeeded, the YAML library reads back the documents it writes, and the
    file system returns from the path what was just written to it, then
    [LoadConfig] returns the configuration that was written, every field
    with its value. *)
Theorem WriteConfig_LoadConfig_round_trip (path : string) (c : Config)
    (s s1 : W * list Call) :
  Forall is_int (Config_ints c) ->
  (forall n data, yaml_emit K n = inr data -> yaml_parse K data = inr n) ->
  (forall data w,
      os_WriteFile K path data (fst s) = (None, w) ->
      exists w', os_ReadFile K path w = (inr data, w')) ->
  WriteConfig K path c s = (Val None, s1) ->
  exists s2, LoadConfig K path s1 = (Val (inr c), s2).
Proof.
  intros Hint Hyaml Hfs. unfold WriteConfig, yaml_Marshal.
  destruct (yaml_emit K (Config_to_yaml c)) as [e | data] eqn:Hemit;
    [unfold ret; discriminate |].
  unfold try, wrapf, bind, call0, ret.
  destruct (os_WriteFile K path data (fst s)) as [[e |] w] eqn:Hwrite;
    [discriminate |].
  intros [= <-]. cbn [fst snd].
  destruct (Hfs data w Hwrite) as (w' & Hread).
  unfold LoadConfig, bind, call1. cbn [fst snd]. rewrite Hread.
  unfold yaml_Unmarshal. rewrite (Hyaml _ _ Hemit).
  rewrite (Config_yaml_round_trip c Hint). eexists; reflexivity.
Qed.

End Properties.

(** * Runs on the simulated cluster *)

Local Open Scope go_scope.

(** One observation of a poll, computed on the simulated cluster. *)
Ltac observe :=
  lazymatch goal with
  | |- ex (fun r => ex (fun w' => ?lhs = _ /\ _)) =>
      let v := eval vm_compute in lhs in
      lazymatch v with
      | (?r0, ?w0) =>
          exists r0, w0;
          split; [vm_compute; reflexivity
                 | first [ split; [first [exact I | vm_compute; reflexivity] | ]
                         | vm_compute; first [reflexivity | discriminate] ] ]
      end
  end.

Ltac observed :=
  lazymatch goal with
  | |- ex (fun a => ex (fun w' => ?lhs = _ /\ _)) =>
      let v := eval vm_compute in lhs in
      lazymatch v with
      | (inr ?a0, ?w0) =>
          exists a0, w0;
          split; [vm_compute; reflexivity
                 | vm_compute; first [reflexivity | discriminate] ]
      end
  end.

(** C1 on the default configuration and the demo cluster. *)
Lemma RunAll_summary_witness :
  Z.of_nat (List.length (Verify_Tests (Verify (DefaultConfig "local" "direct"))))
  <= max_int
  /\ exists r s',
       RunAll Sim.api (DefaultConfig "local" "direct") (Sim.demo_cluster, [])
       = (Val (r, None), s')
       /\ Total (Results_Summary r) = 4.
Proof.
  split; [vm_compute; discriminate |].
  destruct (RunAll_summary Sim.api (DefaultConfig "local" "direct")
              (Sim.demo_cluster, []))
    as (r & s' & E & Htotal & _); [vm_compute; discriminate |].
  exists r, s'. split; [exact E | exact Htotal].
Defined.

(** C2 on a cluster whose API server refuses connections for 10 s: two
    failed attempts, success on the third. *)
Lemma poll_tolerates_errors_witness :
  (exists s',
      waitForDeployment Sim.api "kyverno" "kyverno" (120 * Second)
                        (Sim.unreachable_cluster (10 * Second), [])
      = (Val None, s'))
  /\ (exists s',
      PollImmediate Sim.api (5 * Second) (60 * Second)
                    (replicasRestored Sim.api (DefaultConfig "local" "direct") 3)
                    (Sim.unreachable_cluster (10 * Second), [])
      = (Val None, s')).
Proof.
  split.
  - apply (proj1 (poll_tolerates_errors Sim.api 2
                    (Sim.unreachable_cluster (10 * Second), []))).
    + vm_compute; discriminate.
    + cbn [settles fst]. observe. observe. observed.
  - apply (proj2 (poll_tolerates_errors Sim.api 2
                    (Sim.unreachable_cluster (10 * Second), []))).
    + vm_compute; discriminate.
    + cbn [settles fst]. observe. observe. observed.
Defined.

(** C5 as stated fails: in gitops mode [Install] creates the namespace
    kubac-system on the cluster before it renders anything. *)
Lemma Install_gitops_creates_namespace :
  Mode (DefaultConfig "managed" "gitops") = "gitops"
  /\ ~ no_cluster_mutation
        (calls (Install Sim.api (DefaultConfig "managed" "gitops")
                        (Sim.empty_cluster, [])))
  /\ Sim.namespaces Sim.empty_cluster = ["default"; "kube-system"]
  /\ Sim.namespaces
       (fst (snd (Install Sim.api (DefaultConfig "managed" "gitops")
                          (Sim.empty_cluster, []))))
     = ["default"; "kube-system"; "kubac-system"].
Proof.
  split; [reflexivity |]. split; [| split; vm_compute; reflexivity].
  unfold no_cluster_mutation. rewrite Forall_forall. intros H.
  specialize (H (NamespaceCreate "kubac-system")). cbn in H.
  assert (Hfalse : true = false); [| discriminate Hfalse].
  apply H. vm_compute. right; left; reflexivity.
Qed.

(** C5, as the code has it, on the empty cluster. *)
Lemma Install_gitops_calls_witness :
  Mode (DefaultConfig "managed" "gitops") = "gitops"
  /\ exists l,
       calls (Install Sim.api (DefaultConfig "managed" "gitops")
                      (Sim.empty_cluster, []))
       = ([] ++ Print ((nl ++ "→ Creating kubac-system namespace...") ++ nl)
               :: NamespaceCreate "kubac-system" :: l)%list
       /\ Forall render_call l
       /\ Forall (fun c => is_cluster_call c = false) l.
Proof.
  split; [reflexivity |].
  apply (Install_gitops_calls Sim.api (DefaultConfig "managed" "gitops")
           (Sim.empty_cluster, [])).
  reflexivity.
Defined.

(** C6 on three clusters: nothing deployed; a pod replaced after 20 s; a
    pod never replaced. *)
Lemma testPodSelfHeal_verdicts_witness :
  (exists s',
      testPodSelfHeal Sim.api (DefaultConfig "local" "direct")
                      (Sim.empty_cluster, [])
      = (Val (result "pod-selfheal" "SKIP"
                ("Demo app not deployed: "
                 ++ Error (Sim.not_found "deployments.apps" "demo"))), s'))
  /\ (exists s',
      testPodSelfHeal Sim.api (DefaultConfig "local" "direct")
                      (Sim.demo_cluster, [])
      = (Val (result "pod-selfheal" "PASS"
                "Pod demo-7d4b9c-x2x5k was replaced successfully"), s'))
  /\ (exists s',
      testPodSelfHeal Sim.api (DefaultConfig "local" "direct")
                      (Sim.broken_cluster, [])
      = (Val (result "pod-selfheal" "FAIL"
                "Pod was not replaced within timeout"), s')).
Proof.
  split; [| split].
  - apply (proj1 (testPodSelfHeal_verdicts Sim.api
                    (DefaultConfig "local" "direct") (Sim.empty_cluster, []))
             (Sim.not_found "deployments.apps" "demo") Sim.empty_cluster).
    reflexivity.
  - let r1 := eval vm_compute in
        (Sim.get_deployment "kubac-demo" "demo" Sim.demo_cluster) in
    lazymatch r1 with
    | (inr ?d, ?w1) =>
        let r2 := eval vm_compute in (Sim.list_pods "kubac-demo" "app=demo" w1) in
        lazymatch r2 with
        | (inr (?pod :: ?others), ?w2) =>
            let r3 := eval vm_compute in
              (Sim.delete_pod "kubac-demo" (Pod_Name pod) w2) in
            lazymatch r3 with
            | (None, ?w3) =>
                refine (proj1 (proj2 (testPodSelfHeal_verdicts Sim.api
                                 (DefaultConfig "local" "direct")
                                 (Sim.demo_cluster, []))
                           d w1 pod others w2 w3 _ _ _) 4%nat _ _)
            end
        end
    end.
    + vm_compute; reflexivity.
    + vm_compute; reflexivity.
    + vm_compute; reflexivity.
    + vm_compute; discriminate.
    + cbn [settles]. do 4 observe. observed.
  - let r1 := eval vm_compute in
        (Sim.get_deployment "kubac-demo" "demo" Sim.broken_cluster) in
    lazymatch r1 with
    | (inr ?d, ?w1) =>
        let r2 := eval vm_compute in (Sim.list_pods "kubac-demo" "app=demo" w1) in
        lazymatch r2 with
        | (inr (?pod :: ?others), ?w2) =>
            let r3 := eval vm_compute in
              (Sim.delete_pod "kubac-demo" (Pod_Name pod) w2) in
            lazymatch r3 with
            | (None, ?w3) =>
                refine (proj2 (proj2 (testPodSelfHeal_verdicts Sim.api
                                 (DefaultConfig "local" "direct")
                                 (Sim.broken_cluster, []))
                           d w1 pod others w2 w3 _ _ _) _)
            end
        end
    end.
    + vm_compute; reflexivity.
    + vm_compute; reflexivity.
    + vm_compute; reflexivity.
    + rewrite selfheal_retries. cbn [stalls]. do 12 observe.
      lazymatch goal with
      | |- ex (fun r => ex (fun w' => ?lhs = _ /\ _)) =>
          let v := eval vm_compute in lhs in
          lazymatch v with
          | (?r0, ?w0) =>
              exists r0, w0;
              split; [vm_compute; reflexivity
                     | split; [vm_compute; reflexivity | exact I]]
          end
      end.
Defined.

(** C7 against the code: the API server refuses the connection when the
    probe tries to create the privileged pod, and the probe reports that
    the policy denied the pod. *)
Theorem testPolicyDeny_passes_on_connection_error :
  Sim.create_pod "kubac-demo"
    {| Pod_Name := "test-privileged-pod"; Pod_Namespace := "kubac-demo";
       Pod_Containers := [ {| Container_Name := "test";
                              Container_Image := "nginx:latest";
                              Container_Privileged := Some true |} ] |}
    (Sim.unreachable_cluster (10 * Second))
  = (Some (PlainError "connection refused"),
     Sim.unreachable_cluster (10 * Second))
  /\ fst (testPolicyDeny Sim.api (DefaultConfig "local" "direct")
            (Sim.unreachable_cluster (10 * Second), []))
     = Val (result "policy-deny" "PASS"
                   "Privileged pod was correctly denied by policy").
Proof. split; vm_compute; reflexivity. Qed.

(** C8 on the default configuration and an empty file system. *)
Lemma WriteConfig_LoadConfig_round_trip_witness :
  Forall is_int (Config_ints (DefaultConfig "local" "direct"))
  /\ fst (WriteConfig Sim.api "kubac.yaml" (DefaultConfig "local" "direct")
            (Sim.empty_cluster, []))
     = Val None
  /\ exists s2,
       LoadConfig Sim.api "kubac.yaml"
         (snd (WriteConfig Sim.api "kubac.yaml" (DefaultConfig "local" "direct")
                 (Sim.empty_cluster, [])))
       = (Val (inr (DefaultConfig "local" "direct")), s2).
Proof.
  assert (Hint : Forall is_int (Config_ints (DefaultConfig "local" "direct")))
    by (repeat constructor; vm_compute; discriminate).
  split; [exact Hint |]. split; [vm_compute; reflexivity |].
  apply (WriteConfig_LoadConfig_round_trip Sim.api "kubac.yaml"
           (DefaultConfig "local" "direct") (Sim.empty_cluster, [])).
  - exact Hint.
  - intros n data [= <-]. reflexivity.
  - intros data w [= <-]. eexists. reflexivity.
  - vm_compute; reflexivity.
Defined.

(** C9 against the code: the namespace kubac-system exists, the API server
    answers the creation with its AlreadyExists error, and
    [createNamespace], hence [Install], returns that error. *)
Theorem createNamespace_propagates_AlreadyExists :
  Sim.create_namespace "kubac-system" Sim.demo_cluster
  = (Some (StatusError ReasonAlreadyExists
             ("namespaces " ++ dquote ++ "kubac-system" ++ dquote
              ++ " already exists")),
     Sim.demo_cluster)
  /\ fst (createNamespace Sim.api "kubac-system" (Sim.demo_cluster, []))
     = Val (Some (StatusError ReasonAlreadyExists
                    ("namespaces " ++ dquote ++ "kubac-system" ++ dquote
                     ++ " already exists")))
  /\ fst (Install Sim.api (DefaultConfig "local" "direct")
            (Sim.demo_cluster, []))
     = Val (Some (StatusError ReasonAlreadyExists
                    ("namespaces " ++ dquote ++ "kubac-system" ++ dquote
                     ++ " already exists"))).
Proof. repeat split; vm_compute; reflexivity. Qed.

(** * Further properties *)

Section Further.

Context {W Bytes Obj : Type}.
Variable K : API W Bytes Obj.

Local Open Scope go_scope.

(** ** applyManifests *)

Lemma is_manifest_skip entry :
  is_manifest K entry = false ->
  forall path rest,
    applyEntries K path (entry :: rest) = applyEntries K path rest.
Proof.
  unfold is_manifest. intros Hm path rest. cbn [applyEntries].
  destruct (Entry_IsDir entry); [reflexivity |]. cbn in Hm.
  apply orb_false_iff in Hm as [-> ->]. reflexivity.
Qed.

Lemma is_manifest_apply entry :
  is_manifest K entry = true ->
  Entry_IsDir entry = false
  /\ negb (filepath_Ext K (Entry_Name entry) =? ".yaml")%string
     && negb (filepath_Ext K (Entry_Name entry) =? ".yml")%string = false.
Proof.
  unfold is_manifest. intros Hm. apply andb_true_iff in Hm as [Hd Hext].
  apply negb_true_iff in Hd. split; [exact Hd |].
  apply orb_true_iff in Hext as [-> | ->]; [reflexivity |].
  now rewrite andb_false_r.
Qed.

(** The calls and the outcome of the loop of [applyManifests]. *)
Lemma applyEntries_trace path entries : forall s out s',
  applyEntries K path entries s = (out, s') ->
  exists l,
    snd s' = (snd s ++ l)%list
    /\ Forall manifest_call l
    /\ (applied l <= List.length (files_read l))%nat
    /\ match out with
       | Val None =>
           files_read l = manifest_paths K path entries
           /\ applied l = List.length (files_read l)
       | Val (Some e) =>
           exists before p after inner,
             manifest_paths K path entries = (before ++ p :: after)%list
             /\ files_read l = (before ++ [p])%list
             /\ (e = WrapError ("failed to read manifest " ++ p ++ ": ") inner
                 \/ e = WrapError ("failed to apply manifest " ++ p ++ ": ")
                                  inner)
       | Panic _ => False
       end.
Proof.
  induction entries as [| entry rest IH]; intros s out s' Hrun.
  - unfold applyEntries, ret in Hrun. injection Hrun as <- <-.
    exists []. rewrite app_nil_r. repeat split; auto.
  - destruct (is_manifest K entry) eqn:Hm.
    + destruct (is_manifest_apply entry Hm) as [Hd Hext].
      unfold manifest_paths. cbn [filter]. rewrite Hm. cbn [map].
      fold (manifest_paths K path rest).
      cbn [applyEntries] in Hrun. rewrite Hd, Hext in Hrun. cbv zeta in Hrun.
      set (p := filepath_Join K path (Entry_Name entry)) in *.
      unfold bind at 1 in Hrun. unfold call1 at 1 in Hrun.
      destruct (os_ReadFile K p (fst s)) as [[e | data] w].
      * unfold ret in Hrun. injection Hrun as <- <-.
        exists [ReadFile p]. cbn [snd]. split; [reflexivity |].
        split; [repeat constructor |]. split; [cbn; lia |].
        exists [], p, (manifest_paths K path rest), e. auto.
      * unfold try, wrapf, applyManifest in Hrun.
        destruct (UnmarshalJSON K data) as [e | obj].
        -- unfold bind, ret in Hrun. injection Hrun as <- <-.
           exists [ReadFile p]. cbn [snd]. split; [reflexivity |].
           split; [repeat constructor |]. split; [cbn; lia |].
           exists [], p, (manifest_paths K path rest), e. auto.
        -- unfold bind at 1 in Hrun. unfold bind at 1 in Hrun.
           unfold call0 at 1 in Hrun. cbn [fst snd] in Hrun.
           match type of Hrun with
           | context [Dynamic_Apply K ?g ?n ?m obj w] =>
               set (gvr := g) in *; set (ns := n) in *; set (name := m) in *;
               destruct (Dynamic_Apply K gvr ns name obj w) as [[e |] w']
           end.
           ++ unfold ret in Hrun. injection Hrun as <- <-.
              exists [ReadFile p; DynamicApply gvr ns name]. cbn [snd].
              rewrite <- app_assoc. split; [reflexivity |].
              split; [repeat constructor |]. split; [cbn; lia |].
              exists [], p, (manifest_paths K path rest), e. auto.
           ++ unfold ret at 1 in Hrun. cbv beta iota in Hrun.
              destruct (IH _ _ _ Hrun) as (l & El & Fl & Hle & Hout).
              exists (ReadFile p :: DynamicApply gvr ns name :: l).
              rewrite El. cbn [snd]. rewrite <- !app_assoc.
              split; [reflexivity |]. split; [repeat constructor; auto |].
              unfold applied in *. cbn [files_read filter is_apply List.length].
              split; [lia |].
              destruct out as [[e |] | msg].
              ** destruct Hout as (before & q & after & inner & Hp & Hr & He).
                 exists (p :: before), q, after, inner. rewrite Hp, Hr. auto.
              ** destruct Hout as [Hr Ha]. split; congruence.
              ** exact Hout.
    + rewrite (is_manifest_skip entry Hm) in Hrun.
      unfold manifest_paths. cbn [filter]. rewrite Hm.
      fold (manifest_paths K path rest). now apply IH.
Qed.

Lemma applyEntries_nothing path entries :
  filter (is_manifest K) entries = [] ->
  forall s, applyEntries K path entries s = (Val None, s).
Proof.
  induction entries as [| entry rest IH]; intros Hf s; [reflexivity |].
  cbn [filter] in Hf. destruct (is_manifest K entry) eqn:Hm; [discriminate |].
  rewrite (is_manifest_skip entry Hm). now apply IH.
Qed.

(** X1.  A successful [applyManifests] read the directory, then read
    exactly the entries that are files with extension .yaml or .yml, in the
    order of the directory, and applied each of them once; it made no other
    call. *)
Theorem applyManifests_success (path : string) (s s' : W * list Call) :
  applyManifests K path s = (Val None, s') ->
  exists entries w l,
    os_ReadDir K path (fst s) = (inr entries, w)
    /\ snd s' = (snd s ++ ReadDir path :: l)%list
    /\ Forall manifest_call l
    /\ files_read l = manifest_paths K path entries
    /\ applied l = List.length (manifest_paths K path entries).
Proof.
  unfold applyManifests. unfold bind at 1. unfold call1 at 1.
  destruct (os_ReadDir K path (fst s)) as [[e | entries] w];
    [unfold ret; discriminate |].
  intros Hrun. destruct (applyEntries_trace _ _ _ _ _ Hrun)
    as (l & El & Fl & _ & Hfiles & Happ).
  exists entries, w, l. cbn [snd] in El. rewrite El, <- app_assoc.
  repeat split; auto. congruence.
Qed.

(** X2.  When the directory holds no file with extension .yaml or .yml
    (it is empty, or holds only other files and subdirectories),
    [applyManifests] returns [nil] after the read of the directory: no
    file is read and nothing is applied. *)
Theorem applyManifests_nothing_to_apply (path : string)
    (entries : list DirEntry) (w : W) (s : W * list Call) :
  os_ReadDir K path (fst s) = (inr entries, w) ->
  filter (is_manifest K) entries = [] ->
  applyManifests K path s = (Val None, (w, (snd s ++ [ReadDir path])%list)).
Proof.
  intros Hdir Hf. unfold applyManifests, bind, call1. rewrite Hdir.
  now apply applyEntries_nothing.
Qed.

(** X3.  A failed [applyManifests] either could not read the directory,
    and then made no other call, or stopped at the first manifest that
    could not be read or applied: its error names that manifest, the files
    read are the manifests of the directory up to that one, in order, and
    no later manifest was touched. *)
Theorem applyManifests_failure (path : string) (s s' : W * list Call)
    (e : error) :
  applyManifests K path s = (Val (Some e), s') ->
  (exists inner w,
      os_ReadDir K path (fst s) = (inl inner, w)
      /\ e = WrapError "failed to read manifests directory: " inner
      /\ s' = (w, (snd s ++ [ReadDir path])%list))
  \/ (exists entries w l before p after inner,
      os_ReadDir K path (fst s) = (inr entries, w)
      /\ snd s' = (snd s ++ ReadDir path :: l)%list
      /\ manifest_paths K path entries = (before ++ p :: after)%list
      /\ files_read l = (before ++ [p])%list
      /\ (applied l <= List.length (before ++ [p]))%nat
      /\ (e = WrapError ("failed to read manifest " ++ p ++ ": ") inner
          \/ e = WrapError ("failed to apply manifest " ++ p ++ ": ") inner)).
Proof.
  unfold applyManifests. unfold bind at 1. unfold call1 at 1.
  destruct (os_ReadDir K path (fst s)) as [[inner | entries] w].
  - unfold ret. intros [= <- <-]. left. exists inner, w. auto.
  - intros Hrun. right.
    destruct (applyEntries_trace _ _ _ _ _ Hrun)
      as (l & El & Fl & Hle & before & p & after & inner & Hp & Hr & He).
    exists entries, w, l, before, p, after, inner.
    cbn [snd] in El. rewrite El, <- app_assoc, <- Hr. auto 10.
Qed.

(** ** The sequencer, continued *)

Lemma emits_impl {A} (E F : Call -> Prop) (c : M W A) :
  (forall x, E x -> F x) -> emits E c -> emits F c.
Proof.
  intros HEF Hc s. destruct (Hc s) as (l & El & Fl). exists l.
  split; [exact El | eapply Forall_impl; eauto].
Qed.

Lemma emits_runStep st :
  emits (install_call [step_manifests st]) (runStep K st).
Proof.
  intros s. destruct (runStep_calls K st s) as (l & El & Fl).
  eexists. split; [exact El |].
  constructor; [exact I |]. constructor; [now left |].
  eapply Forall_impl; [| exact Fl].
  intros c. apply install_call_incl. intros x [].
Qed.

Lemma emits_runAll steps :
  emits (install_call (map step_manifests (filter step_enabled steps)))
        (runAll K steps).
Proof.
  induction steps as [| st rest IH]; cbn [runAll filter].
  - apply emits_ret.
  - destruct (step_enabled st); cbn [map].
    + apply emits_try.
      * eapply emits_impl; [| apply emits_runStep].
        intros c. apply install_call_incl. intros x [<- | []]. now left.
      * eapply emits_impl; [| exact IH].
        intros c. apply install_call_incl. intros x Hx. now right.
    + apply emits_try; [apply emits_ret | exact IH].
Qed.

Lemma NoDup_map_eq {A B} (f : A -> B) (l : list A) x y :
  NoDup (map f l) -> In x l -> In y l -> f x = f y -> x = y.
Proof.
  induction l as [| a l IH]; cbn; [tauto |].
  intros Hnd Hx Hy Hf. inversion Hnd as [| ? ? Hn Hnd']; subst.
  destruct Hx as [<- | Hx], Hy as [<- | Hy]; auto.
  - exfalso. apply Hn. rewrite Hf. now apply in_map.
  - exfalso. apply Hn. rewrite <- Hf. now apply in_map.
Qed.

(** X4.  A disabled component is skipped entirely: whatever happens,
    [installDirect] never reads the bundle directory of a step whose
    switch is off; and with the four switches off it returns [nil] without
    a single call or message. *)
Theorem installDirect_skips_disabled (cfg : Config) (s : W * list Call) :
  (exists l,
      calls (installDirect K cfg s) = (snd s ++ l)%list
      /\ forall st,
           In st (direct_steps cfg) -> step_enabled st = false ->
           ~ In (ReadDir (step_manifests st)) l)
  /\ (Component_Enabled (MetricsServer (Platform cfg)) = false ->
      Component_Enabled (KubeStateMetrics (Platform cfg)) = false ->
      Policy_Enabled (Policy cfg) = false ->
      NetworkPolicy_Enabled (NetworkPolicy_ cfg) = false ->
      installDirect K cfg s = (Val None, s)).
Proof.
  split.
  - rewrite installDirect_runAll.
    destruct (emits_runAll (direct_steps cfg) s) as (l & El & Fl).
    exists l. split; [exact El |]. intros st Hst Hoff Hin.
    rewrite Forall_forall in Fl. specialize (Fl _ Hin).
    change (In (step_manifests st)
               (map step_manifests (filter step_enabled (direct_steps cfg))))
      in Fl.
    apply in_map_iff in Fl as (st' & Hpath & Hst').
    apply filter_In in Hst' as [Hst' Hon].
    assert (st' = st)
      by (eapply NoDup_map_eq; eauto using direct_steps_NoDup).
    congruence.
  - intros H1 H2 H3 H4. unfold installDirect. rewrite H1, H2, H3, H4.
    reflexivity.
Qed.

(** X5.  A readiness check that fails stops the install like a failed
    action.  Let the enabled steps be [pre], then [B] with a readiness
    check, then [post].  If the steps of [pre] succeed, the action of [B]
    succeeds and the wait for its deployment fails with [e], then
    [installDirect] returns [e] wrapped with the failure message of the
    check, and the action of no step of [post] is invoked. *)
Theorem installDirect_stops_when_not_ready (cfg : Config)
    (pre : list InstallStep) (B : InstallStep) (rc : ReadinessCheck)
    (post : list InstallStep) (s s1 s2 s3 : W * list Call) (e : error) :
  filter step_enabled (direct_steps cfg) = (pre ++ B :: post)%list ->
  step_readinessCheck B = Some rc ->
  runAll K pre s = (Val None, s1) ->
  step_action K B (announced B s1) = (Val None, s2) ->
  waitForDeployment K (ready_namespace rc) (ready_deployment rc)
                    (ready_timeout rc) (gated B rc s2)
  = (Val (Some e), s3) ->
  installDirect K cfg s = (Val (Some (WrapError (ready_failure rc) e)), s3)
  /\ exists l,
       snd s3 = (snd s ++ l)%list
       /\ forall C, In C post -> ~ In (ReadDir (step_manifests C)) l.
Proof.
  intros Hsteps Hrc Hpre Hact Hwait.
  assert (Hen : Forall (fun st => step_enabled st = true) (pre ++ B :: post)).
  { rewrite <- Hsteps. apply Forall_forall. intros st Hst.
    now apply filter_In in Hst. }
  apply Forall_app in Hen as [Hen_pre Hen_B].
  inversion Hen_B as [| ? ? EnB _]; subst.
  split.
  - rewrite installDirect_runAll, runAll_filter, Hsteps.
    rewrite (runAll_app K _ _ _ _ Hpre). cbn [runAll]. rewrite EnB.
    unfold when, runStep. rewrite Hrc. unfold try at 1. unfold bind at 1.
    unfold Println at 1. unfold bind at 1. unfold Print_ at 1.
    cbv beta iota. unfold try at 1. unfold bind at 1. unfold wrapf at 1.
    unfold bind at 1. fold (announced B s1). rewrite Hact.
    cbv beta iota. unfold ret at 1. cbv beta iota.
    unfold Println at 1. unfold bind at 1. unfold Print_ at 1. cbv beta iota.
    unfold Println at 1. unfold bind at 1. unfold Print_ at 1. cbv beta iota.
    unfold try at 1. unfold bind at 1. unfold wrapf at 1. unfold bind at 1.
    cbn [fst snd]. rewrite <- app_assoc. cbn [app]. fold (gated B rc s2).
    rewrite Hwait. reflexivity.
  - destruct (runAll_calls K pre s s1 Hen_pre Hpre) as (l1 & El1 & _ & Fl1).
    destruct (step_action_calls K B (announced B s1)) as (l2 & El2 & Fl2).
    rewrite Hact in El2. unfold calls, announced in El2. cbn [snd] in El2.
    destruct (emits_waitForDeployment K (ready_namespace rc)
                (ready_deployment rc) (ready_timeout rc) (gated B rc s2))
      as (l3 & El3 & Fl3).
    rewrite Hwait in El3. unfold calls, gated in El3. cbn [snd] in El3.
    set (paths := map step_manifests (pre ++ [B])).
    set (l := (l1 ++ Print (step_announce B ++ nl)
                  :: ReadDir (step_manifests B)
                  :: l2 ++ Print (step_done B ++ nl)
                  :: Print (ready_announce rc ++ nl) :: l3)%list).
    assert (Fl : Forall (install_call paths) l).
    { apply Forall_app. split.
      - eapply Forall_impl; [| exact Fl1]. intros c.
        apply install_call_incl. unfold paths. rewrite map_app.
        apply incl_appl, incl_refl.
      - constructor; [exact I |]. constructor.
        + unfold paths. rewrite map_app. apply in_or_app. right. now left.
        + apply Forall_app. split.
          * eapply Forall_impl; [| exact Fl2]. intros c.
            apply install_call_incl. intros x [].
          * constructor; [exact I |]. constructor; [exact I |].
            eapply Forall_impl; [| exact Fl3]. intros c.
            apply install_call_incl. intros x []. }
    exists l. split.
    + rewrite El3, El2, El1. unfold l. rewrite <- !app_assoc. cbn [app].
      reflexivity.
    + intros C HC Hin.
      assert (Hp : In (step_manifests C) paths).
      { rewrite Forall_forall in Fl. exact (Fl _ Hin). }
      pose proof (NoDup_map_filter step_manifests step_enabled _
                    (direct_steps_NoDup cfg)) as Hnd.
      rewrite Hsteps in Hnd.
      replace (pre ++ B :: post)%list with ((pre ++ [B]) ++ post)%list in Hnd
        by now rewrite <- app_assoc.
      rewrite map_app in Hnd.
      apply (NoDup_app_disjoint _ _ _ Hnd Hp). now apply in_map.
Qed.

(** ** The poller, continued *)

Section PollTrace.

Variable condition : M W (bool * option error).
Variable interval : Z.
Variable ev : Call.

Hypothesis one_call : forall s,
  exists r w, condition s = (r, (w, (snd s ++ [ev])%list)).


Context {A : Type}.
Variable get : W -> (error + A) * W.
Variable not_yet : error + A -> Prop.
Variable done : A -> Prop.

Hypothesis condition_not_yet : forall s r w,
  get (fst s) = (r, w) -> not_yet r ->
  condition s = (Val (false, None), (w, (snd s ++ [ev])%list)).

Hypothesis condition_done : forall s a w,
  get (fst s) = (inr a, w) -> done a ->
  condition s = (Val (true, None), (w, (snd s ++ [ev])%list)).

Lemma poll_settles_trace k : forall n s,
  (k <= n)%nat ->
  settles K k get not_yet done interval (fst s) ->
  exists w,
    poll K n interval condition s
    = (Val None, (w, (snd s ++ poll_trace k ev interval)%list)).
Proof.
  induction k as [| k IH]; intros n s Hle Hs; cbn in Hs.
  - destruct Hs as (a & w & Hget & Ha).
    exists w. destruct n; cbn [poll]; unfold bind;
      rewrite (condition_done s a w Hget Ha); reflexivity.
  - destruct Hs as (r & w & Hget & Hr & Hs).
    destruct n as [| n]; [lia |].
    cbn [poll]. unfold bind at 1. rewrite (condition_not_yet s r w Hget Hr).
    unfold bind at 1, sleep at 1. cbn [fst snd].
    match goal with
    | |- context [poll K n interval condition ?s1] =>
        destruct (IH n s1) as (w' & E); [lia | exact Hs |]
    end.
    exists w'. rewrite E. cbn [snd poll_trace]. now rewrite <- !app_assoc.
Qed.


End PollTrace.


Lemma deploymentReady_unready namespace name s r w :
  Deployments_Get K namespace name (fst s) = (r, w) -> unready r ->
  deploymentReady K namespace name s
  = (Val (false, None), (w, (snd s ++ [DeploymentGet namespace name])%list)).
Proof.
  intros Hget Hr. unfold deploymentReady, bind, call1. rewrite Hget.
  destruct r as [e | d]; [reflexivity |].
  destruct Hr as (n & Hn & Hne). rewrite Hn.
  apply Z.eqb_neq in Hne. unfold ret. now rewrite Hne.
Qed.

Lemma deploymentReady_done namespace name s d w :
  Deployments_Get K namespace name (fst s) = (inr d, w) -> ready d ->
  deploymentReady K namespace name s
  = (Val (true, None), (w, (snd s ++ [DeploymentGet namespace name])%list)).
Proof.
  intros Hget Hd. unfold deploymentReady, bind, call1. rewrite Hget.
  cbv beta iota. rewrite Hd. unfold ret. now rewrite Z.eqb_refl.
Qed.


(** X7.  [waitForDeployment] returns as soon as the deployment is ready.
    If the deployment is unreadable or not ready on the first [k] reads
    and ready on the next, within the timeout, the wait returns [nil]
    after exactly [k] sleeps of 5 s; with [k] = 0 it returns at once,
    without sleeping. *)
Theorem waitForDeployment_returns_when_ready (k : nat)
    (namespace name : string) (timeout : Z) (s : W * list Call) :
  Z.of_nat k <= timeout / (5 * Second) ->
  settles K k (Deployments_Get K namespace name) unready ready (5 * Second)
          (fst s) ->
  exists w,
    waitForDeployment K namespace name timeout s
    = (Val None,
       (w, (snd s ++ poll_trace k (DeploymentGet namespace name)
                                (5 * Second))%list)).
Proof.
  intros Hk Hs. unfold waitForDeployment, PollImmediate.
  eapply poll_settles_trace with (k := k); [| | lia | exact Hs].
  - intros s0 r w Hget Hr. exact (deploymentReady_unready _ _ _ _ _ Hget Hr).
  - intros s0 d w Hget Hd. exact (deploymentReady_done _ _ _ _ _ Hget Hd).
Qed.


(** ** Uninstall, Install and the demo application *)

Lemma deleteNamespaces_calls namespaces : forall s,
  exists l,
    calls (deleteNamespaces K namespaces s) = (snd s ++ l)%list
    /\ filter is_cluster_call l = map NamespaceDelete namespaces.
Proof.
  induction namespaces as [| ns rest IH]; intros s; cbn [deleteNamespaces].
  - exists []. cbn. now rewrite app_nil_r.
  - unfold bind at 1. unfold deleteNamespace. unfold bind at 1.
    unfold Print_ at 1. cbv beta iota. unfold bind at 1. unfold call0 at 1.
    cbn [fst snd].
    destruct (Namespaces_Delete K ns (fst s)) as [[e |] w]; cbv beta iota.
    + destruct (negb (isNotFound (Some e))).
      * unfold Print_ at 1. cbv beta iota.
        match goal with
        | |- context [deleteNamespaces K rest ?s1] =>
            destruct (IH s1) as (l & El & Fl)
        end.
        eexists. rewrite El. cbn [snd]. rewrite <- !app_assoc. cbn [app].
        split; [reflexivity |]. cbn [filter is_cluster_call map].
        now rewrite Fl.
      * unfold ret at 1. cbv beta iota.
        match goal with
        | |- context [deleteNamespaces K rest ?s1] =>
            destruct (IH s1) as (l & El & Fl)
        end.
        eexists. rewrite El. cbn [snd]. rewrite <- !app_assoc. cbn [app].
        split; [reflexivity |]. cbn [filter is_cluster_call map].
        now rewrite Fl.
    + unfold ret at 1. cbv beta iota.
      match goal with
      | |- context [deleteNamespaces K rest ?s1] =>
          destruct (IH s1) as (l & El & Fl)
      end.
      eexists. rewrite El. cbn [snd]. rewrite <- !app_assoc. cbn [app].
      split; [reflexivity |]. cbn [filter is_cluster_call map].
      now rewrite Fl.
Qed.

(** X9.  [Uninstall] tries every namespace.  Whatever the deletions
    return, its calls on the cluster are exactly the deletions of
    kubac-system, of kyverno and, when the configuration names one, of the
    demo namespace, in this order: a failed deletion does not stop the
    ones after it. *)
Theorem Uninstall_deletes_every_namespace (cfg : Config) (s : W * list Call) :
  exists l,
    calls (Uninstall K cfg s) = (snd s ++ l)%list
    /\ filter is_cluster_call l
       = map NamespaceDelete
           (["kubac-system"; "kyverno"]
            ++ (if (Demo_Namespace (Demo cfg) =? "")%string then []
                else [Demo_Namespace (Demo cfg)]))%list.
Proof.
  unfold Uninstall, Println. unfold bind at 1. unfold Print_ at 1.
  cbv beta iota zeta. unfold bind at 1.
  match goal with
  | |- context [deleteNamespaces K ?nss ?s1] =>
      destruct (deleteNamespaces_calls nss s1) as (l & El & Fl);
      destruct (deleteNamespaces_returns K nss s1) as ([] & s2 & E & _)
  end.
  unfold calls in *. rewrite E in *. cbn [snd ret] in *.
  eexists. rewrite El. rewrite <- app_assoc. split; [reflexivity |].
  cbn [app filter is_cluster_call]. rewrite Fl.
  destruct (Demo_Namespace (Demo cfg) =? "")%string; reflexivity.
Qed.

(** X10.  [Install] starts with the namespace, in either mode.  When the
    creation of kubac-system returns an error whose text is not
    "already exists", [Install] returns that very error and does nothing
    else; when it returns no error, or an error with exactly that text,
    [Install] goes on with the install of its mode. *)
Theorem Install_namespace_first (cfg : Config) (s : W * list Call)
    (err : option error) (w : W) :
  Namespaces_Create K "kubac-system" (fst s) = (err, w) ->
  let s1 := (w, (snd s ++ [Print ((nl ++ "→ Creating kubac-system namespace...")
                                  ++ nl);
                           NamespaceCreate "kubac-system"])%list) in
  Install K cfg s
  = if negb (is_nil err) && negb (isAlreadyExists err)
    then (Val err, s1)
    else if (Mode cfg =? "gitops")%string then installGitOps K cfg s1
         else installDirect K cfg s1.
Proof.
  intros Hcreate s1. unfold Install, Println. unfold bind at 1.
  unfold Print_ at 1. cbv beta iota. unfold try, createNamespace.
  unfold bind at 1. unfold bind at 1. unfold call0 at 1. cbn [fst snd].
  rewrite Hcreate. cbv beta iota. rewrite <- app_assoc. cbn [app]. fold s1.
  destruct (negb (is_nil err) && negb (isAlreadyExists err)) eqn:Hb.
  - unfold ret. destruct err as [e |]; [reflexivity | discriminate].
  - unfold ret at 1. cbv beta iota.
    destruct (Mode cfg =? "gitops")%string; reflexivity.
Qed.

(** X11.  [DeployDemo] creates the demo namespace first and, if that fails
    with an error other than "already exists", returns the error without
    reading any manifest.  Otherwise all it does is read and apply the
    manifests of bundles/demos/demo-app: it reads no other directory and
    deletes nothing. *)
Theorem DeployDemo_calls (cfg : Config) (s : W * list Call) :
  exists l,
    calls (DeployDemo K cfg s)
    = (snd s ++ Print (nl ++ "→ Creating namespace "
                          ++ Demo_Namespace (Demo cfg) ++ "..." ++ nl)
             :: NamespaceCreate (Demo_Namespace (Demo cfg)) :: l)%list
    /\ Forall (install_call ["bundles/demos/demo-app"]) l
    /\ forall e w,
         Namespaces_Create K (Demo_Namespace (Demo cfg)) (fst s) = (Some e, w) ->
         (Error e =? "already exists")%string = false ->
         l = [] /\ fst (DeployDemo K cfg s) = Val (Some e).
Proof.
  destruct (DeployDemo K cfg s) as [out s'] eqn:Hrun.
  unfold calls. cbn [fst snd].
  unfold DeployDemo in Hrun. unfold bind at 1 in Hrun.
  unfold Print_ at 1 in Hrun. cbv beta iota in Hrun.
  unfold try at 1 in Hrun. unfold bind at 1 in Hrun.
  match type of Hrun with
  | context [createNamespace K ?n ?s0] =>
      pose proof (createNamespace_calls K n s0) as Hcalls;
      assert (Hfail : forall e w,
                 Namespaces_Create K n (fst s0) = (Some e, w) ->
                 (Error e =? "already exists")%string = false ->
                 fst (createNamespace K n s0) = Val (Some e))
  end.
  { intros e w Hc He. unfold createNamespace, bind, call0. rewrite Hc.
    cbn [is_nil isAlreadyExists negb andb]. rewrite He. reflexivity. }
  destruct Hcalls as (r & w1 & E). rewrite E in *. cbn [fst snd] in *.
  destruct r as [e1 |].
  - unfold ret in Hrun. injection Hrun as <- <-.
    exists []. cbn [snd]. rewrite <- app_assoc.
    split; [reflexivity |]. split; [constructor |].
    intros e w Hc He. split; [reflexivity |]. exact (Hfail e w Hc He).
  - assert (Hrest : emits (install_call ["bundles/demos/demo-app"])
      (Println (W := W) (nl ++ "→ Deploying demo application...") ;;
       check wrapf "failed to deploy demo app: "
                   (applyManifests K "bundles/demos/demo-app") ;;
       Println "  ✓ Demo application deployed" ;;
       ret None)).
    { apply emits_bind; [apply emits_Println; exact I | intros _].
      apply emits_try.
      - apply emits_wrapf. unfold applyManifests.
        apply emits_bind; [apply emits_call1; now left |].
        intros [e | entries]; [apply emits_ret |].
        eapply emits_impl; [| apply emits_applyEntries].
        intros c. apply install_call_incl. intros x [].
      - apply emits_bind; [apply emits_Println; exact I | intros _].
        apply emits_ret. }
    match type of Hrun with
    | ?c ?s1 = _ => destruct (Hrest s1) as (l & El & Fl)
    end.
    unfold calls in El. rewrite Hrun in El. cbn [snd] in El.
    exists l. rewrite El. rewrite <- !app_assoc.
    split; [reflexivity |]. split; [exact Fl |].
    intros e w Hc He. specialize (Hfail e w Hc He). discriminate Hfail.
Qed.

(** X12.  [RunChaosTest] deletes one pod, the first of the list.  If the
    list of the demo pods fails or is empty it returns an error and
    deletes nothing; otherwise its calls on the cluster are the list and
    the deletion of the first pod listed, and an error of that deletion is
    returned wrapped. *)
Theorem RunChaosTest_cases (cfg : Config) (s : W * list Call) :
  let ns := Demo_Namespace (Demo cfg) in
  exists l,
    calls (RunChaosTest K cfg s) = (snd s ++ l)%list
    /\ match Pods_List K ns "app=demo" (fst s) with
       | (inl e, _) =>
           fst (RunChaosTest K cfg s)
           = Val (Some (WrapError "failed to list pods: " e))
           /\ filter is_cluster_call l = [PodList ns "app=demo"]
       | (inr [], _) =>
           fst (RunChaosTest K cfg s)
           = Val (Some (PlainError "no demo pods found"))
           /\ filter is_cluster_call l = [PodList ns "app=demo"]
       | (inr (pod :: _), w) =>
           fst (RunChaosTest K cfg s)
           = Val match fst (Pods_Delete K ns (Pod_Name pod) w) with
                 | Some e => Some (WrapError "failed to delete pod: " e)
                 | None => None
                 end
           /\ filter is_cluster_call l
              = [PodList ns "app=demo"; PodDelete ns (Pod_Name pod)]
       end.
Proof.
  intros ns. destruct (RunChaosTest K cfg s) as [out s'] eqn:Hrun.
  unfold calls. cbn [fst snd].
  unfold RunChaosTest in Hrun. fold ns in Hrun. cbv zeta in Hrun.
  unfold Println at 1 in Hrun. unfold bind at 1 in Hrun.
  unfold Print_ at 1 in Hrun. cbv beta iota in Hrun.
  unfold bind at 1 in Hrun. unfold call1 at 1 in Hrun. cbn [fst snd] in Hrun.
  destruct (Pods_List K ns "app=demo" (fst s)) as [[e | [| pod others]] w];
    cbv beta iota in Hrun.
  - unfold ret in Hrun. injection Hrun as <- <-. eexists. cbn [snd].
    rewrite <- app_assoc. repeat split.
  - unfold ret in Hrun. injection Hrun as <- <-. eexists. cbn [snd].
    rewrite <- app_assoc. repeat split.
  - unfold bind at 1 in Hrun. unfold Print_ at 1 in Hrun.
    cbv beta iota in Hrun. unfold bind at 1 in Hrun.
    unfold call0 at 1 in Hrun. cbn [fst snd] in Hrun.
    destruct (Pods_Delete K ns (Pod_Name pod) w) as [[e |] w'];
      cbv beta iota in Hrun; cbn [fst].
    + unfold ret in Hrun. injection Hrun as <- <-. eexists. cbn [snd].
      rewrite <- !app_assoc. repeat split.
    + unfold Println, Print_, bind, ret in Hrun. cbn [fst snd] in Hrun.
      injection Hrun as <- <-. eexists. rewrite <- !app_assoc. repeat split.
Qed.

(** X13.  [RunLoadTest] ignores its arguments: for every duration and
    number of requests it does the same, which is to read and apply the
    manifests of bundles/demos/load-test and nothing else. *)
Theorem RunLoadTest_calls (cfg : Config) (duration : string) (requests : Z)
    (s : W * list Call) :
  (forall duration' requests',
      RunLoadTest K cfg duration requests s
      = RunLoadTest K cfg duration' requests' s)
  /\ exists l,
       calls (RunLoadTest K cfg duration requests s) = (snd s ++ l)%list
       /\ Forall (install_call ["bundles/demos/load-test"]) l
       /\ In (ReadDir "bundles/demos/load-test") l.
Proof.
  split; [reflexivity |].
  unfold RunLoadTest. unfold Println at 1. unfold bind at 1.
  unfold Print_ at 1. cbv beta iota. unfold try at 1. unfold wrapf at 1.
  rewrite !bind_assoc. unfold applyManifests. rewrite !bind_assoc.
  unfold bind at 1. unfold call1 at 1. cbn [fst snd].
  destruct (os_ReadDir K "bundles/demos/load-test" (fst s)) as [r w].
  match goal with
  | |- context [calls (bind ?c ?k ?s1)] =>
      assert (Hrest : emits (install_call ["bundles/demos/load-test"])
                            (bind c k))
  end.
  { apply emits_bind.
    - destruct r; [apply emits_ret |].
      eapply emits_impl; [| apply emits_applyEntries].
      intros c. apply install_call_incl. intros x [].
    - intros a. apply emits_bind; [apply emits_ret | intros [e |]].
      + apply emits_ret.
      + repeat first [ apply emits_bind; [| intros _ ]
                     | apply emits_Println; exact I
                     | apply emits_ret ]. }
  match goal with
  | |- context [calls (?c ?s1)] => destruct (Hrest s1) as (l & El & Fl)
  end.
  eexists. rewrite El. cbn [snd]. rewrite <- !app_assoc. cbn [app].
  split; [reflexivity |]. split.
  - constructor; [exact I |]. constructor; [now left | exact Fl].
  - right. now left.
Qed.

(** ** The probes *)

Lemma dispatch_unknown cfg testName :
  ~ In testName known_tests ->
  dispatch K cfg testName = ret (result testName "SKIP" "Unknown test").
Proof.
  intros Hn. unfold dispatch, known_tests in *. cbn [In] in Hn.
  destruct (String.eqb_spec testName "pod-selfheal");
    [exfalso; apply Hn; subst; auto 10 |].
  destruct (String.eqb_spec testName "hpa-scale");
    [exfalso; apply Hn; subst; auto 10 |].
  destruct (String.eqb_spec testName "policy-deny");
    [exfalso; apply Hn; subst; auto 10 |].
  destruct (String.eqb_spec testName "network-deny");
    [exfalso; apply Hn; subst; auto 10 |].
  reflexivity.
Qed.

Lemma runTests_unknown cfg tests : forall acc s,
  (forall name, In name tests -> ~ In name known_tests) ->
  exists rs,
    runTests K cfg tests acc s = (Val (acc ++ rs)%list, s)
    /\ map Name rs = tests
    /\ Forall (fun t => Status t = "SKIP" /\ Message t = "Unknown test") rs.
Proof.
  induction tests as [| name rest IH]; intros acc s Hn; cbn [runTests].
  - exists []. rewrite app_nil_r. repeat split; constructor.
  - unfold bind at 1. unfold runTest. rewrite dispatch_unknown
      by (apply Hn; now left).
    unfold bind, now, ret. cbn [Name Status Message result].
    match goal with
    | |- context [runTests K cfg rest (acc ++ [?r])%list s] =>
        destruct (IH (acc ++ [r])%list s) as (rs & E & Hnames & Hrs);
          [intros n Hin; apply Hn; now right |];
        exists (r :: rs); rewrite E, <- app_assoc
    end.
    split; [reflexivity |]. split; [cbn; now rewrite Hnames |].
    constructor; [split; reflexivity | exact Hrs].
Qed.

Lemma summarize_skipped tests : forall sm,
  Forall (fun t => Status t = "SKIP" /\ Message t = "Unknown test") tests ->
  summarize tests sm = sm.
Proof.
  induction tests as [| t rest IH]; intros sm Hs; [reflexivity |].
  inversion Hs as [| ? ? [Hst _] Hrest]; subst. cbn [summarize].
  rewrite Hst. cbn. now apply IH.
Qed.

(** X14.  Unknown test names are skipped without touching anything.  When
    none of the configured names is one of the four known tests, [RunAll]
    makes no call and leaves the world as it is; the report has one result
    per name, each with status SKIP and message "Unknown test", no passed
    and no failed test, and [AllPassed] holds. *)
Theorem RunAll_unknown_tests (cfg : Config) (s : W * list Call) :
  (forall name, In name (Verify_Tests (Verify cfg)) -> ~ In name known_tests) ->
  exists r,
    RunAll K cfg s = (Val (r, None), s)
    /\ map Name (Tests r) = Verify_Tests (Verify cfg)
    /\ Forall (fun t => Status t = "SKIP" /\ Message t = "Unknown test")
              (Tests r)
    /\ Passed (Results_Summary r) = 0
    /\ Failed (Results_Summary r) = 0
    /\ AllPassed r = true.
Proof.
  intros Hn. unfold RunAll, bind, now.
  destruct (runTests_unknown cfg _ [] s Hn) as (rs & E & Hnames & Hrs).
  rewrite E. cbn [app]. cbv zeta. rewrite (summarize_skipped rs _ Hrs).
  eexists. split; [reflexivity |]. cbn [Tests Results_Summary Passed Failed].
  auto.
Qed.

(** X15.  The verdict of [testHPAScale].  The probe makes one call, the
    read of the autoscaler.  If the read fails the probe is skipped; else
    it passes exactly when the minimum of the autoscaler is set and equals
    the configured minimum and its maximum equals the configured maximum,
    both taken as 32-bit values, and fails otherwise. *)
Theorem testHPAScale_verdict (cfg : Config) (s : W * list Call) :
  let ns := Demo_Namespace (Demo cfg) in
  exists r w,
    testHPAScale K cfg s = (Val r, (w, (snd s ++ [HPAGet ns "demo"])%list))
    /\ Name r = "hpa-scale"
    /\ match fst (HPA_Get K ns "demo" (fst s)) with
       | inl e =>
           Status r = "SKIP" /\ Message r = "HPA not found: " ++ Error e
       | inr hpa =>
           (Status r = "PASS" \/ Status r = "FAIL")
           /\ (Status r = "PASS" <->
               Spec_MinReplicas hpa
               = Some (int32 (MinReplicas (Demo_HPA (Demo cfg))))
               /\ Spec_MaxReplicas hpa
                  = int32 (MaxReplicas (Demo_HPA (Demo cfg))))
       end.
Proof.
  intros ns. unfold testHPAScale. fold ns. cbv zeta.
  unfold bind, call1.
  destruct (HPA_Get K ns "demo" (fst s)) as [[e | hpa] w]; cbn [fst].
  - do 2 eexists. split; [reflexivity |]. auto.
  - destruct (Spec_MinReplicas hpa) as [minReplicas |].
    + destruct (Z.eqb_spec minReplicas
                  (int32 (MinReplicas (Demo_HPA (Demo cfg))))) as [-> | Hmin];
        cbn [negb].
      * destruct (Z.eqb_spec (Spec_MaxReplicas hpa)
                    (int32 (MaxReplicas (Demo_HPA (Demo cfg))))) as [Hmax | Hmax];
          cbn [negb]; do 2 eexists; (split; [reflexivity |]);
          cbn [Name Status result]; (split; [reflexivity |]).
        -- split; [now left |]. split; auto.
        -- split; [now right |]. split; [discriminate | tauto].
      * do 2 eexists. split; [reflexivity |]. cbn [Name Status result].
        split; [reflexivity |]. split; [now right |].
        split; [discriminate |]. intros [[= Heq] _]. congruence.
    + do 2 eexists. split; [reflexivity |]. cbn [Name Status result].
      split; [reflexivity |]. split; [now right |].
      split; [discriminate |]. intros [[=] _].
Qed.

Lemma default_deny_spec np :
  default_deny np = true <-> Spec_Ingress np = [] /\ Spec_Egress np = [].
Proof.
  unfold default_deny. rewrite andb_true_iff, !Nat.eqb_eq.
  now rewrite !length_zero_iff_nil.
Qed.

(** X16.  The verdict of [testNetworkDeny].  The probe makes one call, the
    list of the network policies of the demo namespace.  If the list
    fails the probe is skipped; with no policy it fails; it passes exactly
    when some policy has neither ingress nor egress rules, and warns when
    there are policies but none of that kind. *)
Theorem testNetworkDeny_verdict (cfg : Config) (s : W * list Call) :
  let ns := Demo_Namespace (Demo cfg) in
  exists r w,
    testNetworkDeny K cfg s
    = (Val r, (w, (snd s ++ [NetworkPolicyList ns])%list))
    /\ Name r = "network-deny"
    /\ match fst (NetworkPolicies_List K ns (fst s)) with
       | inl e =>
           Status r = "SKIP"
           /\ Message r = "Cannot list network policies: " ++ Error e
       | inr items =>
           (Status r = "FAIL" <-> items = [])
           /\ (Status r = "PASS" <->
               exists np,
                 In np items /\ Spec_Ingress np = [] /\ Spec_Egress np = [])
           /\ (Status r = "FAIL" \/ Status r = "PASS" \/ Status r = "WARN")
       end.
Proof.
  intros ns. unfold testNetworkDeny. fold ns. cbv zeta.
  unfold bind, call1.
  destruct (NetworkPolicies_List K ns (fst s)) as [[e | items] w]; cbn [fst].
  - do 2 eexists. split; [reflexivity |]. auto.
  - destruct items as [| np items].
    + do 2 eexists. split; [reflexivity |]. cbn [Name Status result].
      split; [reflexivity |]. split; [tauto |]. split; [| now left].
      split; [discriminate |]. intros (np & [] & _).
    + cbn [List.length Nat.eqb]. fold (default_deny).
      change (fun np0 : NetworkPolicyObject =>
                (List.length (Spec_Ingress np0) =? 0)%nat
                && (List.length (Spec_Egress np0) =? 0)%nat)
        with default_deny.
      destruct (existsb default_deny (np :: items)) eqn:Hex; cbn [negb];
        do 2 eexists; (split; [reflexivity |]); cbn [Name Status result];
        (split; [reflexivity |]).
      * split; [split; discriminate |]. split; [| right; now left].
        split; [intros _ | reflexivity].
        apply existsb_exists in Hex as (x & Hx & Hd).
        exists x. split; [exact Hx | now apply default_deny_spec].
      * split; [split; discriminate |]. split; [| right; now right].
        split; [discriminate |]. intros (x & Hx & Hd).
        assert (existsb default_deny (np :: items) = true)
          by (apply existsb_exists; exists x; split;
              [exact Hx | now apply default_deny_spec]).
        congruence.
Qed.

(** X17.  [testPolicyDeny] cleans up after a pod that was admitted.  When
    the creation of the privileged pod succeeds the probe fails and has
    issued the deletion of that pod, in the same namespace, whatever the
    deletion returns; when the creation returns an error the probe passes
    and issues no deletion. *)
Theorem testPolicyDeny_verdict (cfg : Config) (s : W * list Call) :
  let ns := Demo_Namespace (Demo cfg) in
  let pod := privileged_test_pod ns in
  testPolicyDeny K cfg s
  = match Pods_Create K ns pod (fst s) with
    | (None, w) =>
        (Val (result "policy-deny" "FAIL"
                     "Privileged pod was not denied by policy"),
         (snd (Pods_Delete K ns "test-privileged-pod" w),
          (snd s ++ [PodCreate ns pod;
                     PodDelete ns "test-privileged-pod"])%list))
    | (Some _, w) =>
        (Val (result "policy-deny" "PASS"
                     "Privileged pod was correctly denied by policy"),
         (w, (snd s ++ [PodCreate ns pod])%list))
    end.
Proof.
  intros ns pod. unfold testPolicyDeny. fold ns. cbv zeta.
  fold (privileged_test_pod ns). fold pod.
  unfold bind at 1. unfold call0 at 1.
  destruct (Pods_Create K ns pod (fst s)) as [[e |] w]; [reflexivity |].
  unfold bind, call0, ret. cbn [fst snd Pod_Name pod privileged_test_pod].
  destruct (Pods_Delete K ns "test-privileged-pod" w) as [r w'].
  cbn [snd]. now rewrite <- app_assoc.
Qed.

Ltac emits_go :=
  repeat lazymatch goal with
    | |- emits _ (bind _ _) => apply emits_bind; [| intros ? ]
    | |- emits _ (ret _) => apply emits_ret
    | |- emits _ (call0 _ _) => apply emits_call0
    | |- emits _ (call1 _ _) => apply emits_call1
    | |- emits _ (now _) => intros ?; exists []; cbn; rewrite app_nil_r; auto
    | |- emits _ (match ?x with _ => _ end) => destruct x
    | |- emits _ (if ?b then _ else _) => destruct b
    | |- emits _ _ => progress cbv zeta
    end.

Lemma read_only_probe_call ns c :
  is_cluster_mutation c = false -> probe_call ns c.
Proof. destruct c; cbn; auto; discriminate. Qed.

Lemma emits_testPodSelfHeal cfg :
  emits (probe_call (Demo_Namespace (Demo cfg))) (testPodSelfHeal K cfg).
Proof.
  unfold testPodSelfHeal. emits_go; try reflexivity.
  apply emits_poll; [| reflexivity].
  unfold replicasRestored. emits_go; reflexivity.
Qed.

Lemma emits_testPolicyDeny cfg :
  emits (probe_call (Demo_Namespace (Demo cfg))) (testPolicyDeny K cfg).
Proof. unfold testPolicyDeny. emits_go; reflexivity. Qed.

Lemma emits_testHPAScale cfg :
  emits (fun c => is_cluster_mutation c = false) (testHPAScale K cfg).
Proof. unfold testHPAScale. emits_go; reflexivity. Qed.

Lemma emits_testNetworkDeny cfg :
  emits (fun c => is_cluster_mutation c = false) (testNetworkDeny K cfg).
Proof. unfold testNetworkDeny. emits_go; reflexivity. Qed.

Lemma emits_dispatch cfg testName :
  emits (probe_call (Demo_Namespace (Demo cfg))) (dispatch K cfg testName).
Proof.
  unfold dispatch.
  destruct (_ =? _)%string; [apply emits_testPodSelfHeal |].
  destruct (_ =? _)%string;
    [eapply emits_impl; [apply read_only_probe_call | apply emits_testHPAScale] |].
  destruct (_ =? _)%string; [apply emits_testPolicyDeny |].
  destruct (_ =? _)%string;
    [eapply emits_impl;
       [apply read_only_probe_call | apply emits_testNetworkDeny] |].
  apply emits_ret.
Qed.

Lemma emits_dispatch_read_only cfg testName :
  testName <> "pod-selfheal" -> testName <> "policy-deny" ->
  emits (fun c => is_cluster_mutation c = false) (dispatch K cfg testName).
Proof.
  intros H1 H2. unfold dispatch.
  destruct (String.eqb_spec testName "pod-selfheal"); [contradiction |].
  destruct (_ =? _)%string; [apply emits_testHPAScale |].
  destruct (String.eqb_spec testName "policy-deny"); [contradiction |].
  destruct (_ =? _)%string; [apply emits_testNetworkDeny |].
  apply emits_ret.
Qed.

Lemma emits_runTests E cfg tests : forall acc,
  (forall name, In name tests -> emits E (dispatch K cfg name)) ->
  emits E (runTests K cfg tests acc).
Proof.
  induction tests as [| name rest IH]; intros acc Hd; cbn [runTests].
  - apply emits_ret.
  - apply emits_bind.
    + unfold runTest. emits_go. apply Hd. now left.
    + intros r. apply IH. intros n Hn. apply Hd. now right.
Qed.

Lemma emits_RunAll E cfg :
  (forall name, In name (Verify_Tests (Verify cfg)) ->
                emits E (dispatch K cfg name)) ->
  emits E (RunAll K cfg).
Proof.
  intros Hd. unfold RunAll. emits_go. now apply emits_runTests.
Qed.

(** X18.  What the verification may change.  Whatever the cluster answers,
    the only calls of [RunAll] that change the cluster are deletions and
    creations of pods of the demo namespace; and when neither pod-selfheal
    nor policy-deny is configured, [RunAll] changes nothing: it only
    reads. *)
Theorem RunAll_mutations (cfg : Config) (s : W * list Call) :
  exists l,
    calls (RunAll K cfg s) = (snd s ++ l)%list
    /\ Forall (probe_call (Demo_Namespace (Demo cfg))) l
    /\ (~ In "pod-selfheal" (Verify_Tests (Verify cfg)) ->
        ~ In "policy-deny" (Verify_Tests (Verify cfg)) ->
        no_cluster_mutation l).
Proof.
  destruct (emits_RunAll (probe_call (Demo_Namespace (Demo cfg))) cfg
              (fun name _ => emits_dispatch cfg name) s) as (l & El & Fl).
  exists l. split; [exact El |]. split; [exact Fl |].
  intros H1 H2.
  destruct (emits_RunAll (fun c => is_cluster_mutation c = false) cfg) with (s := s)
    as (l' & El' & Fl').
  { intros name Hin. apply emits_dispatch_read_only; congruence. }
  rewrite El in El'. apply app_inv_head in El'. now subst.
Qed.

(** X19.  [testPodSelfHeal] without a pod to delete.  Once the deployment
    was read, the probe fails with "No demo pods found" when the list of
    the pods fails or is empty, and then deletes nothing; and it fails
    with the error of the deletion when the pod cannot be deleted, and
    then does not poll. *)
Theorem testPodSelfHeal_no_target (cfg : Config) (s : W * list Call)
    (d : Deployment) (w1 : W) :
  let ns := Demo_Namespace (Demo cfg) in
  Deployments_Get K ns "demo" (fst s) = (inr d, w1) ->
  match Pods_List K ns "app=demo" w1 with
  | (inl _, w2) | (inr [], w2) =>
      testPodSelfHeal K cfg s
      = (Val (result "pod-selfheal" "FAIL" "No demo pods found"),
         (w2, (snd s ++ [DeploymentGet ns "demo"; PodList ns "app=demo"])%list))
  | (inr (pod :: _), w2) =>
      forall e w3,
        Pods_Delete K ns (Pod_Name pod) w2 = (Some e, w3) ->
        testPodSelfHeal K cfg s
        = (Val (result "pod-selfheal" "FAIL"
                       ("Failed to delete pod: " ++ Error e)),
           (w3, (snd s ++ [DeploymentGet ns "demo"; PodList ns "app=demo";
                           PodDelete ns (Pod_Name pod)])%list))
  end.
Proof.
  intros ns Hget.
  assert (Hstart : forall k : error + list Pod -> M W TestResult,
    bind (call1 (PodList ns "app=demo") (Pods_List K ns "app=demo")) k
         (w1, (snd s ++ [DeploymentGet ns "demo"])%list)
    = k (fst (Pods_List K ns "app=demo" w1))
        (snd (Pods_List K ns "app=demo" w1),
         (snd s ++ [DeploymentGet ns "demo"; PodList ns "app=demo"])%list)).
  { intros k. unfold bind, call1. cbn [fst snd].
    destruct (Pods_List K ns "app=demo" w1). cbn [fst snd].
    now rewrite <- app_assoc. }
  destruct (Pods_List K ns "app=demo" w1) as [[e | [| pod others]] w2];
    [| | intros e w3 Hdel];
    unfold testPodSelfHeal; fold ns; cbv zeta;
    unfold bind at 1; unfold call1 at 1; rewrite Hget; cbv beta iota;
    rewrite Hstart; cbn [fst snd]; try reflexivity.
  unfold bind at 1. unfold call0 at 1. cbn [fst snd]. rewrite Hdel.
  unfold ret. now rewrite <- !app_assoc.
Qed.


(** X24.  [CleanupDemo] deletes the demo namespace, and nothing else on
    the cluster.  It returns [nil] when the deletion succeeded or when the
    text of its error is exactly "not found"; any other error of the
    deletion is returned, wrapped. *)
Theorem CleanupDemo_cases (cfg : Config) (s : W * list Call) :
  let ns := Demo_Namespace (Demo cfg) in
  exists l,
    calls (CleanupDemo K cfg s) = (snd s ++ l)%list
    /\ filter is_cluster_call l = [NamespaceDelete ns]
    /\ fst (CleanupDemo K cfg s)
       = Val match fst (Namespaces_Delete K ns (fst s)) with
             | None => None
             | Some e =>
                 if (Error e =? "not found")%string then None
                 else Some (WrapError "failed to delete demo namespace: " e)
             end.
Proof.
  intros ns. destruct (CleanupDemo K cfg s) as [out s'] eqn:Hrun.
  unfold calls. cbn [fst snd].
  unfold CleanupDemo in Hrun. fold ns in Hrun. cbv zeta in Hrun.
  unfold bind at 1 in Hrun. unfold Print_ at 1 in Hrun.
  cbv beta iota in Hrun. unfold bind at 1 in Hrun.
  unfold call0 at 1 in Hrun. cbn [fst snd] in Hrun.
  destruct (Namespaces_Delete K ns (fst s)) as [[e |] w];
    cbv beta iota in Hrun; cbn [fst snd isNotFound negb] in *.
  - destruct (Error e =? "not found")%string; cbn [negb] in Hrun;
      unfold ret in Hrun; injection Hrun as <- <-; cbn [snd];
      (eexists; split; [rewrite <- app_assoc; reflexivity |]);
      split; reflexivity.
  - unfold ret in Hrun. injection Hrun as <- <-. cbn [snd].
    eexists. split; [rewrite <- app_assoc; reflexivity |].
    split; reflexivity.
Qed.


(** ** Every probe, every step *)

Lemma first_call1 {A B} ev (op : W -> (error + A) * W)
    (k : error + A -> M W B) s :
  (forall a, emits (fun _ => True) (k a)) ->
  exists l, calls (bind (call1 ev op) k s) = (snd s ++ ev :: l)%list.
Proof.
  intros Hk. unfold bind at 1, call1 at 1.
  destruct (op (fst s)) as [r w].
  destruct (Hk r (w, (snd s ++ [ev])%list)) as (l & El & _).
  exists l. rewrite El. cbn [snd]. now rewrite <- app_assoc.
Qed.

Lemma first_call0 {B} ev (op : W -> option error * W)
    (k : option error -> M W B) s :
  (forall a, emits (fun _ => True) (k a)) ->
  exists l, calls (bind (call0 ev op) k s) = (snd s ++ ev :: l)%list.
Proof.
  intros Hk. unfold bind at 1, call0 at 1.
  destruct (op (fst s)) as [r w].
  destruct (Hk r (w, (snd s ++ [ev])%list)) as (l & El & _).
  exists l. rewrite El. cbn [snd]. now rewrite <- app_assoc.
Qed.

(** The probe of a known test starts with its call on the cluster. *)
Lemma dispatch_first_call cfg testName c s :
  first_probe_call (Demo_Namespace (Demo cfg)) testName = Some c ->
  exists l, calls (dispatch K cfg testName s) = (snd s ++ c :: l)%list.
Proof.
  unfold first_probe_call, dispatch.
  destruct (testName =? "pod-selfheal")%string.
  { intros [= <-]. unfold testPodSelfHeal. cbv zeta. apply first_call1.
    intros a. emits_go; try exact I.
    unfold PollImmediate. apply emits_poll; [| exact I].
    unfold replicasRestored. emits_go; exact I. }
  destruct (testName =? "hpa-scale")%string.
  { intros [= <-]. unfold testHPAScale. cbv zeta. apply first_call1.
    intros a. emits_go; exact I. }
  destruct (testName =? "policy-deny")%string.
  { intros [= <-]. unfold testPolicyDeny. cbv zeta. apply first_call0.
    intros a. emits_go; exact I. }
  destruct (testName =? "network-deny")%string; [| discriminate].
  intros [= <-]. unfold testNetworkDeny. cbv zeta. apply first_call1.
  intros a. emits_go; exact I.
Qed.

(** The result of a turn of the loop is the verdict of the dispatch, with
    a duration and a timestamp; the clock is read without a call. *)
Lemma runTest_dispatch cfg testName s0 out s1 :
  runTest K cfg testName s0 = (Val out, s1) ->
  exists verdict,
    dispatch K cfg testName s0 = (Val verdict, s1)
    /\ Name out = Name verdict
    /\ Status out = Status verdict
    /\ Message out = Message verdict.
Proof.
  unfold runTest, bind, now.
  destruct (dispatch K cfg testName s0) as [[v | msg] sd]; [| discriminate].
  unfold ret. intros [= <- <-]. exists v. repeat split.
Qed.

(** C3.  [RunAll] never stops early, and runs the probe of every configured
    test.  It returns a report and no error; the names of the results are
    the configured names, in the configured order.  And for each configured
    test, whatever the tests before it did: the test is run in the state
    they left; its result stands at its position in the report, with the
    status and the message of the verdict of its probe; for each of the
    four known names the verdict and the state that follows are those of
    the probe of that name ([testPodSelfHeal], [testHPAScale],
    [testPolicyDeny], [testNetworkDeny]) run in that state, so that the
    log gains the call with which the probe starts; a name that is none of
    the four gets the verdict SKIP "Unknown test" and changes nothing; and
    the tests after it are run from the state that the probe left. *)
Theorem RunAll_runs_every_test (cfg : Config) (s : W * list Call) :
  exists r s',
    RunAll K cfg s = (Val (r, None), s')
    /\ map Name (Tests r) = Verify_Tests (Verify cfg)
    /\ List.length (Tests r) = List.length (Verify_Tests (Verify cfg))
    /\ forall pre testName post,
         Verify_Tests (Verify cfg) = (pre ++ testName :: post)%list ->
         exists before s0 out s1 verdict,
           runTests K cfg pre [] s = (Val before, s0)
           /\ runTest K cfg testName s0 = (Val out, s1)
           /\ Name out = testName
           /\ firstn (List.length pre) (Tests r) = before
           /\ nth_error (Tests r) (List.length pre) = Some out
           /\ Status out = Status verdict
           /\ Message out = Message verdict
           /\ (testName = "pod-selfheal" ->
               testPodSelfHeal K cfg s0 = (Val verdict, s1))
           /\ (testName = "hpa-scale" ->
               testHPAScale K cfg s0 = (Val verdict, s1))
           /\ (testName = "policy-deny" ->
               testPolicyDeny K cfg s0 = (Val verdict, s1))
           /\ (testName = "network-deny" ->
               testNetworkDeny K cfg s0 = (Val verdict, s1))
           /\ (~ In testName known_tests ->
               verdict = result testName "SKIP" "Unknown test" /\ s1 = s0)
           /\ (forall c,
                  first_probe_call (Demo_Namespace (Demo cfg)) testName
                  = Some c ->
                  exists l, snd s1 = (snd s0 ++ c :: l)%list)
           /\ runTests K cfg post (before ++ [out])%list s1
              = (Val (Tests r), s').
Proof.
  unfold RunAll, bind, now.
  destruct (runTests_returns K cfg (Verify_Tests (Verify cfg)) [] s)
    as (rs & s' & E & Hrs).
  rewrite E. cbn [app] in *. cbv zeta.
  do 2 eexists. split; [reflexivity |]. cbn [Tests].
  split; [exact Hrs |]. split; [rewrite <- Hrs; now rewrite length_map |].
  intros pre testName post Hsplit. rewrite Hsplit in E.
  destruct (runTests_returns K cfg pre [] s) as (before & s0 & E0 & Hb).
  cbn [app] in E0.
  destruct (runTest_returns K cfg testName s0) as (out & s1 & E1 & Hout).
  rewrite (runTests_app K _ _ _ _ _ _ _ E0) in E. cbn [runTests] in E.
  unfold bind at 1 in E. rewrite E1 in E. pose proof E as Epost.
  destruct (runTests_returns K cfg post (before ++ [out])%list s1)
    as (rest & s2 & E2 & _).
  rewrite E2 in E. injection E as Ers _.
  assert (Hlen : List.length before = List.length pre)
    by (rewrite <- Hb; now rewrite length_map).
  destruct (runTest_dispatch _ _ _ _ _ E1) as (verdict & Hd & _ & Hst & Hmsg).
  exists before, s0, out, s1, verdict.
  split; [exact E0 |]. split; [exact E1 |]. split; [exact Hout |].
  split.
  { rewrite <- Ers, <- app_assoc, <- Hlen.
    rewrite firstn_app, firstn_all, Nat.sub_diag. cbn. now rewrite app_nil_r. }
  split.
  { rewrite <- Ers, <- app_assoc, <- Hlen.
    rewrite nth_error_app2, Nat.sub_diag; [reflexivity | lia]. }
  split; [exact Hst |]. split; [exact Hmsg |].
  split; [intros ->; exact Hd |].
  split; [intros ->; exact Hd |].
  split; [intros ->; exact Hd |].
  split; [intros ->; exact Hd |].
  split.
  { intros Hn. rewrite (dispatch_unknown _ _ Hn) in Hd. unfold ret in Hd.
    injection Hd as <- <-. split; reflexivity. }
  split; [| exact Epost].
  intros c Hc. destruct (dispatch_first_call cfg testName c s0 Hc) as (l & El).
  unfold calls in El. rewrite Hd in El. cbn [snd] in El. now exists l.
Qed.





End Further.

(** ** The doctor *)

Section DoctorProperties.

Context {W : Type}.
Variable E : Doctor.Env W.

Local Open Scope go_scope.

Lemma noneFailed_iff checks :
  Doctor.noneFailed checks = true
  <-> Forall (fun c => Doctor.Status c <> "FAIL") checks.
Proof.
  induction checks as [| c rest IH]; cbn [Doctor.noneFailed].
  - split; [constructor | reflexivity].
  - destruct (String.eqb_spec (Doctor.Status c) "FAIL") as [Hf | Hf].
    + split; [discriminate |]. intros Hall. inversion Hall; contradiction.
    + rewrite IH. split.
      * intros Hr. now constructor.
      * intros Hall. now inversion Hall.
Qed.

Lemma noneFailed_app l1 l2 :
  Doctor.noneFailed (l1 ++ l2)
  = Doctor.noneFailed l1 && Doctor.noneFailed l2.
Proof.
  induction l1 as [| c rest IH]; cbn [app Doctor.noneFailed]; [reflexivity |].
  destruct (Doctor.Status c =? "FAIL")%string; [reflexivity | exact IH].
Qed.

(** X20.  [AllPassed] of the doctor holds exactly when no check has status
    FAIL, wherever the check stands in the list: checks with status WARN or
    SKIP do not count as failures, and appending a check with status FAIL
    to any list of checks makes [AllPassed] false. *)
Theorem doctor_AllPassed_iff (r : Doctor.CheckResults) :
  (Doctor.AllPassed r = true
   <-> Forall (fun c => Doctor.Status c <> "FAIL") (Doctor.Checks r))
  /\ forall name message,
       Doctor.AllPassed
         {| Doctor.Checks :=
              Doctor.Checks r ++ [Doctor.check_result name "FAIL" message] |}
       = false.
Proof.
  split.
  - apply noneFailed_iff.
  - intros name message. unfold Doctor.AllPassed. cbn [Doctor.Checks].
    rewrite noneFailed_app. cbn. apply andb_false_r.
Qed.

Lemma returns_host {A} (op : W -> A * W) : returns (fun _ => True) (host op).
Proof. intros s. unfold host. destruct (op (fst s)). eauto. Qed.

Ltac check_done := apply returns_ret; split; [reflexivity | cbn; auto 10].

Lemma checkKubectl_returns :
  returns (check_named "kubectl") (Doctor.checkKubectl E).
Proof.
  unfold Doctor.checkKubectl.
  eapply returns_bind; [apply returns_host |].
  intros [out [e |]] _; check_done.
Qed.

Lemma checkClusterAccess_returns :
  returns (check_named "cluster-access") (Doctor.checkClusterAccess E).
Proof.
  unfold Doctor.checkClusterAccess.
  eapply returns_bind; [apply returns_host |]. intros [e |] _; [check_done |].
  eapply returns_bind; [apply returns_host |]. intros [e |] _; [check_done |].
  eapply returns_bind; [apply returns_host |]. intros [e |] _; [check_done |].
  eapply returns_bind; [apply returns_host |]. intros [e | ctx] _; check_done.
Qed.

Lemma checkPermissions_returns :
  returns (check_named "permissions") (Doctor.checkPermissions E).
Proof.
  unfold Doctor.checkPermissions.
  eapply returns_bind; [apply returns_host |]. intros [e |] _; [check_done |].
  eapply returns_bind; [apply returns_host |]. intros [e |] _; [check_done |].
  eapply returns_bind; [apply returns_host |]. intros [e |] _; check_done.
Qed.

Lemma checkNodes_returns :
  returns (check_named "nodes") (Doctor.checkNodes E).
Proof.
  unfold Doctor.checkNodes.
  eapply returns_bind; [apply returns_host |]. intros [e |] _; [check_done |].
  eapply returns_bind; [apply returns_host |]. intros [e |] _; [check_done |].
  eapply returns_bind; [apply returns_host |].
  intros [e | items] _; [check_done |]. cbv zeta.
  destruct (_ =? _); check_done.
Qed.

Lemma RunChecks_returns (s : W * list Call) :
  exists r s', Doctor.RunChecks E s = (Val r, s').
Proof.
  unfold Doctor.RunChecks, bind.
  destruct (checkKubectl_returns s) as (c1 & s1 & E1 & _). rewrite E1.
  destruct (checkClusterAccess_returns s1) as (c2 & s2 & E2 & _). rewrite E2.
  destruct (checkPermissions_returns s2) as (c3 & s3 & E3 & _). rewrite E3.
  destruct (checkNodes_returns s3) as (c4 & s4 & E4 & _). rewrite E4.
  do 2 eexists. reflexivity.
Qed.

(** X21.  [RunChecks] always runs its four checks.  Whatever the host and
    the cluster answer, it returns four results, named kubectl,
    cluster-access, permissions and nodes, in this order, each with one of
    the statuses PASS, FAIL, WARN and SKIP: a failed check never prevents
    the ones after it. *)
Theorem RunChecks_four_results (s : W * list Call) :
  exists r s',
    Doctor.RunChecks E s = (Val r, s')
    /\ map Doctor.Name (Doctor.Checks r)
       = ["kubectl"; "cluster-access"; "permissions"; "nodes"]
    /\ Forall (fun c => In (Doctor.Status c) ["PASS"; "FAIL"; "WARN"; "SKIP"])
              (Doctor.Checks r).
Proof.
  unfold Doctor.RunChecks, bind.
  destruct (checkKubectl_returns s) as (c1 & s1 & E1 & N1 & S1). rewrite E1.
  destruct (checkClusterAccess_returns s1) as (c2 & s2 & E2 & N2 & S2).
  rewrite E2.
  destruct (checkPermissions_returns s2) as (c3 & s3 & E3 & N3 & S3).
  rewrite E3.
  destruct (checkNodes_returns s3) as (c4 & s4 & E4 & N4 & S4). rewrite E4.
  do 2 eexists. split; [reflexivity |]. cbn [app Doctor.Checks map].
  split; [congruence |].
  repeat (apply Forall_cons; [assumption |]). apply Forall_nil.
Qed.


Lemma scanConditions_spec conditions readyNodes :
  Doctor.scanConditions conditions readyNodes
  = if existsb (fun c => (Doctor.Condition_Type c =? "Ready")%string
                         && (Doctor.Condition_Status c =? "True")%string)
               conditions
    then int (readyNodes + 1) else readyNodes.
Proof.
  induction conditions as [| c rest IH]; cbn [Doctor.scanConditions existsb];
    [reflexivity |].
  destruct ((Doctor.Condition_Type c =? "Ready")%string
            && (Doctor.Condition_Status c =? "True")%string);
    [reflexivity | exact IH].
Qed.

Lemma countReady_spec nodes : forall readyNodes,
  0 <= readyNodes ->
  readyNodes + Z.of_nat (List.length nodes) <= max_int ->
  Doctor.countReady nodes readyNodes
  = readyNodes + Z.of_nat (List.length (filter node_ready nodes)).
Proof.
  assert (Hmin : min_int <= 0) by (unfold min_int; lia).
  induction nodes as [| node rest IH]; intros n Hn Hle;
    cbn [Doctor.countReady filter List.length] in *; [lia |].
  rewrite Nat2Z.inj_succ in Hle. rewrite scanConditions_spec.
  fold (node_ready node). destruct (node_ready node).
  - rewrite int_small by lia. rewrite IH by lia.
    cbn [List.length]. rewrite Nat2Z.inj_succ. lia.
  - rewrite IH by lia. reflexivity.
Qed.

(** X22.  [checkNodes] counts each ready node once.  When the clients can
    be built and the nodes listed (no more of them than a Go slice can
    hold), the check fails with "No ready nodes found" exactly when no
    node has a condition Ready with status True, also when there is no
    node at all; otherwise it passes and reports the number of nodes that
    have such a condition out of the number of nodes. *)
Theorem checkNodes_counts (s : W * list Call) (w1 w2 w3 : W)
    (items : list Doctor.Node) :
  Doctor.ClientConfig E (fst s) = (None, w1) ->
  Doctor.NewForConfig E w1 = (None, w2) ->
  Doctor.Nodes_List E w2 = (inr items, w3) ->
  Z.of_nat (List.length items) <= max_int ->
  let ready := List.length (filter node_ready items) in
  Doctor.checkNodes E s
  = (Val (if (ready =? 0)%nat
          then Doctor.check_result "nodes" "FAIL" "No ready nodes found"
          else Doctor.check_result "nodes" "PASS"
                 (fmt_d (Z.of_nat ready) ++ "/"
                  ++ fmt_d (Z.of_nat (List.length items)) ++ " nodes ready")),
     (w3, snd s)).
Proof.
  intros Hcfg Hnew Hlist Hlen ready.
  unfold Doctor.checkNodes. unfold bind at 1. unfold host at 1.
  rewrite Hcfg. cbv beta iota. unfold bind at 1. unfold host at 1.
  cbn [fst snd]. rewrite Hnew. cbv beta iota. unfold bind at 1.
  unfold host at 1. cbn [fst snd]. rewrite Hlist. cbv beta iota zeta.
  rewrite countReady_spec by lia. fold ready. rewrite Z.add_0_l.
  destruct (Nat.eqb_spec ready 0) as [-> | Hr].
  - reflexivity.
  - destruct (Z.eqb_spec (Z.of_nat ready) 0); [lia | reflexivity].
Qed.

Lemma printChecks_returns checks :
  returns (fun _ => True) (Doctor.printChecks E checks).
Proof.
  induction checks as [| c rest IH]; cbn [Doctor.printChecks].
  - now apply returns_ret.
  - intros s. unfold bind at 1. unfold Print_ at 1. cbv beta iota.
    unfold bind at 1.
    destruct (negb (Doctor.Message c =? "")%string).
    + unfold Print_ at 1. cbv beta iota. apply IH.
    + unfold ret at 1. cbv beta iota. apply IH.
Qed.

(** X23.  The exit status of [kubac doctor] with text output: the command
    runs the checks, prints them, and returns the error
    "some preflight checks failed" exactly when one of the checks has
    status FAIL; with checks that pass, warn or are skipped it returns
    [nil]. *)
Theorem doctorCommand_exit (output : string) (s : W * list Call) :
  (output =? "json")%string = false ->
  exists r s1 s2,
    Doctor.RunChecks E
      (fst s, (snd s ++ [Print ("Running kubac preflight checks..." ++ nl)])%list)
    = (Val r, s1)
    /\ Doctor.doctorCommand E output s
       = (Val (if Doctor.AllPassed r then None
               else Some (PlainError "some preflight checks failed")), s2)
    /\ (Doctor.AllPassed r = true
        <-> Forall (fun c => Doctor.Status c <> "FAIL") (Doctor.Checks r)).
Proof.
  intros Hout. unfold Doctor.doctorCommand. rewrite Hout.
  unfold Println at 1. unfold bind at 1. unfold Print_ at 1. cbv beta iota.
  unfold bind at 1.
  match goal with
  | |- context [Doctor.RunChecks E ?s0] =>
      destruct (RunChecks_returns s0) as (r & s1 & Hrun)
  end.
  rewrite Hrun. exists r, s1. cbv beta iota.
  unfold try, bind at 1. unfold Doctor.PrintText. unfold bind at 1.
  unfold Println at 1, bind at 1, Print_ at 1. cbv beta iota.
  unfold Println at 1, bind at 1, Print_ at 1. cbv beta iota.
  match goal with
  | |- context [Doctor.printChecks E ?cs ?s0] =>
      destruct (printChecks_returns cs s0) as ([] & s2 & Hprint & _)
  end.
  rewrite Hprint. cbv beta iota. unfold ret at 1. cbv beta iota.
  assert (Hiff : Doctor.AllPassed r = true
                 <-> Forall (fun c => Doctor.Status c <> "FAIL")
                            (Doctor.Checks r))
    by apply noneFailed_iff.
  destruct (Doctor.AllPassed r); cbn [negb].
  - unfold Println, bind, Print_, ret. cbv beta iota.
    eexists. split; [reflexivity |]. split; [reflexivity | exact Hiff].
  - unfold ret. eexists. split; [reflexivity |].
    split; [reflexivity | exact Hiff].
Qed.

End DoctorProperties.

(** ** The commands *)

Section CommandProperties.

Context {W Bytes Obj : Type}.
Variable K : API W Bytes Obj.
Variable H : Host W Bytes.

Local Open Scope go_scope.

Lemma bind_Val {A B} (c : M W A) (k : A -> M W B) s a s1 :
  c s = (Val a, s1) -> bind c k s = k a s1.
Proof. intros E. unfold bind. now rewrite E. Qed.

Lemma try_None (c k : M W (option error)) s s1 :
  c s = (Val None, s1) -> try c k s = k s1.
Proof. intros E. unfold try, bind. now rewrite E. Qed.

Lemma try_Some (c k : M W (option error)) s e s1 :
  c s = (Val (Some e), s1) -> try c k s = (Val (Some e), s1).
Proof. intros E. unfold try, bind. now rewrite E. Qed.

Lemma wrapf_Val prefix (c : M W (option error)) s err s1 :
  c s = (Val err, s1) ->
  wrapf prefix c s
  = (Val match err with
         | Some e => Some (WrapError prefix e)
         | None => None
         end, s1).
Proof. intros E. unfold wrapf, bind. now rewrite E. Qed.

(** The file is read once, and the result is a value. *)
Lemma LoadConfig_run path s :
  exists r w,
    LoadConfig K path s = (Val r, (w, (snd s ++ [ReadFile path])%list)).
Proof.
  unfold LoadConfig, bind, call1.
  destruct (os_ReadFile K path (fst s)) as [[e | data] w].
  - now do 2 eexists.
  - destruct (yaml_Unmarshal K data); now do 2 eexists.
Qed.

(** The clients are built without a call on the cluster. *)
Lemma NewVerifier_run s :
  exists err w, NewVerifier H s = (Val err, (w, snd s)).
Proof.
  unfold NewVerifier, try, wrapf, bind, host, ret.
  destruct (ClientConfig H (fst s)) as [[e |] w1]; cbn [fst snd];
    [now do 2 eexists |].
  destruct (NewForConfig H w1) as [[e |] w2]; now do 2 eexists.
Qed.

(** Printing leaves the world as it is and only prints. *)
Lemma printTests_run tests : forall s,
  exists l,
    printTests H tests s = (Val tt, (fst s, (snd s ++ l)%list))
    /\ Forall (fun c => exists text, c = Print text) l.
Proof.
  induction tests as [| test rest IH]; intros s; cbn [printTests].
  - exists []. unfold ret. rewrite app_nil_r. now destruct s.
  - unfold bind at 1. unfold Print_ at 1. cbv beta iota.
    unfold bind at 1. unfold Print_ at 1. cbv beta iota.
    unfold bind at 1. unfold Print_ at 1. cbv beta iota. cbn [fst snd].
    match goal with
    | |- context [printTests H rest ?s0] => destruct (IH s0) as (l & E & F)
    end.
    rewrite E. cbn [fst snd]. rewrite <- !app_assoc.
    eexists. split; [reflexivity |].
    cbn [app]. repeat (apply Forall_cons; [eexists; reflexivity |]). exact F.
Qed.

Lemma PrintSummary_run r s :
  exists l,
    PrintSummary H r s = (Val tt, (fst s, (snd s ++ l)%list))
    /\ Forall (fun c => exists text, c = Print text) l.
Proof.
  unfold PrintSummary. unfold Println.
  unfold bind at 1. unfold Print_ at 1. cbv beta iota.
  unfold bind at 1. unfold Print_ at 1. cbv beta iota. cbn [fst snd].
  unfold bind at 1.
  match goal with
  | |- context [printTests H ?ts ?s0] =>
      destruct (printTests_run ts s0) as (l & E & F)
  end.
  rewrite E. cbv beta iota. cbn [fst snd].
  unfold bind, Print_. cbn [fst snd].
  destruct (AllPassed r); cbn [fst snd]; rewrite <- !app_assoc;
    (eexists; split; [reflexivity |]);
    cbn [app]; repeat (apply Forall_cons; [eexists; reflexivity |]);
    (apply Forall_app; split; [exact F |]);
    repeat (apply Forall_cons; [eexists; reflexivity |]); apply Forall_nil.
Qed.

(** A report without a failed result, for a list of tests as long as a Go
    slice can be. *)
Lemma RunAll_report cfg s :
  Z.of_nat (List.length (Verify_Tests (Verify cfg))) <= max_int ->
  exists r s',
    RunAll K cfg s = (Val (r, None), s')
    /\ map Name (Tests r) = Verify_Tests (Verify cfg)
    /\ (AllPassed r = true
        <-> Forall (fun t => Status t <> "FAIL") (Tests r)).
Proof.
  intros Hlen. unfold RunAll, bind, now.
  destruct (runTests_returns K cfg (Verify_Tests (Verify cfg)) [] s)
    as (rs & s1 & E & Hrs).
  rewrite E. cbn [app] in *. cbv zeta.
  assert (Hl : List.length rs = List.length (Verify_Tests (Verify cfg)))
    by (rewrite <- Hrs; now rewrite length_map).
  rewrite summarize_counts; cbn [Passed Failed Total]; try lia.
  do 2 eexists. split; [reflexivity |].
  unfold AllPassed. cbn [Tests Results_Summary Passed Failed Total].
  split; [exact Hrs |]. rewrite Z.eqb_eq. unfold count_status.
  rewrite Forall_forall. split.
  - intros Hz t Ht Hfail.
    assert (Hin : In t (filter (fun t => (Status t =? "FAIL")%string) rs)).
    { apply filter_In. split; [exact Ht | now apply String.eqb_eq]. }
    destruct (filter (fun t => (Status t =? "FAIL")%string) rs);
      [exact Hin | cbn [List.length] in Hz; lia].
  - intros Hall.
    destruct (filter (fun t => (Status t =? "FAIL")%string) rs)
      as [| t rest] eqn:Hf; [reflexivity | exfalso].
    assert (Hin : In t (filter (fun t => (Status t =? "FAIL")%string) rs))
      by (rewrite Hf; now left).
    apply filter_In in Hin. destruct Hin as [Ht Hs].
    apply (Hall t Ht). now apply String.eqb_eq.
Qed.

(** X25.  What the exit status of [kubac verify] means.  For a list of
    tests as long as a Go slice can be, the command returns; and when it
    returns [nil], then in its own run: the configuration [cfg] was loaded
    from the file; the clients were built; [RunAll] of [cfg], started in
    the state that followed, returned the report [r], with one result per
    configured name and no result of status FAIL; this very report was
    encoded and written, in the state [RunAll] left, to the path given or,
    without one, to kubac-verify-report.json, whatever the output format;
    and after the write the command only printed. *)
Theorem verifyCommand_nil (configFile output reportPath : string)
    (s : W * list Call) :
  (forall cfg s0,
      LoadConfig K configFile s = (Val (inr cfg), s0) ->
      Z.of_nat (List.length (Verify_Tests (Verify cfg))) <= max_int) ->
  let path := if (reportPath =? "")%string
              then "kubac-verify-report.json" else reportPath in
  exists err s',
    verifyCommand K H configFile output reportPath s = (Val err, s')
    /\ (err = None ->
        exists cfg w0 s1 r s2 data w3 l,
          LoadConfig K configFile s
          = (Val (inr cfg), (w0, (snd s ++ [ReadFile configFile])%list))
          /\ NewVerifier H
               (w0, (snd s ++ [ReadFile configFile;
                               Print ("Running kubac verification suite..."
                                      ++ nl)])%list)
             = (Val None, s1)
          /\ RunAll K cfg s1 = (Val (r, None), s2)
          /\ map Name (Tests r) = Verify_Tests (Verify cfg)
          /\ Forall (fun t => Status t <> "FAIL") (Tests r)
          /\ json_MarshalIndent H r = inr data
          /\ os_WriteFile K path data (fst s2) = (None, w3)
          /\ s' = (w3, (snd s2 ++ WriteFile path :: l)%list)
          /\ Forall (fun c => exists text, c = Print text) l).
Proof.
  intros Hlen path. unfold verifyCommand.
  destruct (LoadConfig_run configFile s) as ([e | cfg] & w0 & Hload).
  { rewrite (bind_Val _ _ _ _ _ Hload). unfold ret.
    do 2 eexists. split; [reflexivity | discriminate]. }
  rewrite (bind_Val _ _ _ _ _ Hload). specialize (Hlen _ _ Hload).
  unfold Println at 1. unfold bind at 1. unfold Print_ at 1.
  cbv beta iota. cbn [fst snd]. rewrite <- app_assoc. cbn [app].
  match goal with
  | |- context [try (wrapf _ (NewVerifier H)) _ ?s0] =>
      destruct (NewVerifier_run s0) as ([e |] & w1 & Hnew);
      pose proof (wrapf_Val "failed to create verifier: " _ _ _ _ Hnew) as Hw
  end.
  { rewrite (try_Some _ _ _ _ _ Hw).
    do 2 eexists. split; [reflexivity | discriminate]. }
  rewrite (try_None _ _ _ _ Hw).
  match goal with
  | |- context [bind (RunAll K cfg) _ ?s0] =>
      destruct (RunAll_report cfg s0 Hlen) as (r & s2 & Hrun & Hnames & Hall)
  end.
  rewrite (bind_Val _ _ _ _ _ Hrun). cbv beta iota zeta. fold path.
  assert (Hpath : ((output =? "json")%string || negb (path =? "")%string)
                  = true).
  { apply Bool.orb_true_iff. right. unfold path.
    destruct (reportPath =? "")%string eqn:Hrp; [reflexivity |].
    now rewrite Hrp. }
  unfold WriteReport. rewrite Hpath.
  destruct (json_MarshalIndent H r) as [e | data] eqn:Hjson.
  { unfold try, wrapf, bind, ret.
    do 2 eexists. split; [reflexivity | discriminate]. }
  unfold try at 1, wrapf at 1, bind at 1, bind at 1, call0 at 1.
  destruct (os_WriteFile K path data (fst s2)) as [[e |] w3] eqn:Hwrite.
  { unfold ret. do 2 eexists. split; [reflexivity | discriminate]. }
  unfold ret at 1. cbv beta iota. unfold bind at 1.
  match goal with
  | |- context [PrintSummary H r ?s0] =>
      destruct (PrintSummary_run r s0) as (l & Eprint & Fl)
  end.
  rewrite Eprint. cbv beta iota. unfold bind at 1. unfold Print_ at 1.
  cbv beta iota. cbn [fst snd].
  destruct (AllPassed r); cbn [negb]; unfold ret.
  - do 2 eexists. split; [reflexivity |]. intros _.
    exists cfg, w0. eexists. exists r, s2, data, w3. eexists.
    split; [exact Hload |]. split; [exact Hnew |]. split; [exact Hrun |].
    split; [exact Hnames |]. split; [now apply Hall |].
    split; [exact Hjson |]. split; [exact Hwrite |].
    split; [cbn [fst snd]; rewrite <- !app_assoc; reflexivity |].
    apply Forall_app. split; [exact Fl |].
    apply Forall_cons; [eexists; reflexivity | apply Forall_nil].
  - do 2 eexists. split; [reflexivity | discriminate].
Qed.

(** X26.  [kubac uninstall] asks first.  Without the flag that forces it,
    and with any answer to the prompt but "yes", the command makes no call
    on the cluster: it reads the configuration file, prints, and returns
    [nil], or the error of loading the configuration. *)
Theorem uninstallCommand_cancelled (configFile : string) (s : W * list Call) :
  (forall w, fst (fmt_Scanln H w) <> "yes") ->
  exists err s' l,
    uninstallCommand K H configFile false s = (Val err, s')
    /\ snd s' = (snd s ++ l)%list
    /\ Forall (fun c => is_cluster_call c = false) l
    /\ (err = None
        \/ exists e, err = Some (WrapError "failed to load config: " e)
                     /\ fst (LoadConfig K configFile s) = Val (inl e)).
Proof.
  intros Hanswer. unfold uninstallCommand.
  destruct (LoadConfig_run configFile s) as ([e | cfg] & w0 & Hload);
    rewrite (bind_Val _ _ _ _ _ Hload).
  - unfold ret. do 3 eexists. split; [reflexivity |].
    split; [reflexivity |].
    split; [repeat (apply Forall_cons; [reflexivity |]); apply Forall_nil |].
    right. exists e. split; [reflexivity | now rewrite Hload].
  - cbn [negb]. unfold Println, bind, Print_, host. cbn [fst snd].
    specialize (Hanswer w0).
    destruct (fmt_Scanln H w0) as [response w1]. cbn [fst] in Hanswer.
    apply String.eqb_neq in Hanswer. rewrite Hanswer. cbn [negb fst snd].
    unfold ret. do 3 eexists. split; [reflexivity |].
    rewrite <- !app_assoc. split; [reflexivity |].
    split; [cbn [app]; repeat (apply Forall_cons; [reflexivity |]);
            apply Forall_nil |].
    now left.
Qed.

Lemma emits_host {A} E (op : W -> A * W) : emits E (host op).
Proof.
  intros s. exists []. unfold calls, host. destruct (op (fst s)).
  cbn [snd]. rewrite app_nil_r. split; [reflexivity | apply Forall_nil].
Qed.

Lemma emits_mkdirs_in (E : Call -> Prop) dirs :
  (forall dir, In dir dirs -> E (MkdirAll dir)) -> emits E (mkdirs K dirs).
Proof.
  induction dirs as [| dir rest IH]; intros HE; cbn [mkdirs].
  - apply emits_ret.
  - apply emits_try.
    + apply emits_wrapf, emits_call0, HE. now left.
    + apply IH. intros d Hd. apply HE. now right.
Qed.

(** X27.  [kubac init] never overwrites a configuration and never touches
    the cluster.  When kubac.yaml can be stat'ed the command does nothing
    at all; otherwise all it does is print, write the one file kubac.yaml,
    and, only in the mode gitops, create directories of the GitOps layout
    under clusters/my-cluster. *)
Theorem initCommand_calls (clusterProfile mode : string) (s : W * list Call) :
  exists l,
    calls (initCommand K H clusterProfile mode s) = (snd s ++ l)%list
    /\ Forall (init_call K mode) l
    /\ (fst (os_Stat H "kubac.yaml" (fst s)) = None ->
        l = []
        /\ fst (initCommand K H clusterProfile mode s)
           = Val (Some (PlainError
                          "kubac.yaml already exists, refusing to overwrite"))).
Proof.
  destruct (initCommand K H clusterProfile mode s) as [out s'] eqn:Hrun.
  unfold calls. cbn [fst snd].
  unfold initCommand in Hrun. unfold bind at 1 in Hrun.
  unfold host at 1 in Hrun.
  destruct (os_Stat H "kubac.yaml" (fst s)) as [[e |] w];
    cbv beta iota in Hrun; cbn [is_nil fst] in *.
  - match type of Hrun with
    | ?c ?s0 = _ =>
        assert (Hem : emits (init_call K mode) c)
    end.
    { cbv zeta. apply emits_try.
      - apply emits_wrapf. unfold WriteConfig.
        destruct (yaml_Marshal K _); [apply emits_ret |].
        apply emits_try; [| apply emits_ret].
        apply emits_wrapf, emits_call0. reflexivity.
      - apply emits_bind; [apply emits_Print; exact I | intros _].
        apply emits_try.
        + destruct (mode =? "gitops")%string eqn:Hm; [| apply emits_ret].
          apply String.eqb_eq in Hm. unfold when.
          change (GitOps_Path (GitOps (DefaultConfig clusterProfile mode)))
            with "clusters/my-cluster".
          change ("clusters/my-cluster" =? "")%string with false.
          cbv iota. apply emits_try.
          * apply emits_mkdirs_in. intros dir Hd. split; assumption.
          * apply emits_bind; [apply emits_Print; exact I | intros _].
            apply emits_ret.
        + repeat (apply emits_bind; [apply emits_Println; exact I | intros _]).
          apply emits_ret. }
    destruct (Hem (w, snd s)) as (l & El & Fl).
    unfold calls in El. rewrite Hrun in El. cbn [snd] in El.
    exists l. split; [exact El |]. split; [exact Fl | discriminate].
  - unfold ret in Hrun. injection Hrun as <- <-. exists []. cbn [snd].
    rewrite app_nil_r. split; [reflexivity |].
    split; [apply Forall_nil | intros _; split; reflexivity].
Qed.

Lemma mkdirs_keeps_file (path : string) dirs : forall s,
  (forall dir w,
      fst (os_ReadFile K path (snd (os_MkdirAll K dir w)))
      = fst (os_ReadFile K path w)) ->
  exists err s',
    mkdirs K dirs s = (Val err, s')
    /\ fst (os_ReadFile K path (fst s')) = fst (os_ReadFile K path (fst s)).
Proof.
  induction dirs as [| dir rest IH]; intros s Hmk; cbn [mkdirs].
  - unfold ret. now do 2 eexists.
  - unfold try at 1, bind at 1, wrapf at 1, bind at 1, call0 at 1.
    pose proof (Hmk dir (fst s)) as Hd.
    destruct (os_MkdirAll K dir (fst s)) as [[e |] w]; cbn [snd] in Hd;
      unfold ret at 1; cbv beta iota.
    + unfold ret. do 2 eexists. split; [reflexivity | exact Hd].
    + destruct (IH (w, (snd s ++ [MkdirAll dir])%list) Hmk)
        as (err & s' & E & Hr).
      rewrite E. do 2 eexists. split; [reflexivity |].
      rewrite Hr. exact Hd.
Qed.

(** X28.  The first use: [kubac init] and then a load.  If the YAML
    library reads back the documents it writes, a file written to
    kubac.yaml is read back from it, and creating a directory does not
    change what is read from kubac.yaml, then after a successful
    [kubac init], in either mode, [LoadConfig] of kubac.yaml returns the
    default configuration for the profile and the mode that were given. *)
Theorem initCommand_then_LoadConfig (clusterProfile mode : string)
    (s s1 : W * list Call) :
  (forall n data, yaml_emit K n = inr data -> yaml_parse K data = inr n) ->
  (forall data w w',
      os_WriteFile K "kubac.yaml" data w = (None, w') ->
      fst (os_ReadFile K "kubac.yaml" w') = inr data) ->
  (forall dir w,
      fst (os_ReadFile K "kubac.yaml" (snd (os_MkdirAll K dir w)))
      = fst (os_ReadFile K "kubac.yaml" w)) ->
  initCommand K H clusterProfile mode s = (Val None, s1) ->
  fst (LoadConfig K "kubac.yaml" s1)
  = Val (inr (DefaultConfig clusterProfile mode)).
Proof.
  intros Hyaml Hfs Hmk Hrun.
  assert (Hload : forall s2 data,
             yaml_emit K (Config_to_yaml (DefaultConfig clusterProfile mode))
             = inr data ->
             fst (os_ReadFile K "kubac.yaml" (fst s2)) = inr data ->
             fst (LoadConfig K "kubac.yaml" s2)
             = Val (inr (DefaultConfig clusterProfile mode))).
  { intros s2 data Hemit Hread. unfold LoadConfig, bind, call1.
    destruct (os_ReadFile K "kubac.yaml" (fst s2)) as [r w].
    cbn [fst] in Hread. subst r. unfold yaml_Unmarshal.
    rewrite (Hyaml _ _ Hemit). rewrite Config_yaml_round_trip; [reflexivity |].
    repeat (apply Forall_cons;
            [unfold is_int, min_int, max_int; cbn; lia |]).
    apply Forall_nil. }
  unfold initCommand in Hrun. unfold bind at 1 in Hrun.
  unfold host at 1 in Hrun.
  destruct (os_Stat H "kubac.yaml" (fst s)) as [[e |] w0];
    cbv beta iota in Hrun; cbn [is_nil] in Hrun;
    [| unfold ret in Hrun; discriminate Hrun].
  cbv zeta in Hrun. unfold try at 1, bind at 1, wrapf at 1, bind at 1 in Hrun.
  unfold WriteConfig, yaml_Marshal in Hrun.
  destruct (yaml_emit K (Config_to_yaml (DefaultConfig clusterProfile mode)))
    as [e1 | data] eqn:Hemit;
    [unfold ret in Hrun; discriminate Hrun |].
  unfold try at 1, bind at 1, wrapf at 1, bind at 1, call0 at 1 in Hrun.
  cbn [fst snd] in Hrun.
  destruct (os_WriteFile K "kubac.yaml" data w0) as [[e1 |] w1] eqn:Hwrite;
    unfold ret at 1 in Hrun; cbv beta iota in Hrun;
    [unfold ret in Hrun; discriminate Hrun |].
  unfold ret at 1 in Hrun. cbv beta iota in Hrun.
  unfold ret at 1 in Hrun. cbv beta iota in Hrun.
  unfold bind at 1 in Hrun. unfold Print_ at 1 in Hrun.
  cbv beta iota in Hrun. cbn [fst snd] in Hrun.
  pose proof (Hfs _ _ _ Hwrite) as Hread.
  unfold try at 1, bind at 1 in Hrun.
  destruct (mode =? "gitops")%string.
  - unfold when in Hrun.
    unfold try at 1, bind at 1 in Hrun.
    match type of Hrun with
    | context [mkdirs K ?dirs ?s0] =>
        destruct (mkdirs_keeps_file "kubac.yaml" dirs s0 Hmk)
          as ([e1 |] & s2 & Emk & Hkeep)
    end; rewrite Emk in Hrun; cbn [fst snd] in Hkeep.
    + unfold ret in Hrun. discriminate Hrun.
    + unfold bind, Println, Print_, ret in Hrun. cbn [fst snd] in Hrun.
      injection Hrun as <-. apply (Hload _ data eq_refl). cbn [fst].
      now rewrite Hkeep.
  - unfold when, bind, Println, Print_, ret in Hrun. cbn [fst snd] in Hrun.
    injection Hrun as <-. now apply (Hload _ data eq_refl).
Qed.

Lemma emits_LoadConfig (E : Call -> Prop) path :
  E (ReadFile path) -> emits E (LoadConfig K path).
Proof.
  intros HE. unfold LoadConfig. apply emits_bind.
  - now apply emits_call1.
  - intros [e | data]; [apply emits_ret |].
    destruct (yaml_Unmarshal K data); apply emits_ret.
Qed.

Lemma emits_NewInstaller E : emits E (NewInstaller H).
Proof.
  unfold NewInstaller.
  repeat (apply emits_try; [apply emits_wrapf, emits_host |]).
  apply emits_ret.
Qed.

(** X29.  The flag of [kubac install] wins over the file.  With the flag
    that sets the mode to gitops, whatever the configuration file says and
    whatever fails, the only call of the command on the cluster is the
    creation of the namespace kubac-system: nothing is applied and no
    deployment is polled. *)
Theorem installCommand_gitops_flag (configFile clusterProfile : string)
    (s : W * list Call) :
  exists l,
    calls (installCommand K H configFile "gitops" clusterProfile s)
    = (snd s ++ l)%list
    /\ Forall (fun c => is_cluster_call c = true ->
                        c = NamespaceCreate "kubac-system") l.
Proof.
  revert s.
  change (emits (fun c => is_cluster_call c = true ->
                          c = NamespaceCreate "kubac-system")
                (installCommand K H configFile "gitops" clusterProfile)).
  unfold installCommand. apply emits_bind.
  { apply emits_LoadConfig. discriminate. }
  intros [e | cfg]; [apply emits_ret |].
  change (negb ("gitops" =? "")%string) with true. cbv iota zeta.
  set (cfg' := if negb (clusterProfile =? "")%string
               then set_ClusterProfile (set_Mode cfg "gitops") clusterProfile
               else set_Mode cfg "gitops").
  assert (Hmode : Mode cfg' = "gitops")
    by (unfold cfg'; destruct (negb _); reflexivity).
  apply emits_bind; [apply emits_Print; discriminate | intros _].
  apply emits_try; [apply emits_wrapf, emits_NewInstaller |].
  apply emits_try.
  - apply emits_wrapf. unfold Install. rewrite Hmode, String.eqb_refl.
    apply emits_bind; [apply emits_Println; discriminate | intros _].
    apply emits_try.
    + unfold createNamespace. apply emits_bind.
      * apply emits_call0. reflexivity.
      * intros err. destruct (_ && _); apply emits_ret.
    + eapply emits_impl; [| apply emits_installGitOps].
      intros []; cbn; tauto || discriminate.
  - repeat (apply emits_bind; [apply emits_Println; discriminate | intros _]).
    apply emits_ret.
Qed.

End CommandProperties.

(** * Further runs on the simulated cluster *)

(** X1 on the bundle of metrics-server: a manifest and a README. *)
Lemma applyManifests_success_witness :
  fst (applyManifests Sim.api "bundles/platform/metrics-server"
         (Sim.demo_cluster, []))
  = Val None
  /\ exists l : list Call,
       snd (snd (applyManifests Sim.api "bundles/platform/metrics-server"
                   (Sim.demo_cluster, [])))
       = ReadDir "bundles/platform/metrics-server" :: l
       /\ files_read l = ["bundles/platform/metrics-server/deployment.yaml"]
       /\ applied l = 1%nat.
Proof.
  split; [vm_compute; reflexivity |].
  destruct (applyManifests_success Sim.api "bundles/platform/metrics-server"
              (Sim.demo_cluster, [])
              (snd (applyManifests Sim.api "bundles/platform/metrics-server"
                      (Sim.demo_cluster, []))))
    as (entries & w & l & Hdir & Hlog & _ & Hfiles & Happ);
    [vm_compute; reflexivity |].
  exists l. split; [exact Hlog |].
  vm_compute in Hdir. injection Hdir as <- _.
  split; [exact Hfiles | exact Happ].
Defined.

(** X2 on a directory with a README and a subdirectory. *)
Lemma applyManifests_nothing_to_apply_witness :
  filter (is_manifest Sim.api)
    [ {| Entry_Name := "README.md"; Entry_IsDir := false |};
      {| Entry_Name := "charts.yaml"; Entry_IsDir := true |} ] = []
  /\ applyManifests Sim.api "bundles/empty" (Sim2.bundles, [])
     = (Val None, (Sim2.bundles, [ReadDir "bundles/empty"])).
Proof.
  split; [reflexivity |].
  apply (applyManifests_nothing_to_apply Sim.api "bundles/empty"
           [ {| Entry_Name := "README.md"; Entry_IsDir := false |};
             {| Entry_Name := "charts.yaml"; Entry_IsDir := true |} ]
           Sim2.bundles (Sim2.bundles, [])).
  - vm_compute; reflexivity.
  - reflexivity.
Defined.

(** X3 on a directory whose second manifest is not a manifest: the first
    is applied, the third is never read. *)
Lemma applyManifests_failure_witness :
  fst (applyManifests Sim.api "bundles/broken" (Sim2.bundles, []))
  = Val (Some (WrapError "failed to apply manifest bundles/broken/b.yml: "
                 (PlainError "invalid character looking for beginning of value")))
  /\ files_read (snd (snd (applyManifests Sim.api "bundles/broken"
                             (Sim2.bundles, []))))
     = ["bundles/broken/a.yaml"; "bundles/broken/b.yml"].
Proof.
  split; [vm_compute; reflexivity |].
  destruct (applyManifests_failure Sim.api "bundles/broken" (Sim2.bundles, [])
              (snd (applyManifests Sim.api "bundles/broken" (Sim2.bundles, [])))
              (WrapError "failed to apply manifest bundles/broken/b.yml: "
                 (PlainError "invalid character looking for beginning of value")))
    as [(inner & w & Hdir & _) | (entries & w & l & before & p & after & inner
                                  & Hdir & Hlog & _)];
    [vm_compute; reflexivity | vm_compute in Hdir; discriminate Hdir |].
  vm_compute; reflexivity.
Defined.

(** X4 on the configuration with every switch off. *)
Lemma installDirect_skips_disabled_witness :
  installDirect Sim.api Sim2.bare (Sim.demo_cluster, [])
  = (Val None, (Sim.demo_cluster, []))
  /\ exists l,
       calls (installDirect Sim.api Sim2.bare (Sim.demo_cluster, []))
       = ([] ++ l)%list
       /\ ~ In (ReadDir "bundles/netpol") l.
Proof.
  split.
  - apply (proj2 (installDirect_skips_disabled Sim.api Sim2.bare
                    (Sim.demo_cluster, []))); reflexivity.
  - destruct (proj1 (installDirect_skips_disabled Sim.api Sim2.bare
                       (Sim.demo_cluster, []))) as (l & El & Hl).
    exists l. split; [exact El |].
    apply (Hl (last (direct_steps Sim2.bare)
                 {| step_name := ""; step_enabled := false;
                    step_announce := ""; step_manifests := "";
                    step_failure := ""; step_done := "";
                    step_readinessCheck := None |}));
      [cbn; auto 10 | reflexivity].
Defined.

(** X5 on the default configuration and a cluster where Kyverno never gets
    ready: the install stops after the wait of 120 s and the baseline
    policies are not applied. *)
Lemma installDirect_stops_when_not_ready_witness :
  match direct_steps (DefaultConfig "local" "direct") with
  | A1 :: A2 :: B :: post =>
      fst (installDirect Sim.api (DefaultConfig "local" "direct")
             (Sim2.stuck, []))
      = Val (Some (WrapError "kyverno not ready: " ErrWaitTimeout))
      /\ exists l,
           snd (snd (installDirect Sim.api (DefaultConfig "local" "direct")
                       (Sim2.stuck, [])))
           = ([] ++ l)%list
           /\ forall C, In C post -> ~ In (ReadDir (step_manifests C)) l
  | _ => False
  end.
Proof.
  cbv beta iota zeta delta [direct_steps].
  match goal with
  | |- fst ?run = _ /\ _ =>
      pose proof (installDirect_stops_when_not_ready Sim.api
                    (DefaultConfig "local" "direct") [_; _] _
                    {| ready_announce := "  Waiting for Kyverno to be ready...";
                       ready_namespace := "kyverno";
                       ready_deployment := "kyverno";
                       ready_timeout := 120 * Second;
                       ready_failure := "kyverno not ready: " |}
                    _ (Sim2.stuck, []) _ _ (snd run) ErrWaitTimeout
                    (eq_refl : filter step_enabled
                                 (direct_steps (DefaultConfig "local" "direct"))
                               = [_; _] ++ _ :: _)%list
                    eq_refl
                    ltac:(vm_compute; reflexivity)
                    ltac:(vm_compute; reflexivity)
                    ltac:(vm_compute; reflexivity)) as [Hrun Hlog]
  end.
  split; [rewrite Hrun; reflexivity | exact Hlog].
Defined.

(** X7 on a cluster whose deployments are ready after 15 s: three reads
    show a missing replica, the fourth is ready. *)
Lemma waitForDeployment_returns_when_ready_witness :
  exists w,
    waitForDeployment Sim.api "kyverno" "kyverno" (120 * Second)
                      (Sim2.recovering, [])
    = (Val None,
       (w, ([] ++ poll_trace 3 (DeploymentGet "kyverno" "kyverno")
                             (5 * Second))%list)).
Proof.
  apply (waitForDeployment_returns_when_ready Sim.api 3 "kyverno" "kyverno"
           (120 * Second) (Sim2.recovering, [])).
  - vm_compute; discriminate.
  - cbn [settles fst].
    do 3 (do 2 eexists;
          split; [vm_compute; reflexivity
                 | split; [eexists; split; [reflexivity | vm_compute; discriminate]
                          | ]]).
    observed.
Defined.


(** X10 on a cluster where kubac-system exists: the API server's error is
    returned and nothing is installed. *)
Lemma Install_namespace_first_witness :
  Sim.create_namespace "kubac-system" Sim.demo_cluster
  = (Some (Sim.already_exists "namespaces" "kubac-system"), Sim.demo_cluster)
  /\ Install Sim.api (DefaultConfig "local" "direct") (Sim.demo_cluster, [])
     = (Val (Some (Sim.already_exists "namespaces" "kubac-system")),
        (Sim.demo_cluster,
         [Print ((nl ++ "→ Creating kubac-system namespace...") ++ nl);
          NamespaceCreate "kubac-system"])).
Proof.
  split; [reflexivity |].
  rewrite (Install_namespace_first Sim.api (DefaultConfig "local" "direct")
             (Sim.demo_cluster, [])
             (Some (Sim.already_exists "namespaces" "kubac-system"))
             Sim.demo_cluster eq_refl).
  reflexivity.
Defined.

(** X11 on a cluster where the demo namespace exists. *)
Lemma DeployDemo_calls_witness :
  fst (DeployDemo Sim.api (DefaultConfig "local" "direct")
         (Sim.demo_cluster, []))
  = Val (Some (Sim.already_exists "namespaces" "kubac-demo")).
Proof.
  destruct (DeployDemo_calls Sim.api (DefaultConfig "local" "direct")
              (Sim.demo_cluster, [])) as (l & _ & _ & Hfail).
  apply (Hfail (Sim.already_exists "namespaces" "kubac-demo") Sim.demo_cluster);
    reflexivity.
Defined.

(** X14 on two names that are no tests. *)
Lemma RunAll_unknown_tests_witness :
  (forall name,
      In name ["pod-heal"; "HPA-SCALE"] -> ~ In name known_tests)
  /\ exists r,
       RunAll Sim.api
         (Sim2.with_tests (DefaultConfig "local" "direct")
                          ["pod-heal"; "HPA-SCALE"])
         (Sim.demo_cluster, [])
       = (Val (r, None), (Sim.demo_cluster, []))
       /\ map Name (Tests r) = ["pod-heal"; "HPA-SCALE"]
       /\ AllPassed r = true.
Proof.
  assert (Hn : forall name,
             In name ["pod-heal"; "HPA-SCALE"] -> ~ In name known_tests).
  { intros name [<- | [<- | []]] Hk; cbn in Hk;
      repeat destruct Hk as [Hk | Hk]; try discriminate Hk; exact Hk. }
  split; [exact Hn |].
  destruct (RunAll_unknown_tests Sim.api
              (Sim2.with_tests (DefaultConfig "local" "direct")
                               ["pod-heal"; "HPA-SCALE"])
              (Sim.demo_cluster, []) Hn)
    as (r & Hrun & Hnames & _ & _ & _ & Hall).
  exists r. auto.
Defined.

(** X18 on a configuration with the two tests that only read. *)
Lemma RunAll_mutations_witness :
  exists l,
    calls (RunAll Sim.api
             (Sim2.with_tests (DefaultConfig "local" "direct")
                              ["hpa-scale"; "network-deny"])
             (Sim.demo_cluster, []))
    = ([] ++ l)%list
    /\ no_cluster_mutation l.
Proof.
  destruct (RunAll_mutations Sim.api
              (Sim2.with_tests (DefaultConfig "local" "direct")
                               ["hpa-scale"; "network-deny"])
              (Sim.demo_cluster, [])) as (l & El & _ & Hro).
  exists l. split; [exact El |].
  apply Hro; intros [H | [H | []]]; discriminate H.
Defined.

(** X19 on a cluster whose deployment has no pod. *)
Lemma testPodSelfHeal_no_target_witness :
  testPodSelfHeal Sim.api (DefaultConfig "local" "direct") (Sim2.no_pods, [])
  = (Val (result "pod-selfheal" "FAIL" "No demo pods found"),
     (Sim2.no_pods,
      [DeploymentGet "kubac-demo" "demo"; PodList "kubac-demo" "app=demo"])).
Proof.
  exact (testPodSelfHeal_no_target Sim.api (DefaultConfig "local" "direct")
           (Sim2.no_pods, [])
           {| Spec_Replicas := Some 3; Status_ReadyReplicas := 3 |}
           Sim2.no_pods eq_refl).
Defined.

(** X22 on three nodes of which one is ready. *)
Lemma checkNodes_counts_witness :
  Doctor.checkNodes (Sim2.doctor_env Sim2.three_nodes) (Sim.demo_cluster, [])
  = (Val (Doctor.check_result "nodes" "PASS" "1/3 nodes ready"),
     (Sim.demo_cluster, [])).
Proof.
  assert (Hlen : Z.of_nat (List.length Sim2.three_nodes) <= max_int)
    by (vm_compute; discriminate).
  exact (checkNodes_counts (Sim2.doctor_env Sim2.three_nodes)
           (Sim.demo_cluster, []) Sim.demo_cluster Sim.demo_cluster
           Sim.demo_cluster Sim2.three_nodes eq_refl eq_refl eq_refl Hlen).
Defined.

(** X23 on a cluster without a ready node: the command fails. *)
Lemma doctorCommand_exit_witness :
  exists r s1 s2,
    Doctor.RunChecks (Sim2.doctor_env [Sim2.node [("Ready", "False")]])
      (Sim.demo_cluster, [Print ("Running kubac preflight checks..." ++ nl)])
    = (Val r, s1)
    /\ Doctor.doctorCommand (Sim2.doctor_env [Sim2.node [("Ready", "False")]])
         "text" (Sim.demo_cluster, [])
       = (Val (if Doctor.AllPassed r then None
               else Some (PlainError "some preflight checks failed")), s2)
    /\ (Doctor.AllPassed r = true
        <-> Forall (fun c => Doctor.Status c <> "FAIL") (Doctor.Checks r)).
Proof.
  exact (doctorCommand_exit (Sim2.doctor_env [Sim2.node [("Ready", "False")]])
           "text" (Sim.demo_cluster, []) eq_refl).
Defined.

(** X25 on the demo cluster, with the default configuration in kubac.yaml:
    the four tests pass and the command returns [nil]. *)
Lemma verifyCommand_nil_witness :
  fst (verifyCommand Sim.api (Sim2.host "no") "kubac.yaml" "text" ""
         (Sim2.configured (DefaultConfig "local" "direct"), []))
  = Val None
  /\ exists err s',
       verifyCommand Sim.api (Sim2.host "no") "kubac.yaml" "text" ""
         (Sim2.configured (DefaultConfig "local" "direct"), [])
       = (Val err, s')
       /\ (err = None ->
           exists cfg w0 s1 r s2 data w3 l,
             LoadConfig Sim.api "kubac.yaml"
               (Sim2.configured (DefaultConfig "local" "direct"), [])
             = (Val (inr cfg), (w0, [ReadFile "kubac.yaml"]))
             /\ NewVerifier (Sim2.host "no")
                  (w0, [ReadFile "kubac.yaml";
                        Print ("Running kubac verification suite..." ++ nl)])
                = (Val None, s1)
             /\ RunAll Sim.api cfg s1 = (Val (r, None), s2)
             /\ map Name (Tests r) = Verify_Tests (Verify cfg)
             /\ Forall (fun t => Status t <> "FAIL") (Tests r)
             /\ json_MarshalIndent (Sim2.host "no") r = inr data
             /\ os_WriteFile Sim.api "kubac-verify-report.json" data (fst s2)
                = (None, w3)
             /\ s' = (w3, (snd s2 ++ WriteFile "kubac-verify-report.json"
                                       :: l)%list)
             /\ Forall (fun c => exists text, c = Print text) l).
Proof.
  split; [vm_compute; reflexivity |].
  apply (verifyCommand_nil Sim.api (Sim2.host "no") "kubac.yaml" "text" ""
           (Sim2.configured (DefaultConfig "local" "direct"), [])).
  intros cfg s0 Hload. vm_compute in Hload. injection Hload as Hcfg _.
  subst cfg. vm_compute. discriminate.
Defined.

(** X26 with the answer "no". *)
Lemma uninstallCommand_cancelled_witness :
  exists err s' l,
    uninstallCommand Sim.api (Sim2.host "no") "kubac.yaml" false
      (Sim2.configured (DefaultConfig "local" "direct"), [])
    = (Val err, s')
    /\ snd s' = ([] ++ l)%list
    /\ Forall (fun c => is_cluster_call c = false) l
    /\ (err = None
        \/ exists e,
             err = Some (WrapError "failed to load config: " e)
             /\ fst (LoadConfig Sim.api "kubac.yaml"
                       (Sim2.configured (DefaultConfig "local" "direct"), []))
                = Val (inl e)).
Proof.
  apply (uninstallCommand_cancelled Sim.api (Sim2.host "no") "kubac.yaml"
           (Sim2.configured (DefaultConfig "local" "direct"), [])).
  intros w. cbn. discriminate.
Defined.

(** X28 in the mode gitops, in an empty directory. *)
Lemma initCommand_then_LoadConfig_witness :
  fst (LoadConfig Sim.api "kubac.yaml"
         (snd (initCommand Sim.api (Sim2.host "no") "local" "gitops"
                 (Sim.empty_cluster, []))))
  = Val (inr (DefaultConfig "local" "gitops")).
Proof.
  apply (initCommand_then_LoadConfig Sim.api (Sim2.host "no") "local" "gitops"
           (Sim.empty_cluster, [])).
  - intros n data [= <-]. reflexivity.
  - intros data w w' [= <-]. reflexivity.
  - intros dir w. unfold Sim.api, os_ReadFile, os_MkdirAll, Sim.mkdir_all.
    destruct (existsb _ _); [reflexivity |].
    cbn [snd]. unfold Sim.read_file. cbn [Sim.files Sim.with_files].
    destruct (find _ _) as [[? ?] |]; reflexivity.
  - vm_compute. reflexivity.
Defined.

(** X27 in a directory that holds a kubac.yaml: the command refuses. *)
Lemma initCommand_calls_witness :
  fst (initCommand Sim.api (Sim2.host "no") "local" "gitops"
         (Sim2.configured (DefaultConfig "local" "direct"), []))
  = Val (Some (PlainError "kubac.yaml already exists, refusing to overwrite"))
  /\ calls (initCommand Sim.api (Sim2.host "no") "local" "gitops"
              (Sim2.configured (DefaultConfig "local" "direct"), []))
     = [].
Proof.
  destruct (initCommand_calls Sim.api (Sim2.host "no") "local" "gitops"
              (Sim2.configured (DefaultConfig "local" "direct"), []))
    as (l & El & _ & Hstat).
  destruct (Hstat eq_refl) as [Hl Hres]. subst l.
  split; [exact Hres | exact El].
Defined.


(** C3 on the demo cluster and the default configuration: the third
    test, policy-deny, is run by its probe in the state that pod-selfheal
    and hpa-scale left, and the log gains the creation of the pod. *)
Lemma RunAll_runs_every_test_witness :
  let cfg := DefaultConfig "local" "direct" in
  exists before s0 s1 verdict l,
    runTests Sim.api cfg ["pod-selfheal"; "hpa-scale"] []
      (Sim.demo_cluster, [])
    = (Val before, s0)
    /\ testPolicyDeny Sim.api cfg s0 = (Val verdict, s1)
    /\ snd s1
       = (snd s0 ++ PodCreate "kubac-demo" (privileged_test_pod "kubac-demo")
                :: l)%list.
Proof.
  intros cfg.
  destruct (RunAll_runs_every_test Sim.api cfg (Sim.demo_cluster, []))
    as (r & s' & _ & _ & _ & Hall).
  destruct (Hall ["pod-selfheal"; "hpa-scale"] "policy-deny" ["network-deny"]
              eq_refl)
    as (before & s0 & out & s1 & verdict & E0 & _ & _ & _ & _ & _ & _
        & _ & _ & Hpd & _ & _ & Hfirst & _).
  destruct (Hfirst (PodCreate "kubac-demo" (privileged_test_pod "kubac-demo"))
              eq_refl) as (l & El).
  exists before, s0, s1, verdict, l.
  split; [exact E0 |]. split; [exact (Hpd eq_refl) | exact El].
Defined.

